(** * mp4_to_h264_gpu_with_log: a shallow embedding of the batch compressor

    Source: [mp4_to_h264_gpu_with_log.py].  The script lists the [.mp4] files
    of the working directory, asks ffmpeg which hardware encoder is there,
    runs ffmpeg once per file while reading its diagnostic stream, keeps the
    output only when it is smaller than the input, moves inputs that failed
    or did not shrink to [skipped/], and appends one CSV row per file.

    Modelling conventions.
    - A Python [str] is kept as the bytes of its UTF-8 form.  [str.strip] and
      [str.split] work on its characters, with the white space of Unicode;
      [int] and [float] first turn Unicode spaces and decimal digits into
      ASCII, as CPython does.  [str.lower] is taken on ASCII letters: no
      other character becomes one of the letters the script looks for.
    - A Python [float] is the rational number the double denotes ([Q]), with
      [inf] and [nan] kept apart; [float(s)], [timedelta] and the arithmetic
      of [log_to_csv] round to the nearest double, ties to even.
    - The file system is a finite map from normalised paths to sizes in
      bytes, together with the set of paths on which the operating system
      refuses removal and renaming.  Directories are not tracked:
      [init_folders] is taken to have succeeded.  A size is below 2^53
      bytes, so that its quotient by 2^20 is a double.
    - The log is kept apart from the other files, as the rows written to
      it; opening and writing it is taken to succeed.
    - ffmpeg is an oracle: given the command line and the files it answers
      with the lines of its diagnostic stream (as bytes), its exit status
      and the size of the output file the script finds when it looks for
      it, if any.  A process whose stream has come to its end has exited.
      A process the script stops reading before that goes on by itself:
      what it writes from then on is not part of the world.
    - The only loop of the script that can run forever takes fuel. *)

From Stdlib Require Import ZArith QArith Ascii String List Lia Bool DecimalString Lqa.
From stdpp Require Import base option list gmap strings.

Local Open Scope Z_scope.

(* ====================================================================== *)
(** * Python string primitives *)
(* ====================================================================== *)

Module PyStr.

(** ** Characters

    [units] cuts a byte string into characters: for each well-formed UTF-8
    sequence its code point and its bytes; for a byte that begins none,
    [None] and that byte. *)

Definition in_range (lo hi : N) (c : ascii) : bool :=
  let n := N_of_ascii c in ((lo <=? n) && (n <=? hi))%N.

Definition continuation (c : ascii) : bool := in_range 128 191 c.

Definition seq2 (a b : ascii) : option N :=
  if in_range 194 223 a && continuation b
  then Some ((N_of_ascii a - 192) * 64 + (N_of_ascii b - 128))%N
  else None.

Definition seq3 (a b c : ascii) : option N :=
  let x := N_of_ascii a in
  if in_range 224 239 a
     && in_range (if (x =? 224)%N then 160 else 128)
                 (if (x =? 237)%N then 159 else 191) b
     && continuation c
  then Some ((x - 224) * 4096 + (N_of_ascii b - 128) * 64
             + (N_of_ascii c - 128))%N
  else None.

Definition seq4 (a b c d : ascii) : option N :=
  let x := N_of_ascii a in
  if in_range 240 244 a
     && in_range (if (x =? 240)%N then 144 else 128)
                 (if (x =? 244)%N then 143 else 191) b
     && continuation c && continuation d
  then Some ((x - 240) * 262144 + (N_of_ascii b - 128) * 4096
             + (N_of_ascii c - 128) * 64 + (N_of_ascii d - 128))%N
  else None.

Abbreviation uchar := (option N * string)%type.

Fixpoint units (s : string) : list uchar :=
  match s with
  | EmptyString => []
  | String a r1 =>
      if in_range 0 127 a
      then (Some (N_of_ascii a), String a EmptyString) :: units r1
      else
        let bad := (None, String a EmptyString) :: units r1 in
        match r1 with
        | EmptyString => bad
        | String b r2 =>
            match seq2 a b with
            | Some cp => (Some cp, String a (String b EmptyString)) :: units r2
            | None =>
                match r2 with
                | EmptyString => bad
                | String c r3 =>
                    match seq3 a b c with
                    | Some cp =>
                        (Some cp, String a (String b (String c EmptyString)))
                          :: units r3
                    | None =>
                        match r3 with
                        | EmptyString => bad
                        | String d r4 =>
                            match seq4 a b c d with
                            | Some cp =>
                                (Some cp,
                                 String a (String b (String c
                                   (String d EmptyString))))
                                  :: units r4
                            | None => bad
                            end
                        end
                    end
                end
            end
        end
  end.

(** The bytes are the UTF-8 form of some text: what a strict decoder
    accepts. *)
Definition utf8_valid (s : string) : bool :=
  forallb (fun u : uchar => bool_decide (is_Some u.1)) (units s).

(** The bytes of a run of characters. *)
Definition bytes_of (us : list uchar) : string :=
  foldr (fun (u : uchar) acc => u.2 +:+ acc) EmptyString us.

(** [c.isspace()] for the character of a code point. *)
Definition isspace (cp : N) : bool :=
  (((9 <=? cp) && (cp <=? 13)) || ((28 <=? cp) && (cp <=? 32))
   || (cp =? 133) || (cp =? 160) || (cp =? 5760)
   || ((8192 <=? cp) && (cp <=? 8202))
   || (cp =? 8232) || (cp =? 8233) || (cp =? 8239) || (cp =? 8287)
   || (cp =? 12288))%N.

Definition space_unit (u : uchar) : bool :=
  match u.1 with
  | Some cp => isspace cp
  | None => false
  end.

(** [s.lstrip()], [s.rstrip()] and [s.strip()]. *)
Fixpoint drop_spaces (us : list uchar) : list uchar :=
  match us with
  | [] => []
  | u :: r => if space_unit u then drop_spaces r else us
  end.

Definition lstrip (s : string) : string :=
  bytes_of (drop_spaces (units s)).

Definition rstrip (s : string) : string :=
  bytes_of (rev (drop_spaces (rev (units s)))).

Definition strip (s : string) : string :=
  bytes_of (rev (drop_spaces (rev (drop_spaces (units s))))).

(** [sub in s]. *)
Fixpoint contains (sub s : string) : bool :=
  String.prefix sub s ||
  match s with
  | EmptyString => false
  | String _ s' => contains sub s'
  end.

(** Splitting at every character of a class: the head piece and the pieces
    after it, so that the result is never empty, as in Python. *)
Fixpoint split_on (p : ascii -> bool) (s : string) : string * list string :=
  match s with
  | EmptyString => (EmptyString, [])
  | String a s' =>
      let '(h, t) := split_on p s' in
      if p a then (EmptyString, h :: t) else (String a h, t)
  end.

(** [s.split(c)] for a one-character separator [c]. *)
Definition split_char (c : ascii) (s : string) : list string :=
  let '(h, t) := split_on (Ascii.eqb c) s in h :: t.

(** [s.split(sep)] for a separator of any positive length: the leftmost
    occurrence is cut out, then the search goes on behind it.  [skip] counts
    the characters of a matched separator still to be dropped. *)
Fixpoint split_str_go (sep : string) (skip : nat) (s : string)
  : string * list string :=
  match s with
  | EmptyString => (EmptyString, [])
  | String a s' =>
      match skip with
      | S k => split_str_go sep k s'
      | O =>
          if String.prefix sep s
          then (EmptyString,
                let '(h, t) := split_str_go sep (String.length sep - 1) s' in
                h :: t)
          else let '(h, t) := split_str_go sep 0 s' in (String a h, t)
      end
  end.

Definition split_str (sep s : string) : list string :=
  let '(h, t) := split_str_go sep 0 s in h :: t.

(** [s.split()]: the maximal runs of characters that are not white
    space. *)
Fixpoint tokens (us : list uchar) : string * list string :=
  match us with
  | [] => (EmptyString, [])
  | u :: r =>
      let '(h, t) := tokens r in
      if space_unit u
      then (EmptyString, match h with EmptyString => t | _ => h :: t end)
      else (u.2 +:+ h, t)
  end.

Definition split_ws (s : string) : list string :=
  let '(h, t) := tokens (units s) in
  match h with EmptyString => t | _ => h :: t end.

(** [s.lower()] on ASCII letters. *)
Definition lower_char (c : ascii) : ascii :=
  let n := N_of_ascii c in
  if ((65 <=? n) && (n <=? 90))%N then ascii_of_N (n + 32) else c.

Fixpoint lower (s : string) : string :=
  match s with
  | EmptyString => EmptyString
  | String c s' => String (lower_char c) (lower s')
  end.

(** [s.startswith(p)] and [s.endswith(c)] for one character. *)
Definition startswith (p s : string) : bool := String.prefix p s.

Fixpoint ends_with_char (c : ascii) (s : string) : bool :=
  match s with
  | EmptyString => false
  | String a EmptyString => Ascii.eqb a c
  | String _ s' => ends_with_char c s'
  end.

Fixpoint endswith (suf s : string) : bool :=
  String.eqb suf s ||
  match s with
  | EmptyString => false
  | String _ s' => endswith suf s'
  end.

End PyStr.

(* ====================================================================== *)
(** * Python numbers: [int(str)], [float(str)], [timedelta] *)
(* ====================================================================== *)

(** The exceptions the script can meet. *)
Inductive exn : Type :=
  | FileNotFoundError
  | PermissionError
  | RuntimeError (returncode : Z)
  | IndexError
  | KeyError
  | ValueError
  | OverflowError
  | ZeroDivisionError
  | CalledProcessError
  | UnicodeDecodeError.

(** A Python float: a real number, an infinity or not-a-number. *)
Inductive pyfloat : Type :=
  | Fin (q : Q)
  | Inf (negative : bool)
  | NaN.

Module PyNum.

(** ** From a [str] to the ASCII text that is parsed

    [int] and [float] first rewrite their argument: a character below 127
    stays, a Unicode space becomes a blank, a Unicode decimal digit becomes
    its ASCII digit, and at any other character the text is cut with a
    ['?'] in its place.  The white space of the parsers themselves is the
    one of C: TAB..CR and the blank. *)

(** The code points of the digits zero of Unicode; the nine digits after
    each follow it. *)
Definition decimal_zeros : list N :=
  [48; 1632; 1776; 1984; 2406; 2534; 2662; 2790; 2918; 3046; 3174; 3302;
   3430; 3558; 3664; 3792; 3872; 4160; 4240; 6112; 6160; 6470; 6608; 6784;
   6800; 6992; 7088; 7232; 7248; 42528; 43216; 43264; 43472; 43504; 43600;
   44016; 65296; 66720; 68912; 69734; 69872; 69942; 70096; 70384; 70736;
   70864; 71248; 71360; 71472; 71904; 72016; 72784; 73040; 73120; 92768;
   92864; 93008; 120782; 120792; 120802; 120812; 120822; 123200; 123632;
   125264; 130032]%N.

Definition udecimal (cp : N) : option N :=
  match List.find (fun z => (z <=? cp) && (cp <=? z + 9))%N decimal_zeros with
  | Some z => Some (cp - z)%N
  | None => None
  end.

Fixpoint to_ascii (us : list PyStr.uchar) : string :=
  match us with
  | [] => EmptyString
  | (Some cp, bytes) :: r =>
      if (cp <? 127)%N then bytes +:+ to_ascii r
      else if PyStr.isspace cp then String " " (to_ascii r)
      else
        match udecimal cp with
        | Some d => String (ascii_of_N (48 + d)) (to_ascii r)
        | None => "?"
        end
  | (None, _) :: _ => "?"
  end.

Definition c_isspace (c : ascii) : bool :=
  let n := N_of_ascii c in (((9 <=? n) && (n <=? 13)) || (n =? 32))%N.

Fixpoint c_lstrip (s : string) : string :=
  match s with
  | EmptyString => EmptyString
  | String c s' => if c_isspace c then c_lstrip s' else s
  end.

Fixpoint c_rstrip (s : string) : string :=
  match s with
  | EmptyString => EmptyString
  | String c s' =>
      match c_rstrip s' with
      | EmptyString => if c_isspace c then EmptyString else String c EmptyString
      | r => String c r
      end
  end.

(** The text a parser works on. *)
Definition parsed_text (s : string) : string :=
  c_rstrip (c_lstrip (to_ascii (PyStr.units s))).

(** ** [int(s)] *)

Definition digit_val (c : ascii) : option Z :=
  let n := N_of_ascii c in
  if ((48 <=? n) && (n <=? 57))%N then Some (Z.of_N (n - 48)) else None.

(** [digitpart ::= digit (["_"] digit)*]: value and number of digits. *)
Fixpoint digitpart_go (acc : Z) (count : nat) (after_digit : bool) (s : string)
  : option (Z * nat) :=
  match s with
  | EmptyString => if after_digit then Some (acc, count) else None
  | String c s' =>
      match digit_val c with
      | Some d => digitpart_go (10 * acc + d) (S count) true s'
      | None =>
          if Ascii.eqb c "_" && after_digit
          then digitpart_go acc count false s'
          else None
      end
  end.

Definition digitpart (s : string) : option (Z * nat) :=
  digitpart_go 0 0 false s.

(** An optional sign in front of [body]. *)
Definition signed {A} (body : string -> option A) (neg : A -> A) (s : string)
  : option A :=
  match s with
  | String "+" r => body r
  | String "-" r => neg <$> body r
  | _ => body s
  end.

(** [sys.get_int_max_str_digits()], as Python sets it. *)
Definition int_max_str_digits : nat := 4300.

(** The digits of an [int]: a [digitpart] of no more digits than the
    limit. *)
Definition int_digits (s : string) : option Z :=
  match digitpart s with
  | Some (v, count) => if (count <=? int_max_str_digits)%nat then Some v else None
  | None => None
  end.

(** [int(s)] for a [str] in base ten; [None] is [ValueError]. *)
Definition py_int (s : string) : option Z :=
  signed int_digits Z.opp (parsed_text s).

(** ** Doubles *)

(** Rounding to the nearest integer, ties to even. *)
Definition round_half_even (q : Q) : Z :=
  let n := Qnum q in
  let d := Z.pos (Qden q) in
  let f := n / d in
  match (2 * (n mod d)) ?= d with
  | Lt => f
  | Gt => f + 1
  | Eq => if Z.even f then f else f + 1
  end.

(** The integer part, towards zero. *)
Definition trunc (q : Q) : Z := Z.quot (Qnum q) (Z.pos (Qden q)).

(** [q * 2^k]. *)
Definition scale2 (q : Q) (k : Z) : Q :=
  if 0 <=? k then (q * inject_Z (2 ^ k))%Q else (q / inject_Z (2 ^ (- k)))%Q.

(** The exponent of the binade of [n/d]: the [e] with
    [2^e <= n/d < 2^(e+1)]. *)
Definition ilog2 (n d : positive) : Z :=
  let e := Z.log2 (Z.pos n) - Z.log2 (Z.pos d) in
  if (if 0 <=? e then Z.pos n <? Z.pos d * 2 ^ e
      else Z.pos n * 2 ^ (- e) <? Z.pos d)
  then e - 1 else e.

(** The double nearest to [n/d], ties to even: 53 bits from the binade of
    the number down, no bit below 2^-1074, and an infinity from 2^1024
    on. *)
Definition nearest (n d : positive) : pyfloat :=
  let p := Z.max (ilog2 n d - 52) (-1074) in
  let r := scale2 (inject_Z (round_half_even (scale2 (Z.pos n # d) (- p)))) p in
  if Qle_bool (inject_Z (2 ^ 1024)) r then Inf false else Fin (Qred r).

Definition float_neg (x : pyfloat) : pyfloat :=
  match x with
  | Fin q => Fin (- q)
  | Inf b => Inf (negb b)
  | NaN => NaN
  end.

Definition to_double (q : Q) : pyfloat :=
  let r := Qred q in
  match Qnum r with
  | Z0 => Fin 0
  | Zpos n => nearest n (Qden r)
  | Zneg n => float_neg (nearest n (Qden r))
  end.

(** The result of an operation on doubles whose exact value is [q], where
    that is within the range of the doubles. *)
Definition fl (q : Q) : Q :=
  match to_double q with
  | Fin r => r
  | _ => q
  end.

(** ** [float(s)] *)

(** [number ::= [digitpart] "." digitpart | digitpart ["."]]. *)
Definition number (s : string) : option Q :=
  match PyStr.split_char "." s with
  | [ip] => (fun '(v, _) => inject_Z v) <$> digitpart ip
  | [ip; fp] =>
      match ip, fp with
      | EmptyString, EmptyString => None
      | _, EmptyString => (fun '(v, _) => inject_Z v) <$> digitpart ip
      | EmptyString, _ =>
          (fun '(f, k) => inject_Z f / inject_Z (10 ^ Z.of_nat k))%Q
            <$> digitpart fp
      | _, _ =>
          match digitpart ip, digitpart fp with
          | Some (v, _), Some (f, k) =>
              Some (inject_Z v + inject_Z f / inject_Z (10 ^ Z.of_nat k))%Q
          | _, _ => None
          end
      end
  | _ => None
  end.

(** [floatnumber ::= number [("e" | "E") [sign] digitpart]]. *)
Definition floatnumber (s : string) : option Q :=
  let '(m, es) := PyStr.split_on (fun c => Ascii.eqb c "e" || Ascii.eqb c "E") s in
  match es with
  | [] => number m
  | [e] =>
      match number m, signed (fun r => fst <$> digitpart r) Z.opp e with
      | Some q, Some x => Some (q * Qpower 10 x)%Q
      | _, _ => None
      end
  | _ => None
  end.

Definition absfloatvalue (s : string) : option pyfloat :=
  let l := PyStr.lower s in
  if String.eqb l "inf" || String.eqb l "infinity" then Some (Inf false)
  else if String.eqb l "nan" then Some NaN
  else to_double <$> floatnumber s.

(** [float(s)] for a [str]; [None] is [ValueError]. *)
Definition py_float (s : string) : option pyfloat :=
  signed absfloatvalue float_neg (parsed_text s).

(** ** [timedelta] *)

(** [timedelta(hours=h, minutes=m, seconds=s).total_seconds()].  The
    constructor counts whole microseconds: those of the integers exactly,
    those of the fractional part of [s] as a product of doubles, the sum
    rounded to an integer, ties to even; it refuses more than 999999999 days
    either way.  [total_seconds] divides the microseconds by 10^6. *)
Definition total_seconds (h m : Z) (s : pyfloat) : exn + Q :=
  match s with
  | NaN => inl ValueError
  | Inf _ => inl OverflowError
  | Fin q =>
      let whole := trunc q in
      let part := fl ((q - inject_Z whole) * 1000000) in
      let us :=
        round_half_even
          (inject_Z ((3600 * h + 60 * m + whole) * 1000000) + part) in
      let days := us / 86400000000 in
      if (days <? -999999999) || (999999999 <? days)
      then inl OverflowError
      else inr (fl (us # 1000000))
  end.

End PyNum.

(* ====================================================================== *)
(** * [parse_time] *)
(* ====================================================================== *)

(** Lines written with [tqdm.write]. *)
Inductive message : Type :=
  | MsgParseError (e : exn)
  | MsgGpuError (e : exn)
  | MsgNoFiles
  | MsgStart (total_files : nat) (gpu_type : string)
  | MsgSkipped (file : string)
  | MsgSuccess (file : string) (orig_size compr_size ratio : Q)
  | MsgError (file : string) (e : exn)
  | MsgDone.

(** [re.split(r'[:.]', time_str)]. *)
Definition re_split_colon_dot (time_str : string) : list string :=
  let '(h, t) :=
    PyStr.split_on (fun c => Ascii.eqb c ":" || Ascii.eqb c ".") time_str in
  h :: t.

(** The [try] block of [parse_time]: [inr (Some r)] when a [return] is
    reached, [inr None] when neither length test holds, [inl e] when a
    conversion raises. *)
Definition parse_time_try (time_str : string) : exn + option (Z * Z * pyfloat) :=
  let parts := re_split_colon_dot time_str in
  if (length parts =? 3)%nat then
    match PyNum.py_int (nth 0 parts EmptyString) with
    | None => inl ValueError
    | Some m =>
        match PyNum.py_float (nth 1 parts EmptyString) with
        | None => inl ValueError
        | Some s => inr (Some (0, m, s))
        end
    end
  else if (4 <=? length parts)%nat then
    match PyNum.py_int (nth 0 parts EmptyString) with
    | None => inl ValueError
    | Some h =>
        match PyNum.py_int (nth 1 parts EmptyString) with
        | None => inl ValueError
        | Some m =>
            match PyNum.py_float (nth 2 parts EmptyString) with
            | None => inl ValueError
            | Some s => inr (Some (h, m, s))
            end
        end
    end
  else inr None.

(** [parse_time]: the triple it returns and what it writes to the console. *)
Definition parse_time (time_str : string) : (Z * Z * pyfloat) * list message :=
  match parse_time_try time_str with
  | inr (Some r) => (r, [])
  | inr None => ((0, 0, Fin 0), [])
  | inl e => ((0, 0, Fin 0), [MsgParseError e])
  end.

(** The seconds a caller makes of the triple, as both call sites do. *)
Definition seconds_of (hms : Z * Z * pyfloat) : exn + Q :=
  let '(h, m, s) := hms in PyNum.total_seconds h m s.


(* ====================================================================== *)
(** * [get_gpu_type] and the encoder table *)
(* ====================================================================== *)

(** One entry of [GPU_CONFIG]; [extra_params] is [None] where the key is
    absent from the dictionary. *)
Record config : Type := {
  encoder : string;
  preset : string;
  crf_param : string;
  extra_params : option (list string)
}.

Definition GPU_CONFIG : gmap string config :=
  list_to_map [
    ("nvidia", {| encoder := "h264_nvenc"; preset := "p6"; crf_param := "-cq:v";
                  extra_params := Some ["-rc:v"; "constqp"] |});
    ("amd", {| encoder := "h264_amf"; preset := "speed"; crf_param := "-qp_i";
               extra_params := None |});
    ("intel", {| encoder := "h264_qsv"; preset := "faster";
                 crf_param := "-global_quality"; extra_params := None |});
    ("cpu", {| encoder := "libx264"; preset := "fast"; crf_param := "-crf";
               extra_params := None |})
  ].

(** What [subprocess.run(['ffmpeg', '-encoders'], capture_output=True,
    text=True, check=True)] meets: the program cannot be started, or it
    ends with a status and its standard output. *)
Inductive listing : Type :=
  | NotStarted (e : exn)
  | Completed (status : Z) (stdout : string).

Definition run_encoders (l : listing) : exn + string :=
  match l with
  | NotStarted e => inl e
  | Completed status stdout =>
      if status =? 0 then inr stdout else inl CalledProcessError
  end.

(** The [try] block of [get_gpu_type]; [inr None] when no test holds. *)
Definition get_gpu_type_try (l : listing) : exn + option string :=
  match run_encoders l with
  | inl e => inl e
  | inr stdout =>
      let encoders := PyStr.lower stdout in
      if PyStr.contains "nvenc" encoders then inr (Some "nvidia")
      else if PyStr.contains "amf" encoders then inr (Some "amd")
      else if PyStr.contains "qsv" encoders then inr (Some "intel")
      else inr None
  end.

Definition get_gpu_type (l : listing) : string * list message :=
  match get_gpu_type_try l with
  | inr (Some g) => (g, [])
  | inr None => ("cpu", [])
  | inl e => ("cpu", [MsgGpuError e])
  end.

(* ====================================================================== *)
(** * Paths *)
(* ====================================================================== *)

(** A normalised path: its components, with ["/"] in front when absolute. *)
Abbreviation path := (list string).

Module PyPath.

Definition sep : ascii := "/"%char.

(** [os.path.basename(p)]: what follows the last separator. *)
Definition basename (p : string) : string :=
  default EmptyString (last (PyStr.split_char sep p)).

(** [os.path.join(a, b)]. *)
Definition join (a b : string) : string :=
  if PyStr.startswith "/" b then b
  else if String.eqb a EmptyString || PyStr.ends_with_char sep a then a +:+ b
  else a +:+ "/" +:+ b.

(** A component that names an entry: not empty and not the directory
    itself. *)
Definition proper (c : string) : bool :=
  negb (String.eqb c EmptyString) && negb (String.eqb c ".").

(** The file a path string denotes: empty components and ["."] dropped. *)
Definition resolve (p : string) : path :=
  (if PyStr.startswith "/" p then ["/"] else [])
    ++ List.filter proper (PyStr.split_char sep p).

End PyPath.

(* ====================================================================== *)
(** * The world: files, log, console *)
(* ====================================================================== *)

(** A value handed to [csv.writer.writerow]. *)
Inductive csv_field : Type :=
  | FStr (s : string)
  | FNum (q : Q)
  | FInt (z : Z).

Abbreviation csv_row := (list csv_field).

Record World : Type := {
  files : gmap path N;          (* regular files and their sizes in bytes *)
  locked : gset path;           (* removal and renaming refused here *)
  log : option (list csv_row);  (* processing_log.csv; [None]: absent *)
  console : list message;       (* lines written with tqdm.write *)
  launched : list (list string);(* command lines given to Popen *)
  pbar_total : nat              (* the counter of the overall bar *)
}.

Definition set_files (f : gmap path N -> gmap path N) (w : World) : World :=
  {| files := f (files w); locked := locked w; log := log w;
     console := console w; launched := launched w;
     pbar_total := pbar_total w |}.

Definition set_log (f : option (list csv_row) -> option (list csv_row))
  (w : World) : World :=
  {| files := files w; locked := locked w; log := f (log w);
     console := console w; launched := launched w;
     pbar_total := pbar_total w |}.

Definition add_console (ms : list message) (w : World) : World :=
  {| files := files w; locked := locked w; log := log w;
     console := console w ++ ms; launched := launched w;
     pbar_total := pbar_total w |}.

Definition add_launched (cmd : list string) (w : World) : World :=
  {| files := files w; locked := locked w; log := log w;
     console := console w; launched := launched w ++ [cmd];
     pbar_total := pbar_total w |}.

Definition add_pbar (k : nat) (w : World) : World :=
  {| files := files w; locked := locked w; log := log w;
     console := console w; launched := launched w;
     pbar_total := (pbar_total w + k)%nat |}.

(** How a piece of the script ends: it returns, it raises, or the fuel of
    a loop is used up. *)
Inductive result (A : Type) : Type :=
  | Ret (a : A) (w : World)
  | Raise (e : exn) (w : World)
  | OutOfFuel.
Arguments Ret {A} a w.
Arguments Raise {A} e w.
Arguments OutOfFuel {A}.

Definition M (A : Type) : Type := World -> result A.

Definition ret {A} (a : A) : M A := fun w => Ret a w.
Definition raise {A} (e : exn) : M A := fun w => Raise e w.

Definition bind {A B} (m : M A) (k : A -> M B) : M B :=
  fun w =>
    match m w with
    | Ret a w' => k a w'
    | Raise e w' => Raise e w'
    | OutOfFuel => OutOfFuel
    end.

Notation "x <~ m ;; k" := (bind m (fun x => k))
  (at level 100, m at next level, right associativity).
Notation "m >> k" := (bind m (fun _ => k))
  (at level 100, right associativity).

(** [try: body except Exception as e: handler e]. *)
Definition try_except {A} (body : M A) (handler : exn -> M A) : M A :=
  fun w =>
    match body w with
    | Ret a w' => Ret a w'
    | Raise e w' => handler e w'
    | OutOfFuel => OutOfFuel
    end.

(** [try: body finally: final]. *)
Definition try_finally {A} (body : M A) (final : M unit) : M A :=
  fun w =>
    match body w with
    | Ret a w' => (final >> ret a) w'
    | Raise e w' => (final >> raise e) w'
    | OutOfFuel => OutOfFuel
    end.

Definition lift {A} (r : exn + A) : M A :=
  match r with
  | inl e => raise e
  | inr a => ret a
  end.

Definition when (b : bool) (m : M unit) : M unit := if b then m else ret tt.

Definition tqdm_write (ms : list message) : M unit :=
  fun w => Ret tt (add_console ms w).

(** [l[i]]. *)
Definition item {A} (i : nat) (l : list A) : M A :=
  match l !! i with
  | Some a => ret a
  | None => raise IndexError
  end.

(** ** File operations *)

Definition path_exists (p : string) : M bool :=
  fun w => Ret (bool_decide (is_Some (files w !! PyPath.resolve p))) w.

Definition getsize (p : string) : M N :=
  fun w =>
    match files w !! PyPath.resolve p with
    | Some n => Ret n w
    | None => Raise FileNotFoundError w
    end.

Definition os_remove (p : string) : M unit :=
  fun w =>
    let k := PyPath.resolve p in
    match files w !! k with
    | None => Raise FileNotFoundError w
    | Some _ =>
        if bool_decide (k ∈ locked w) then Raise PermissionError w
        else Ret tt (set_files (delete k) w)
    end.

Definition os_rename (src dst : string) : M unit :=
  fun w =>
    let s := PyPath.resolve src in
    let d := PyPath.resolve dst in
    match files w !! s with
    | None => Raise FileNotFoundError w
    | Some n =>
        if bool_decide (s ∈ locked w) || bool_decide (d ∈ locked w)
        then Raise PermissionError w
        else Ret tt (set_files (fun m => <[d := n]> (delete s m)) w)
    end.

(** [init_folders]: [os.makedirs(folder, exist_ok=True)] for [compressed]
    and [skipped].  Directories are not part of the world, so nothing
    changes. *)
Definition init_folders : M unit := ret tt.

(** [os.listdir('.')], as far as regular files go, in the order of the map:
    one of the orders the operating system may give. *)
Definition listdir_cwd (w : World) : list string :=
  omap (fun '(p, _) => match p with [n] => Some n | _ => None end)
       (map_to_list (files w)).

(** ** The log *)

Definition header : csv_row :=
  [FStr "Filename"; FStr "Original Size (MB)"; FStr "Compressed Size (MB)";
   FStr "Compression Ratio (%)"; FStr "Skipped"].

(** [init_log_file]: the header is written when the file is absent. *)
Definition init_log_file : M unit :=
  fun w =>
    match log w with
    | None => Ret tt (set_log (fun _ => Some [header]) w)
    | Some _ => Ret tt w
    end.

(** [round(x, 2)], as the decimal the row shows. *)
Definition round2 (x : Q) : Q := PyNum.round_half_even (x * 100) # 100.

(** [100 - (compr_size/orig_size)*100], each operation on doubles. *)
Definition saved_percent (orig_size compr_size : Q) : Q :=
  PyNum.fl (100 - PyNum.fl (PyNum.fl (compr_size / orig_size) * 100)).

Definition compression_ratio (orig_size compr_size : Q) : Q :=
  if Qlt_le_dec 0 orig_size
  then saved_percent orig_size compr_size
  else 0%Q.

(** Opening with mode ['a'] creates the file when it is absent.  Opening and
    writing the log is taken to succeed, so the [except] block of
    [log_to_csv], which only prints, is not modelled. *)
Definition append_row (r : csv_row) (l : option (list csv_row))
  : option (list csv_row) :=
  Some (default [] l ++ [r]).

(** The row [log_to_csv] writes. *)
Definition log_row (filename : string) (orig_size compr_size : Q)
  (skipped : bool) : csv_row :=
  [FStr filename; FNum (round2 orig_size); FNum (round2 compr_size);
   FNum (round2 (compression_ratio orig_size compr_size));
   FInt (if skipped then 1 else 0)].

Definition log_to_csv (filename : string) (orig_size compr_size : Q)
  (skipped : bool) : M unit :=
  fun w =>
    Ret tt (set_log (append_row
      (log_row filename orig_size compr_size skipped)) w).

(* ====================================================================== *)
(** * The encoding process *)
(* ====================================================================== *)

(** What one run of ffmpeg does: the lines of its diagnostic stream (the
    bytes of each, without its line end), its exit status, and the size of
    the output file the script finds when it looks for it, if there is
    one. *)
Record proc : Type := {
  stderr : list string;
  returncode : Z;
  written : option N
}.

(** The oracle for [subprocess.Popen(cmd, ...)]: from the command line and
    the files, either the program cannot be started or a run. *)
Abbreviation ffmpeg_oracle := (list string -> gmap path N -> exn + proc).

Definition newline : string := String "010" EmptyString.

(** [str(crf)]. *)
Definition str_int (z : Z) : string :=
  NilZero.string_of_int (Z.to_int z).

(** The command line of [compress_video]. *)
Definition build_cmd (input_path output_path gpu_type : string) (cfg : config)
  (crf : Z) : list string :=
  ["ffmpeg"; "-hide_banner"; "-y";
   "-hwaccel"; if String.eqb gpu_type "cpu" then "none" else "auto";
   "-i"; input_path;
   "-c:v"; encoder cfg;
   "-preset"; preset cfg;
   crf_param cfg; str_int crf;
   "-c:a"; "copy";
   "-movflags"; "+faststart";
   output_path]
  ++ default [] (extra_params cfg).

(** [subprocess.Popen]: the command line is recorded.  The script looks for
    the output file only once it has stopped reading the stream, so the
    file it finds then is put in place here: the file the run has left when
    the stream was read to its end, for the process has ended by then; what
    the run has written so far when a read raised, for the process is then
    still running, and is neither waited for nor stopped.  What it writes
    later is not part of the world. *)
Definition popen (ffmpeg : ffmpeg_oracle) (cmd : list string)
  (output_path : string) : M proc :=
  fun w =>
    match ffmpeg cmd (files w) with
    | inl e => Raise e w
    | inr p =>
        Ret p (add_launched cmd
                 (set_files (fun m =>
                    match written p with
                    | Some n => <[PyPath.resolve output_path := n]> m
                    | None => m
                    end) w))
    end.

(** [process.stderr.readline()] on a stream opened with
    [encoding='utf-8']: the next line with its line end, or the empty string
    at the end of the stream; bytes that are not UTF-8 make the read raise.
    (Python decodes the stream block by block, so the read that raises may
    come some lines before the one with the bytes; the job answers an error
    of either loop in the same way, whenever it is raised.) *)
Definition readline (lines : list string) : exn + (string * list string) :=
  match lines with
  | [] => inr (EmptyString, [])
  | l :: rest =>
      if PyStr.utf8_valid l then inr (l +:+ newline, rest)
      else inl UnicodeDecodeError
  end.

(** The seconds of a time text, as both loops compute them. *)
Definition time_seconds (time_str : string) : M Q :=
  let '(hms, msgs) := parse_time time_str in
  (if msgs is [] then ret tt else tqdm_write msgs) >>
  lift (seconds_of hms).

(** The first loop of [compress_video]: read until a line holds
    ['Duration:'].  One unit of fuel per [readline]. *)
Fixpoint scan_duration (fuel : nat) (lines : list string)
  : M (Q * list string) :=
  match fuel with
  | O => fun _ => OutOfFuel
  | S fuel' =>
      match readline lines with
      | inl e => raise e
      | inr (line, rest) =>
          if PyStr.contains "Duration:" line then
            after <~ item 1 (PyStr.split_str "Duration: " line) ;;
            before <~ item 0 (PyStr.split_char "," after) ;;
            duration <~ time_seconds (PyStr.strip before) ;;
            ret (duration, rest)
          else scan_duration fuel' rest
      end
  end.

(** The second loop: read to the end of the stream, by which time the
    process has ended; [n] is the position of the file's bar.  Each line is
    read as [readline] reads it. *)
Fixpoint drain_progress (lines : list string) (n : Q) : M Q :=
  match lines with
  | [] => ret n
  | l :: rest =>
      if PyStr.utf8_valid l then
        let line := l +:+ newline in
        if PyStr.contains "time=" line then
          after <~ item 1 (PyStr.split_str "time=" line) ;;
          time_str <~ item 0 (PyStr.split_ws after) ;;
          current_time <~ time_seconds time_str ;;
          drain_progress rest current_time
        else drain_progress rest n
      else raise UnicodeDecodeError
  end.

(** Bytes to megabytes: [size / (1024 ** 2)]. *)
Definition megabytes (size : N) : Q := Z.of_N size # 1048576.

(* ====================================================================== *)
(** * [compress_video] *)
(* ====================================================================== *)

Section Compress.

Variable ffmpeg : ffmpeg_oracle.

(** The [try] block up to the assignment of [original_size]: [inl r] is the
    early [return r], [inr size] the value of [original_size]. *)
Definition compress_prologue (input_path filename : string)
  : M ((Q * Q * bool) + Q) :=
  present <~ path_exists input_path ;;
  if negb present then raise FileNotFoundError
  else
    done_before <~ path_exists (PyPath.join "skipped" filename) ;;
    if done_before then ret (inl (0%Q, 0%Q, true))
    else
      size <~ getsize input_path ;;
      ret (inr (megabytes size)).

(** The rest of the [try] block, with [original_size] bound. *)
Definition compress_encode (fuel : nat)
  (input_path filename output_path gpu_type : string) (crf : Z)
  (original_size : Q) : M (Q * Q * bool) :=
  cfg <~ (match GPU_CONFIG !! gpu_type with
          | Some c => ret c
          | None => raise KeyError
          end) ;;
  let cmd := build_cmd input_path output_path gpu_type cfg crf in
  process <~ popen ffmpeg cmd output_path ;;
  found <~ scan_duration fuel (stderr process) ;;
  let '(duration, rest) := found in
  drain_progress rest 0%Q >>
  if negb (returncode process =? 0) then raise (RuntimeError (returncode process))
  else
    size <~ getsize output_path ;;
    let compressed_size := megabytes size in
    if Qle_bool original_size compressed_size then
      os_remove output_path >>
      os_rename input_path (PyPath.join "skipped" filename) >>
      ret (original_size, original_size, true)
    else ret (original_size, compressed_size, false).

(** The [except] block; [original_size] is [None] while the name is not
    bound. *)
Definition compress_cleanup (input_path filename output_path : string)
  (original_size : option Q) : M (Q * Q * bool) :=
  out_there <~ path_exists output_path ;;
  when out_there (os_remove output_path) >>
  in_there <~ path_exists input_path ;;
  when in_there (os_rename input_path (PyPath.join "skipped" filename)) >>
  ret (default 0%Q original_size, 0%Q, true).

(** [compress_video(input_path, output_folder, gpu_type, crf)]: returns
    [(original_size, compressed_size, skipped)]. *)
Definition compress_video (fuel : nat)
  (input_path output_folder gpu_type : string) (crf : Z) : M (Q * Q * bool) :=
  let filename := PyPath.basename input_path in
  let output_path := PyPath.join output_folder ("compressed_" +:+ filename) in
  first <~ try_except
             (r <~ compress_prologue input_path filename ;; ret (inl r))
             (fun _ =>
                r <~ compress_cleanup input_path filename output_path None ;;
                ret (inr r)) ;;
  match first with
  | inr r => ret r
  | inl (inl r) => ret r
  | inl (inr original_size) =>
      try_except
        (compress_encode fuel input_path filename output_path gpu_type crf
           original_size)
        (fun _ =>
           compress_cleanup input_path filename output_path
             (Some original_size))
  end.

(* ====================================================================== *)
(** * [main] *)
(* ====================================================================== *)

Definition input_folder : string := ".".

(** The body of the [for] loop of [main] for one file. *)
Definition process_file (fuel : nat) (gpu_type : string) (crf : Z)
  (file : string) : M unit :=
  let input_path := PyPath.join input_folder file in
  try_finally
    (try_except
       (moved <~ path_exists (PyPath.join "skipped" file) ;;
        if moved then (fun w => Ret tt (add_pbar 1 w))
        else
          r <~ compress_video fuel input_path "compressed" gpu_type crf ;;
          let '(orig_size, compr_size, skipped) := r in
          log_to_csv file orig_size compr_size skipped >>
          if skipped then tqdm_write [MsgSkipped file]
          else if Qeq_bool orig_size 0 then raise ZeroDivisionError
          else
            tqdm_write
              [MsgSuccess file orig_size compr_size
                 (saved_percent orig_size compr_size)])
       (fun e =>
          tqdm_write [MsgError file e] >>
          log_to_csv file 0%Q 0%Q true))
    (fun w => Ret tt (add_pbar 1 w)).

Fixpoint main_loop (fuel : nat) (gpu_type : string) (crf : Z)
  (files : list string) : M unit :=
  match files with
  | [] => ret tt
  | file :: rest =>
      process_file fuel gpu_type crf file >>
      main_loop fuel gpu_type crf rest
  end.

(** The files [main] works on. *)
Definition candidate (f : string) : bool :=
  PyStr.endswith ".mp4" (PyStr.lower f)
  && negb (PyStr.startswith "compressed_" f).

Definition main (fuel : nat) (encoders : listing) : M unit :=
  init_folders >>
  init_log_file >>
  let crf := 23 in
  let '(gpu_type, msgs) := get_gpu_type encoders in
  (if msgs is [] then ret tt else tqdm_write msgs) >>
  fun w =>
    let files := List.filter candidate (listdir_cwd w) in
    match files with
    | [] => tqdm_write [MsgNoFiles] w
    | _ =>
        (tqdm_write [MsgStart (length files) gpu_type] >>
         main_loop fuel gpu_type crf files >>
         tqdm_write [MsgDone]) w
    end.

End Compress.

(* ====================================================================== *)
(** * Vocabulary of the statements *)
(* ====================================================================== *)

(** Every character of [s] is in the class [q]. *)
Fixpoint all_chars (q : ascii -> bool) (s : string) : bool :=
  match s with
  | EmptyString => true
  | String c s' => q c && all_chars q s'
  end.

Definition is_digit (c : ascii) : bool :=
  let n := N_of_ascii c in ((48 <=? n) && (n <=? 57))%N.

(** One decimal digit or more. *)
Definition all_digits (s : string) : bool :=
  negb (String.eqb s EmptyString) && all_chars is_digit s.

(** A field of a time text: one to fifteen decimal digits, a number that
    [int] takes and a double holds exactly. *)
Definition time_field (s : string) : bool :=
  all_digits s && (String.length s <=? 15)%nat.

(** The number a run of decimal digits writes. *)
Fixpoint decimal_from (acc : Z) (s : string) : Z :=
  match s with
  | EmptyString => acc
  | String c s' => decimal_from (10 * acc + (Z.of_N (N_of_ascii c) - 48)) s'
  end.

Definition decimal (s : string) : Z := decimal_from 0 s.

(** The pieces of a split, as a list. *)
Definition pieces (r : string * list string) : list string := r.1 :: r.2.

(** [sub] occurs in [s]. *)
Definition occurs (sub s : string) : Prop :=
  exists pre post, s = pre +:+ sub +:+ post.

(** The two shapes of a time text, [HH:MM:SS.ss] and [MM:SS.ss], from their
    fields. *)
Definition long_time (hh mm ss ff : string) : string :=
  hh +:+ ":" +:+ mm +:+ ":" +:+ ss +:+ "." +:+ ff.

Definition short_time (mm ss ff : string) : string :=
  mm +:+ ":" +:+ ss +:+ "." +:+ ff.

Definition well_formed_time (s : string) : Prop :=
  exists hh mm ss ff,
    time_field hh = true /\ time_field mm = true /\
    time_field ss = true /\ all_digits ff = true /\
    (s = long_time hh mm ss ff \/ s = short_time mm ss ff).

(** The seconds a time text stands for by the usual weights, with its
    hundredths: what the specification asks of the parser. *)
Definition expansion (h m s : Z) (ff : string) : Q :=
  inject_Z (3600 * h + 60 * m + s)
  + inject_Z (decimal ff) / inject_Z (10 ^ Z.of_nat (String.length ff)).

(** The outcome of [parse_time] when nothing could be read. *)
Definition zero_time : Z * Z * pyfloat := (0, 0, Fin 0).

(** The encoder listing names the identifier, in whatever case. *)
Definition lists_encoder (id : string) (stdout : string) : Prop :=
  occurs id (PyStr.lower stdout).

(** A world with nothing in it. *)
Definition blank_world : World :=
  {| files := ∅; locked := ∅; log := None; console := [];
     launched := []; pbar_total := 0 |}.

(** What a piece of the script that only writes to the console does, apart
    from the world it runs in: [None] when the fuel runs out, else how it
    ends and what it wrote. *)
Definition play {A} (o : option ((exn + A) * list message)) : M A :=
  fun w =>
    match o with
    | None => OutOfFuel
    | Some (inr a, ms) => Ret a (add_console ms w)
    | Some (inl e, ms) => Raise e (add_console ms w)
    end.

(** The two reading loops of [compress_video], one after the other. *)
Definition read_stream (fuel : nat) (lines : list string) : M Q :=
  found <~ scan_duration fuel lines ;;
  let '(duration, rest) := found in
  drain_progress rest 0%Q.

(** The stream is read to its end within the fuel and without an error. *)
Definition stream_ok (fuel : nat) (lines : list string) : bool :=
  match read_stream fuel lines blank_world with
  | Ret _ _ => true
  | _ => false
  end.

(** Every line of the stream can be read and none holds the duration
    marker. *)
Definition no_duration (lines : list string) : bool :=
  forallb (fun l => PyStr.utf8_valid l
                    && negb (PyStr.contains "Duration:" (l +:+ newline)))
          lines.

(** A text without the path separator. *)
Definition plain (s : string) : bool :=
  all_chars (fun c => negb (Ascii.eqb PyPath.sep c)) s.

(** A piece of the script that touches nothing but the console. *)
Definition console_only {A} (m : M A) : Prop :=
  exists o, forall w, m w = play o w.


(** A row of data: a name, three numbers and a flag. *)
Definition data_row (r : csv_row) : Prop :=
  exists f o c q s, r = [FStr f; FNum o; FNum c; FNum q; FInt s].

(** Batch runs one after the other on the same log; between two runs
    anything but the log may change. *)
Inductive batch_runs : nat -> World -> World -> Prop :=
  | runs_none w : batch_runs 0 w w
  | runs_more n (ffmpeg : ffmpeg_oracle) fuel encoders w w1 w1' w2 :
      main ffmpeg fuel encoders w = Ret tt w1 ->
      log w1' = log w1 ->
      batch_runs n w1' w2 ->
      batch_runs (S n) w w2.

(** A piece of the script that, when it ends, has moved the world along
    the relation [R]. *)
Definition keeps {A} (R : World -> World -> Prop) (m : M A) : Prop :=
  forall w,
    match m w with
    | Ret _ w' => R w w'
    | Raise _ w' => R w w'
    | OutOfFuel => True
    end.

(** The log is as it was. *)
Definition same_log (w w' : World) : Prop := log w' = log w.

(** The log holds the rows [l] and then rows of data only. *)
Definition log_grows (l : list csv_row) (w' : World) : Prop :=
  exists rows, log w' = Some (l ++ rows) /\ Forall data_row rows.

(** The error of the [try] block of [compress_video], if it raises one:
    the exception, the world at that point, and [original_size] if bound. *)
Definition job_error (ffmpeg : ffmpeg_oracle) (fuel : nat)
  (input_path output_folder gpu_type : string) (crf : Z) (w : World)
  : option (exn * World * option Q) :=
  let filename := PyPath.basename input_path in
  let output_path := PyPath.join output_folder ("compressed_" +:+ filename) in
  match compress_prologue input_path filename w with
  | Raise e w1 => Some (e, w1, None)
  | Ret (inr original_size) w1 =>
      match compress_encode ffmpeg fuel input_path filename output_path
              gpu_type crf original_size w1 with
      | Raise e w2 => Some (e, w2, Some original_size)
      | _ => None
      end
  | _ => None
  end.

(** The world after one turn of the loop of [main], from how the job
    ended. *)
Definition after_job (file : string) (r : result (Q * Q * bool))
  : result unit :=
  match r with
  | Ret (orig_size, compr_size, true) w1 =>
      Ret tt (add_pbar 1 (add_console [MsgSkipped file]
                (set_log (append_row (log_row file orig_size compr_size true))
                   w1)))
  | Ret (orig_size, compr_size, false) w1 =>
      Ret tt (add_pbar 1
                (add_console
                   [MsgSuccess file orig_size compr_size
                      (saved_percent orig_size compr_size)]
                   (set_log
                      (append_row (log_row file orig_size compr_size false))
                      w1)))
  | Raise e w1 =>
      Ret tt (add_pbar 1
                (set_log (append_row (log_row file 0%Q 0%Q true))
                   (add_console [MsgError file e] w1)))
  | OutOfFuel => OutOfFuel
  end.

(** ** The three files of a name

    A turn of the loop of [main] for the file [g] of the working directory
    reads and writes three files: [g] itself, its output and its place in
    [skipped/]. *)

(** A name of a directory entry: no separator, not empty, not ["."]. *)
Definition entry_name (n : string) : bool := plain n && PyPath.proper n.

(** The one-component files of the world bear entry names. *)
Definition tidy (w : World) : Prop :=
  forall n sz, files w !! [n] = Some sz -> entry_name n = true.

Definition key_in (g : string) : path := [g].
Definition key_out (g : string) : path := ["compressed"; "compressed_" +:+ g].
Definition key_skip (g : string) : path := ["skipped"; g].

Record cells : Type := {
  c_in : option N;
  c_out : option N;
  c_skip : option N
}.

Definition cells_of (g : string) (m : gmap path N) : cells :=
  {| c_in := m !! key_in g; c_out := m !! key_out g;
     c_skip := m !! key_skip g |}.

Record locks : Type := {
  l_in : bool;
  l_out : bool;
  l_skip : bool
}.

Definition locks_of (g : string) (s : gset path) : locks :=
  {| l_in := bool_decide (key_in g ∈ s);
     l_out := bool_decide (key_out g ∈ s);
     l_skip := bool_decide (key_skip g ∈ s) |}.

(** Everything but the three files of [g] is as it was. *)
Definition frame (g : string) (w w' : World) : Prop :=
  locked w' = locked w /\
  forall k, k <> key_in g -> k <> key_out g -> k <> key_skip g ->
            files w' !! k = files w !! k.

(** What the process of a file comes to: it is not started (no entry in
    [GPU_CONFIG], or [Popen] raises), the first loop starves, or it ends
    having written [wr], [good] when both loops read the stream without an
    error and the status is 0. *)
Inductive verdict : Type :=
  | NotLaunched
  | Starved
  | Ended (wr : option N) (good : bool).

Definition verdict_of (ffmpeg : ffmpeg_oracle) (fuel : nat)
  (gpu_type : string) (crf : Z) (g : string) (fs : gmap path N) : verdict :=
  match GPU_CONFIG !! gpu_type with
  | None => NotLaunched
  | Some cfg =>
      match ffmpeg (build_cmd (PyPath.join input_folder g)
                      (PyPath.join "compressed" ("compressed_" +:+ g))
                      gpu_type cfg crf) fs with
      | inl _ => NotLaunched
      | inr p =>
          match read_stream fuel (stderr p) blank_world with
          | OutOfFuel => Starved
          | Raise _ _ => Ended (written p) false
          | Ret _ _ => Ended (written p) (returncode p =? 0)
          end
      end
  end.

(** The renaming of the [except] block, on the three files. *)
Definition rename_cells (L : locks) (c : cells) : cells :=
  match c_in c with
  | Some n =>
      if l_in L || l_skip L then c
      else {| c_in := None; c_out := c_out c; c_skip := Some n |}
  | None => c
  end.

(** The [except] block on the three files. *)
Definition cleanup_cells (L : locks) (c : cells) : cells :=
  match c_out c with
  | Some _ =>
      if l_out L then c
      else rename_cells L {| c_in := c_in c; c_out := None; c_skip := c_skip c |}
  | None => rename_cells L c
  end.

(** One turn of the loop on the three files; [None] when it starves. *)
Definition turn_cells (L : locks) (v : verdict) (c : cells) : option cells :=
  match c_skip c with
  | Some _ => Some c
  | None =>
      match c_in c with
      | None => Some (cleanup_cells L c)
      | Some o =>
          match v with
          | NotLaunched => Some (cleanup_cells L c)
          | Starved => None
          | Ended wr good =>
              let c1 := {| c_in := c_in c;
                           c_out := from_option Some (c_out c) wr;
                           c_skip := c_skip c |} in
              match c_out c1 with
              | Some n =>
                  if good && negb (o <=? n)%N then Some c1
                  else Some (cleanup_cells L c1)
              | None => Some (cleanup_cells L c1)
              end
          end
      end
  end.

(** A turn for [g] would leave the three files as they are. *)
Definition settled (ffmpeg : ffmpeg_oracle) (fuel : nat) (gpu_type : string)
  (crf : Z) (g : string) (w : World) : Prop :=
  turn_cells (locks_of g (locked w))
    (verdict_of ffmpeg fuel gpu_type crf g (files w)) (cells_of g (files w))
  = Some (cells_of g (files w)).

(** The encoder answers a command line the same way whatever the files. *)
Definition steady (ffmpeg : ffmpeg_oracle) : Prop :=
  forall cmd fs fs', ffmpeg cmd fs = ffmpeg cmd fs'.

(** ** What a job and a batch leave behind *)

(** A piece of the script that does not use up the fuel. *)
Definition ends {A} (m : M A) : Prop := forall w, m w <> OutOfFuel.

(** No command was launched. *)
Definition same_launched (w w' : World) : Prop := launched w' = launched w.

(** Only the files at the paths [ks] may differ; the console and the
    commands launched have grown, and the refusals, the log and the overall
    bar are as they were. *)
Definition touches_only (ks : list path) (w w' : World) : Prop :=
  locked w' = locked w /\ log w' = log w /\ pbar_total w' = pbar_total w /\
  (exists ms, console w' = console w ++ ms) /\
  (exists cmds, launched w' = launched w ++ cmds) /\
  forall k, k ∉ ks -> files w' !! k = files w !! k.

(** The error the two reading loops raise on a stream, if they raise one. *)
Definition stream_error (fuel : nat) (lines : list string) : option exn :=
  match read_stream fuel lines blank_world with
  | Raise e _ => Some e
  | _ => None
  end.

(** The name has its place in [skipped/] taken. *)
Definition in_skipped (w : World) (file : string) : bool :=
  bool_decide (is_Some (files w !! key_skip file)).

(** The names of a list that the loop of [main] gives to [compress_video]. *)
Definition pending (w : World) (names : list string) : list string :=
  List.filter (fun f => negb (in_skipped w f)) names.

(** A row of the log for the file [f]. *)
Definition row_of (f : string) (r : csv_row) : Prop :=
  exists o c q s, r = [FStr f; FNum o; FNum c; FNum q; FInt s].

(** A time text of three fields with colons only, as in [H:MM:SS]. *)
Definition colon_time (hh mm ss : string) : string :=
  hh +:+ ":" +:+ mm +:+ ":" +:+ ss.

(** Projections of a changed world. *)
Ltac world_simpl :=
  cbn [files locked log console launched pbar_total
       set_files set_log add_console add_launched add_pbar] in *.

(** Running the script on files that are known: compute, look the files
    up, use what is known of them, and again. *)
Ltac crunch :=
  repeat (progress
    (cbn -[key_in key_out key_skip];
     rewrite ?lookup_insert_eq, ?lookup_delete_eq;
     rewrite ?lookup_insert_ne, ?lookup_delete_ne by done;
     repeat match goal with
       | H : _ !! _ = _ |- _ => rewrite H
       | H : bool_decide _ = _ |- _ => rewrite H
       end)).

(* ====================================================================== *)
(** * A small batch, for the examples *)
(* ====================================================================== *)

Module Demo.

Definition MiB : N := 1048576.

(** A run of ffmpeg that ends well and leaves [size] bytes. *)
Definition encoded (size : N) : proc :=
  {| stderr :=
       ["Input #0, mov,mp4,m4a,3gp,3g2,mj2, from './in.mp4':";
        "  Duration: 00:01:30.50, start: 0.000000, bitrate: 9300 kb/s";
        "frame=  120 fps= 60 q=23.0 size=    1024kB time=00:00:04.00 bitrate=2097.2kbits/s speed=2x";
        "frame= 2715 fps= 60 q=23.0 Lsize=   40960kB time=00:01:30.46 bitrate=3709.1kbits/s speed=2x"];
     returncode := 0;
     written := Some size |}.

(** A run that gives up on its input before it says anything of it. *)
Definition rejected : proc :=
  {| stderr := ["./c.mp4: Invalid data found when processing input"];
     returncode := 1;
     written := None |}.

(** A run that breaks in the middle of the encoding. *)
Definition interrupted : proc :=
  {| stderr :=
       ["  Duration: 00:00:20.00, start: 0.000000, bitrate: 4100 kb/s";
        "frame=  120 fps= 60 q=23.0 size=    1024kB time=00:00:04.00 bitrate=2097.2kbits/s speed=2x";
        "Error while decoding stream #0:0: Invalid data found"];
     returncode := 1;
     written := Some 1000%N |}.

(** The input path is the seventh word of the command line. *)
Definition ffmpeg : ffmpeg_oracle :=
  fun cmd _ =>
    match cmd !! 6%nat with
    | Some "./a.mp4" => inr (encoded (40 * MiB))
    | Some "./b.mp4" => inr (encoded (55 * MiB))
    | Some "./c.mp4" => inr rejected
    | Some "./d.mp4" => inr interrupted
    | Some "./e.mp4" => inr (encoded (8 * MiB))
    | _ => inl FileNotFoundError
    end.

Definition world_of (fs : list (path * N)) : World :=
  {| files := list_to_map fs; locked := ∅; log := None; console := [];
     launched := []; pbar_total := 0 |}.

(** The end-to-end scene of the specification: 100, 50 and 10 megabytes. *)
Definition three_files : World :=
  world_of [(["a.mp4"], 100 * MiB); (["b.mp4"], 50 * MiB);
            (["e.mp4"], 10 * MiB)]%N.

(** One file ffmpeg cannot read. *)
Definition unreadable : World := world_of [(["c.mp4"], 10 * MiB)]%N.

(** One file whose encoding breaks. *)
Definition breaking : World := world_of [(["d.mp4"], 10 * MiB)]%N.

(** A name already in [skipped/], its source gone, an output left over. *)
Definition leftover : World :=
  world_of [(["skipped"; "a.mp4"], 5); (["compressed"; "compressed_a.mp4"], 3)]%N.

(** The file of [breaking], with an older output that cannot be removed. *)
Definition refused : World :=
  {| files := list_to_map
       [(["d.mp4"], 10 * MiB); (["compressed"; "compressed_d.mp4"], 7)]%N;
     locked := {[ ["compressed"; "compressed_d.mp4"] ]};
     log := None; console := []; launched := []; pbar_total := 0 |}.

Definition world_after {A} (r : result A) (w : World) : World :=
  match r with
  | Ret _ w' => w'
  | Raise _ w' => w'
  | OutOfFuel => w
  end.

(** An encoder listing without a hardware encoder. *)
Definition listed : listing :=
  Completed 0 " V....D libx264              libx264 H.264 / AVC / MPEG-4 AVC".

(** The scene of the specification after one batch run, and after two. *)
Definition after_one_run : World :=
  world_after (main ffmpeg 10 listed three_files) three_files.

Definition after_two_runs : World :=
  world_after (main ffmpeg 10 listed after_one_run) after_one_run.


(** A run whose stream shows a tag with the marker in it before it names
    the duration. *)
Definition tagged : proc :=
  {| stderr :=
       ["  Metadata:";
        "    title           : Duration:short";
        "  Duration: 00:00:20.00, start: 0.000000, bitrate: 4100 kb/s"];
     returncode := 0;
     written := Some (2 * MiB)%N |}.

Definition tagging : ffmpeg_oracle := fun _ _ => inr tagged.

(** Two files, the first of which ffmpeg cannot read. *)
Definition stalled : World :=
  world_of [(["c.mp4"], 10 * MiB); (["a.mp4"], 100 * MiB)]%N.

(** Two files, one of which has its name in [skipped/] already. *)
Definition half_done : World :=
  world_of [(["a.mp4"], 100 * MiB); (["e.mp4"], 10 * MiB);
            (["skipped"; "e.mp4"], 10 * MiB)]%N.

End Demo.

(* ====================================================================== *)
(** * Facts about the string primitives *)
(* ====================================================================== *)

Section StringFacts.

Implicit Types (s a b : string) (c : ascii) (p : ascii -> bool).

Lemma str_app_cons c a s : String c a +:+ s = String c (a +:+ s).
Proof. reflexivity. Qed.

Lemma str_app_nil_l s : EmptyString +:+ s = s.
Proof. reflexivity. Qed.

Lemma str_app_nil_r s : s +:+ EmptyString = s.
Proof. induction s as [|c s IH]; [reflexivity | by rewrite str_app_cons, IH]. Qed.

Lemma str_app_assoc a b s : (a +:+ b) +:+ s = a +:+ (b +:+ s).
Proof.
  induction a as [|c a IH]; [reflexivity | by rewrite !str_app_cons, IH].
Qed.

Lemma split_char_pieces c s :
  PyStr.split_char c s = pieces (PyStr.split_on (Ascii.eqb c) s).
Proof. unfold PyStr.split_char, pieces. by destruct (PyStr.split_on _ s). Qed.

Lemma split_on_cons p c s :
  PyStr.split_on p (String c s) =
    if p c then (EmptyString, pieces (PyStr.split_on p s))
    else (String c (PyStr.split_on p s).1, (PyStr.split_on p s).2).
Proof. cbn. unfold pieces. by destruct (PyStr.split_on p s). Qed.

(** A text without separators is one piece. *)
Lemma split_on_plain p s :
  all_chars (fun c => negb (p c)) s = true -> PyStr.split_on p s = (s, []).
Proof.
  induction s as [|c s IH]; [reflexivity|].
  cbn [all_chars]. intros [Hc Hs]%andb_true_iff.
  rewrite split_on_cons, IH by done.
  by apply negb_true_iff in Hc as ->.
Qed.

(** A separator-free text in front joins the first piece. *)
Lemma split_on_plain_app p a s :
  all_chars (fun c => negb (p c)) a = true ->
  PyStr.split_on p (a +:+ s) =
    (a +:+ (PyStr.split_on p s).1, (PyStr.split_on p s).2).
Proof.
  induction a as [|c a IH]; intros Ha.
  - rewrite !str_app_nil_l. by destruct (PyStr.split_on p s).
  - cbn [all_chars] in Ha. apply andb_true_iff in Ha as [Hc Ha].
    rewrite str_app_cons, split_on_cons, IH by done.
    by apply negb_true_iff in Hc as ->.
Qed.

(** Cutting at a separator. *)
Lemma split_on_sep_app p a c s :
  p c = true ->
  pieces (PyStr.split_on p (a +:+ String c s)) =
    pieces (PyStr.split_on p a) ++ pieces (PyStr.split_on p s).
Proof.
  intros Hc. induction a as [|x a IH].
  - rewrite str_app_nil_l, split_on_cons, Hc. reflexivity.
  - rewrite str_app_cons, !split_on_cons.
    destruct (p x).
    + unfold pieces at 1 3. cbn [fst snd]. by rewrite IH.
    + unfold pieces in *. cbn [fst snd] in *.
      injection IH as -> ->. reflexivity.
Qed.

(** No piece holds a separator. *)
Lemma split_on_pieces_plain p s :
  Forall (fun x => all_chars (fun c => negb (p c)) x = true)
         (pieces (PyStr.split_on p s)).
Proof.
  induction s as [|c s IH]; [by repeat constructor|].
  rewrite split_on_cons. destruct (p c) eqn:Hc.
  - constructor; [reflexivity | exact IH].
  - unfold pieces in *. cbn [fst snd] in *.
    inversion IH as [|? ? Hh Ht]; subst. constructor; [|done].
    cbn. by rewrite Hc, Hh.
Qed.

Lemma ends_with_char_app c s :
  PyStr.ends_with_char c s = true ->
  exists s', s = s' +:+ String c EmptyString.
Proof.
  induction s as [|x s IH]; [done|].
  destruct s as [|y s].
  - cbn. intros ->%Ascii.eqb_eq. by exists EmptyString.
  - intros H. destruct IH as [s' Hs']; [exact H|].
    exists (String x s'). by rewrite str_app_cons, <- Hs'.
Qed.

Lemma prefix_app a s : String.prefix a (a +:+ s) = true.
Proof.
  induction a as [|c a IH]; [by destruct s|].
  rewrite str_app_cons. cbn. by destruct (ascii_dec c c).
Qed.

Lemma prefix_inv a s :
  String.prefix a s = true -> exists t, s = a +:+ t.
Proof.
  revert s. induction a as [|c a IH]; intros s H.
  - by exists s.
  - destruct s as [|x s]; [done|]. cbn in H.
    destruct (ascii_dec c x) as [->|]; [|done].
    destruct (IH _ H) as [t ->]. by exists t.
Qed.

(** [contains] finds exactly the occurrences. *)
Lemma contains_iff sub s :
  PyStr.contains sub s = true <->
  exists pre post, s = pre +:+ sub +:+ post.
Proof.
  split.
  - induction s as [|c s IH]; cbn [PyStr.contains].
    + rewrite orb_false_r. intros [t Ht]%prefix_inv. by exists EmptyString, t.
    + intros [Hp | Hr]%orb_true_iff.
      * apply prefix_inv in Hp as [t Ht]. by exists EmptyString, t.
      * destruct (IH Hr) as (pre & post & ->). by exists (String c pre), post.
  - intros (pre & post & ->). induction pre as [|c pre IH].
    + rewrite str_app_nil_l. destruct (sub +:+ post) eqn:E;
        cbn [PyStr.contains]; rewrite <- E, prefix_app; reflexivity.
    + rewrite str_app_cons. cbn [PyStr.contains]. rewrite IH. apply orb_true_r.
Qed.

End StringFacts.

(* ====================================================================== *)
(** * Numbers written in decimal digits *)
(* ====================================================================== *)

Section DigitFacts.

Implicit Types (s : string) (c : ascii).

Lemma is_digit_val c :
  is_digit c = true ->
  PyNum.digit_val c = Some (Z.of_N (N_of_ascii c) - 48) /\
  0 <= Z.of_N (N_of_ascii c) - 48 <= 9.
Proof.
  unfold is_digit, PyNum.digit_val. intros H. rewrite H.
  apply andb_true_iff in H as [H1%N.leb_le H2%N.leb_le].
  split; [f_equal; lia | lia].
Qed.

(** A digit is no blank, no sign, no separator and no letter. *)
Lemma is_digit_class c :
  is_digit c = true ->
  PyNum.c_isspace c = false /\ c <> "+"%char /\ c <> "-"%char /\
  (Ascii.eqb c ":" || Ascii.eqb c ".") = false /\
  Ascii.eqb "." c = false /\
  (Ascii.eqb c "e" || Ascii.eqb c "E") = false /\
  PyStr.lower_char c = c /\ c <> "i"%char /\ c <> "n"%char /\
  PyStr.in_range 0 127 c = true /\ (N_of_ascii c <? 127)%N = true.
Proof.
  destruct c as [[] [] [] [] [] [] [] []]; vm_compute; intros H;
    try discriminate H; repeat split; congruence.
Qed.

Lemma all_digits_inv s :
  all_digits s = true ->
  exists c s', s = String c s' /\ is_digit c = true /\
               all_chars is_digit s' = true.
Proof.
  unfold all_digits. destruct s as [|c s']; [done|].
  cbn. intros [Hc Hs]%andb_true_iff. by exists c, s'.
Qed.

Lemma all_chars_impl (q r : ascii -> bool) s :
  (forall c, q c = true -> r c = true) ->
  all_chars q s = true -> all_chars r s = true.
Proof.
  intros Hqr. induction s as [|c s IH]; [done|].
  cbn. intros [Hc Hs]%andb_true_iff. by rewrite (Hqr _ Hc), IH.
Qed.

Lemma lstrip_digits s : all_digits s = true -> PyNum.c_lstrip s = s.
Proof.
  intros (c & s' & -> & Hc & _)%all_digits_inv.
  cbn. by destruct (is_digit_class c Hc) as [-> _].
Qed.

Lemma rstrip_plain s :
  all_chars (fun c => negb (PyNum.c_isspace c)) s = true ->
  PyNum.c_rstrip s = s.
Proof.
  induction s as [|c s IH]; [done|].
  cbn [all_chars PyNum.c_rstrip]. intros [Hc Hs]%andb_true_iff.
  rewrite IH by done. apply negb_true_iff in Hc. rewrite Hc.
  by destruct s.
Qed.

(** The text of ASCII characters is parsed as it stands. *)
Lemma to_ascii_plain s :
  all_chars (fun c => PyStr.in_range 0 127 c && (N_of_ascii c <? 127)%N) s
  = true ->
  PyNum.to_ascii (PyStr.units s) = s.
Proof.
  induction s as [|c s IH]; [done|].
  cbn [all_chars]. intros [[Hr Hc]%andb_true_iff Hs]%andb_true_iff.
  cbn [PyStr.units]. rewrite Hr. cbn [PyNum.to_ascii]. rewrite Hc.
  by rewrite IH.
Qed.

Lemma parsed_text_digits s : all_digits s = true -> PyNum.parsed_text s = s.
Proof.
  intros H. unfold PyNum.parsed_text.
  pose proof H as [_ Hall]%andb_true_iff.
  rewrite to_ascii_plain.
  2:{ eapply all_chars_impl; [|exact Hall]. intros c Hc.
      by destruct (is_digit_class c Hc) as (_ & _ & _ & _ & _ & _ & _ & _ & _ & -> & ->). }
  rewrite lstrip_digits by done.
  apply rstrip_plain.
  eapply all_chars_impl; [|exact Hall].
  intros c Hc. by destruct (is_digit_class c Hc) as [-> _].
Qed.

Lemma digitpart_go_digits s acc n b :
  all_chars is_digit s = true ->
  (s <> EmptyString \/ b = true) ->
  PyNum.digitpart_go acc n b s = Some (decimal_from acc s, (n + String.length s)%nat).
Proof.
  revert acc n b. induction s as [|c s IH]; intros acc n b Hs Hne.
  - destruct Hne as [Hne|Hne]; [done|]. subst b. cbn. by rewrite Nat.add_0_r.
  - cbn [all_chars] in Hs. apply andb_true_iff in Hs as [Hc Hs].
    cbn [PyNum.digitpart_go decimal_from String.length].
    destruct (is_digit_val c Hc) as [-> _].
    rewrite IH by auto. do 2 f_equal. lia.
Qed.

Lemma digitpart_digits s :
  all_digits s = true ->
  PyNum.digitpart s = Some (decimal s, String.length s).
Proof.
  intros H. unfold PyNum.digitpart, decimal.
  apply andb_true_iff in H as [Hne H].
  rewrite digitpart_go_digits; [done | done |].
  left. intros ->. done.
Qed.

Lemma signed_digits {A} (body : string -> option A) neg s :
  all_digits s = true -> PyNum.signed body neg s = body s.
Proof.
  intros (c & s' & -> & Hc & _)%all_digits_inv.
  destruct (is_digit_class c Hc) as (_ & Hp & Hm & _).
  unfold PyNum.signed.
  destruct c as [[] [] [] [] [] [] [] []]; try reflexivity; congruence.
Qed.

(** [int] of a run of digits is the number it writes. *)
Lemma py_int_digits s :
  all_digits s = true ->
  (String.length s <= PyNum.int_max_str_digits)%nat ->
  PyNum.py_int s = Some (decimal s).
Proof.
  intros H Hlen. unfold PyNum.py_int, PyNum.int_digits.
  rewrite parsed_text_digits, signed_digits, digitpart_digits by done.
  by apply Nat.leb_le in Hlen as ->.
Qed.

Lemma decimal_from_nonneg s acc :
  all_chars is_digit s = true -> 0 <= acc -> 0 <= decimal_from acc s.
Proof.
  revert acc. induction s as [|c s IH]; intros acc Hs Hacc; [done|].
  cbn [all_chars] in Hs. apply andb_true_iff in Hs as [Hc Hs].
  cbn. apply IH; [done|]. destruct (is_digit_val c Hc) as [_ ?]. lia.
Qed.

Lemma decimal_nonneg s : all_digits s = true -> 0 <= decimal s.
Proof.
  intros [_ H]%andb_true_iff. by apply decimal_from_nonneg.
Qed.

Lemma decimal_from_bound s acc :
  all_chars is_digit s = true -> 0 <= acc ->
  decimal_from acc s < (acc + 1) * 10 ^ Z.of_nat (String.length s).
Proof.
  revert acc. induction s as [|c s IH]; intros acc Hs Hacc.
  - cbn. lia.
  - cbn [all_chars] in Hs. apply andb_true_iff in Hs as [Hc Hs].
    destruct (is_digit_val c Hc) as [_ Hd].
    cbn [decimal_from String.length].
    rewrite Nat2Z.inj_succ, Z.pow_succ_r by lia.
    eapply Z.lt_le_trans; [apply IH; [done|lia]|].
    assert (0 < 10 ^ Z.of_nat (String.length s)) by (apply Z.pow_pos_nonneg; lia).
    nia.
Qed.

Lemma time_field_inv s :
  time_field s = true ->
  all_digits s = true /\
  (String.length s <= PyNum.int_max_str_digits)%nat /\
  0 <= decimal s < 2 ^ 53.
Proof.
  unfold time_field. intros [Hd Hlen%Nat.leb_le]%andb_true_iff.
  split; [done|]. split; [unfold PyNum.int_max_str_digits; lia|].
  split; [by apply decimal_nonneg|].
  pose proof Hd as [_ Hall]%andb_true_iff.
  pose proof (decimal_from_bound s 0 Hall ltac:(lia)) as Hb.
  fold (decimal s) in Hb.
  assert (10 ^ Z.of_nat (String.length s) <= 10 ^ 15)
    by (apply Z.pow_le_mono_r; lia).
  assert (10 ^ 15 < 2 ^ 53) by (vm_compute; reflexivity).
  lia.
Qed.

Lemma lower_digits s : all_chars is_digit s = true -> PyStr.lower s = s.
Proof.
  induction s as [|c s IH]; [done|].
  cbn. intros [Hc Hs]%andb_true_iff. rewrite IH by done.
  by destruct (is_digit_class c Hc) as (_ & _ & _ & _ & _ & _ & -> & _).
Qed.

(** ** Doubles that are whole numbers *)

Lemma Qred_whole (q : Q) (n : Z) : (q == inject_Z n)%Q -> Qred q = inject_Z n.
Proof.
  intros H. rewrite (Qred_complete _ _ H).
  unfold Qred, inject_Z.
  pose proof (Z.ggcd_gcd n 1) as Hg.
  pose proof (Z.ggcd_correct_divisors n 1) as Hd.
  destruct (Z.ggcd n 1) as [g [aa bb]]. cbn [fst] in Hg.
  rewrite Z.gcd_1_r in Hg. subst g. destruct Hd as [-> Hb].
  assert (bb = 1) as -> by lia. f_equal. lia.
Qed.

Lemma round_half_even_whole (q : Q) (n : Z) :
  (q == inject_Z n)%Q -> PyNum.round_half_even q = n.
Proof.
  destruct q as [a d]. unfold Qeq, inject_Z. cbn [Qnum Qden]. intros H.
  rewrite Z.mul_1_r in H. unfold PyNum.round_half_even. cbn [Qnum Qden].
  rewrite H, Z.div_mul, Z.mod_mul by lia. reflexivity.
Qed.

Lemma scale2_up (q : Q) (k : Z) :
  0 <= k -> (PyNum.scale2 q k == q * inject_Z (2 ^ k))%Q.
Proof. intros Hk. unfold PyNum.scale2. by apply Z.leb_le in Hk as ->. Qed.

Lemma scale2_down (q : Q) (k : Z) :
  0 <= k -> (PyNum.scale2 q (- k) == q / inject_Z (2 ^ k))%Q.
Proof.
  intros Hk. unfold PyNum.scale2. destruct (0 <=? - k) eqn:E.
  - apply Z.leb_le in E. assert (k = 0) as -> by lia.
    change (inject_Z (2 ^ (- 0))) with 1%Q. change (inject_Z (2 ^ 0)) with 1%Q.
    field.
  - by rewrite Z.opp_involutive.
Qed.

Lemma pow2_nonzero (k : Z) : 0 <= k -> ~ (inject_Z (2 ^ k) == 0)%Q.
Proof.
  intros Hk. unfold Qeq, inject_Z. cbn.
  assert (0 < 2 ^ k) by (apply Z.pow_pos_nonneg; lia). lia.
Qed.

Lemma nearest_whole (n : positive) :
  Z.pos n < 2 ^ 53 -> PyNum.nearest n 1 = Fin (inject_Z (Z.pos n)).
Proof.
  intros Hn. unfold PyNum.nearest, PyNum.ilog2.
  change (Z.log2 1) with 0. rewrite Z.sub_0_r.
  pose proof (Z.log2_nonneg (Z.pos n)) as Hl0.
  pose proof (Z.log2_spec (Z.pos n) ltac:(lia)) as [Hlo _].
  assert (Hl : Z.log2 (Z.pos n) < 53) by (apply Z.log2_lt_pow2; lia).
  set (e := Z.log2 (Z.pos n)) in *.
  apply Z.leb_le in Hl0 as Hl0'. rewrite Hl0'.
  assert ((Z.pos n <? 1 * 2 ^ e) = false) as -> by (apply Z.ltb_ge; lia).
  rewrite Z.max_l by lia.
  set (k := 52 - e). replace (e - 52) with (- k) by lia.
  rewrite Z.opp_involutive.
  assert (Hk : 0 <= k) by lia.
  rewrite (round_half_even_whole _ (Z.pos n * 2 ^ k)).
  2:{ rewrite scale2_up by done. unfold Qeq, inject_Z. cbn [Qnum Qden Qmult].
      lia. }
  assert (Hr : (PyNum.scale2 (inject_Z (Z.pos n * 2 ^ k)) (- k)
                == inject_Z (Z.pos n))%Q).
  { rewrite scale2_down by done. rewrite inject_Z_mult.
    field. by apply pow2_nonzero. }
  destruct (Qle_bool _ _) eqn:E.
  - apply Qle_bool_iff in E. rewrite Hr in E.
    rewrite <- Zle_Qle in E.
    assert (2 ^ 53 < 2 ^ 1024) by (vm_compute; reflexivity). lia.
  - by rewrite (Qred_whole _ _ Hr).
Qed.

Lemma to_double_whole (q : Q) (n : Z) :
  (q == inject_Z n)%Q -> 0 <= n < 2 ^ 53 ->
  PyNum.to_double q = Fin (inject_Z n).
Proof.
  intros H Hn. unfold PyNum.to_double. rewrite (Qred_whole _ _ H).
  cbn [inject_Z Qnum Qden]. destruct n as [|n|n]; [done| |lia].
  apply nearest_whole. lia.
Qed.

Lemma fl_whole (q : Q) (n : Z) :
  (q == inject_Z n)%Q -> 0 <= n < 2 ^ 53 -> PyNum.fl q = inject_Z n.
Proof. intros H Hn. unfold PyNum.fl. by rewrite (to_double_whole _ _ H Hn). Qed.

(** ** Rounding to a double keeps a number between whole bounds *)

Lemma round_half_even_nonneg (q : Q) : (0 <= q)%Q -> 0 <= PyNum.round_half_even q.
Proof.
  destruct q as [a b]. unfold Qle. cbn [Qnum Qden]. intros H.
  rewrite Z.mul_1_r in H. unfold PyNum.round_half_even. cbn [Qnum Qden].
  assert (0 <= a / Z.pos b) by (apply Z.div_pos; lia).
  destruct (_ ?= _); [destruct (Z.even _)| |]; lia.
Qed.

Lemma round_half_even_below (q : Q) (N : Z) :
  (q <= inject_Z N)%Q -> PyNum.round_half_even q <= N.
Proof.
  destruct q as [a b]. unfold Qle, inject_Z. cbn [Qnum Qden]. intros H.
  rewrite Z.mul_1_r in H. unfold PyNum.round_half_even. cbn [Qnum Qden].
  pose proof (Z.div_mod a (Z.pos b) ltac:(lia)) as Hdm.
  pose proof (Z.mod_pos_bound a (Z.pos b) ltac:(lia)) as Hm.
  assert (Hf : a / Z.pos b <= N) by (apply Z.div_le_upper_bound; lia).
  assert (Hstep : 0 < a mod Z.pos b -> a / Z.pos b + 1 <= N) by nia.
  destruct (Z.compare_spec (2 * (a mod Z.pos b)) (Z.pos b)) as [E|E|E].
  - destruct (Z.even _); [lia|]. apply Hstep. lia.
  - lia.
  - apply Hstep. lia.
Qed.

Lemma pow2_pos (k : Z) : 0 <= k -> (0 < inject_Z (2 ^ k))%Q.
Proof.
  intros Hk. unfold Qlt, inject_Z. cbn.
  assert (0 < 2 ^ k) by (apply Z.pow_pos_nonneg; lia). lia.
Qed.

Lemma scale2_nonneg (q : Q) (k : Z) : (0 <= q)%Q -> (0 <= PyNum.scale2 q k)%Q.
Proof.
  intros Hq. unfold PyNum.scale2. destruct (Z.leb_spec 0 k) as [Hk|Hk].
  - apply Qmult_le_0_compat; [done|]. apply Qlt_le_weak, pow2_pos. lia.
  - apply Qle_shift_div_l; [apply pow2_pos; lia|]. by rewrite Qmult_0_l.
Qed.

(** The binade of a number below [2^E] is below [E]. *)
Lemma ilog2_below (n d : positive) (E : Z) :
  0 <= E -> Z.pos n < Z.pos d * 2 ^ E -> PyNum.ilog2 n d < E.
Proof.
  intros HE Hlt. unfold PyNum.ilog2.
  pose proof (Z.log2_spec (Z.pos n) ltac:(lia)) as [Hn _].
  pose proof (Z.log2_spec (Z.pos d) ltac:(lia)) as [_ Hd].
  pose proof (Z.log2_nonneg (Z.pos n)) as Hn0.
  pose proof (Z.log2_nonneg (Z.pos d)) as Hd0.
  set (ln := Z.log2 (Z.pos n)) in *. set (ld := Z.log2 (Z.pos d)) in *.
  assert (Hcap : ln - ld <= E).
  { destruct (Z.le_gt_cases (ln - ld) E) as [|Hgt]; [done|exfalso].
    assert (Hpow : 2 ^ ln = 2 ^ (Z.succ ld) * 2 ^ E * 2 ^ (ln - ld - 1 - E)).
    { rewrite <- !Z.pow_add_r by lia. f_equal. lia. }
    assert (0 < 2 ^ (ln - ld - 1 - E)) by (apply Z.pow_pos_nonneg; lia).
    assert (0 < 2 ^ E) by (apply Z.pow_pos_nonneg; lia).
    assert (Z.pos d * 2 ^ E < 2 ^ Z.succ ld * 2 ^ E)
      by (apply Z.mul_lt_mono_pos_r; lia).
    assert (2 ^ Z.succ ld * 2 ^ E * 1
            <= 2 ^ Z.succ ld * 2 ^ E * 2 ^ (ln - ld - 1 - E))
      by (apply Z.mul_le_mono_nonneg_l; lia).
    lia. }
  destruct (Z.leb_spec 0 (ln - ld)) as [H0|H0].
  - destruct (Z.ltb_spec (Z.pos n) (Z.pos d * 2 ^ (ln - ld))) as [|Hge]; [lia|].
    destruct (Z.eq_dec (ln - ld) E) as [Heq|]; [|lia].
    rewrite Heq in Hge. lia.
  - destruct (_ <? _); lia.
Qed.

Lemma fl_nonneg (q : Q) : (0 <= q)%Q -> (0 <= PyNum.fl q)%Q.
Proof.
  intros Hq. unfold PyNum.fl, PyNum.to_double.
  assert (Hr : (0 <= Qred q)%Q) by by rewrite Qred_correct.
  destruct (Qred q) as [a d]. cbn [Qnum Qden].
  destruct a as [|n|n]; [apply Qle_refl| |by contradiction Hr].
  unfold PyNum.nearest. destruct (Qle_bool _ _); [exact Hq|].
  rewrite Qred_correct. apply scale2_nonneg.
  rewrite <- (Zle_Qle 0). apply round_half_even_nonneg.
  apply scale2_nonneg. unfold Qle. cbn. lia.
Qed.

(** A number of at most the whole number [B] stays so, for [B] below
    [2^52]. *)
Lemma fl_below (q : Q) (B : Z) :
  (0 <= q)%Q -> (q <= inject_Z B)%Q -> B < 2 ^ 52 ->
  (PyNum.fl q <= inject_Z B)%Q.
Proof.
  intros Hq HB Hcap. unfold PyNum.fl, PyNum.to_double.
  assert (Hr : (Qred q <= inject_Z B)%Q) by by rewrite Qred_correct.
  assert (Hq' : (0 <= Qred q)%Q) by by rewrite Qred_correct.
  assert (HB0 : 0 <= B).
  { rewrite Zle_Qle. by apply (Qle_trans _ q). }
  destruct (Qred q) as [a d]. cbn [Qnum Qden].
  destruct a as [|n|n]; [by rewrite <- (Zle_Qle 0)| |by contradiction Hq'].
  unfold PyNum.nearest. destruct (Qle_bool _ _); [exact HB|].
  rewrite Qred_correct.
  assert (Hnd : Z.pos n <= B * Z.pos d).
  { unfold Qle, inject_Z in Hr. cbn [Qnum Qden] in Hr. lia. }
  assert (He : PyNum.ilog2 n d < 52).
  { apply ilog2_below; [lia|].
    assert (0 < 2 ^ 52) by (vm_compute; reflexivity). nia. }
  set (p := Z.max (PyNum.ilog2 n d - 52) (-1074)).
  assert (Hp : p < 0) by lia.
  set (k := - p). assert (Hk : 0 < k) by lia.
  replace p with (- k) by lia.
  assert (Hm : PyNum.round_half_even (PyNum.scale2 (Z.pos n # d) k)
               <= B * 2 ^ k).
  { apply round_half_even_below. rewrite scale2_up by lia.
    rewrite inject_Z_mult. apply Qmult_le_compat_r; [done|].
    apply Qlt_le_weak, pow2_pos. lia. }
  rewrite scale2_down by lia.
  apply Qle_shift_div_r; [apply pow2_pos; lia|].
  rewrite <- inject_Z_mult, <- Zle_Qle. exact Hm.
Qed.

(** [float] of a run of digits is the number it writes, when a double holds
    it exactly. *)
Lemma py_float_digits s :
  all_digits s = true -> decimal s < 2 ^ 53 ->
  PyNum.py_float s = Some (Fin (inject_Z (decimal s))).
Proof.
  intros H Hv. unfold PyNum.py_float.
  rewrite parsed_text_digits, signed_digits by done.
  unfold PyNum.absfloatvalue.
  pose proof H as (c & s' & -> & Hc & Hs')%all_digits_inv.
  assert (Hall : all_chars is_digit (String c s') = true)
    by (cbn; by rewrite Hc, Hs').
  rewrite lower_digits by done.
  destruct (is_digit_class c Hc)
    as (_ & _ & _ & _ & Hdot & He & _ & Hi & Hn & _).
  assert (String.eqb (String c s') "inf" = false) as ->.
  { apply String.eqb_neq. congruence. }
  assert (String.eqb (String c s') "infinity" = false) as ->.
  { apply String.eqb_neq. congruence. }
  assert (String.eqb (String c s') "nan" = false) as ->.
  { apply String.eqb_neq. congruence. }
  cbn [orb].
  unfold PyNum.floatnumber.
  rewrite split_on_plain.
  2:{ eapply all_chars_impl; [|exact Hall]. intros x Hx.
      destruct (is_digit_class x Hx) as (_ & _ & _ & _ & _ & -> & _). done. }
  unfold PyNum.number. rewrite split_char_pieces, split_on_plain.
  2:{ eapply all_chars_impl; [|exact Hall]. intros x Hx.
      destruct (is_digit_class x Hx) as (_ & _ & _ & _ & -> & _). done. }
  unfold pieces. cbn [fst snd]. rewrite digitpart_digits by done.
  cbn [fmap option_fmap option_map].
  rewrite (to_double_whole _ (decimal (String c s'))); [done|reflexivity|].
  split; [by apply decimal_nonneg | done].
Qed.

End DigitFacts.

(* ====================================================================== *)
(** * [parse_time] *)
(* ====================================================================== *)

Section ParseTime.

Lemma digits_no_colon_dot s :
  all_digits s = true ->
  all_chars (fun c => negb (Ascii.eqb c ":" || Ascii.eqb c ".")) s = true.
Proof.
  intros [_ H]%andb_true_iff. eapply all_chars_impl; [|exact H].
  intros c Hc. by destruct (is_digit_class c Hc) as (_ & _ & _ & -> & _).
Qed.

Lemma re_split_long hh mm ss ff :
  all_digits hh = true -> all_digits mm = true ->
  all_digits ss = true -> all_digits ff = true ->
  re_split_colon_dot (long_time hh mm ss ff) = [hh; mm; ss; ff].
Proof.
  intros Hh Hm Hs Hf. unfold re_split_colon_dot, long_time.
  rewrite !str_app_cons, !str_app_nil_l.
  rewrite (split_on_plain_app _ hh), split_on_cons by by apply digits_no_colon_dot.
  rewrite (split_on_plain_app _ mm), split_on_cons by by apply digits_no_colon_dot.
  rewrite (split_on_plain_app _ ss), split_on_cons by by apply digits_no_colon_dot.
  rewrite (split_on_plain _ ff) by by apply digits_no_colon_dot.
  cbn. by rewrite !str_app_nil_r.
Qed.

Lemma re_split_short mm ss ff :
  all_digits mm = true -> all_digits ss = true -> all_digits ff = true ->
  re_split_colon_dot (short_time mm ss ff) = [mm; ss; ff].
Proof.
  intros Hm Hs Hf. unfold re_split_colon_dot, short_time.
  rewrite !str_app_cons, !str_app_nil_l.
  rewrite (split_on_plain_app _ mm), split_on_cons by by apply digits_no_colon_dot.
  rewrite (split_on_plain_app _ ss), split_on_cons by by apply digits_no_colon_dot.
  rewrite (split_on_plain _ ff) by by apply digits_no_colon_dot.
  cbn. by rewrite !str_app_nil_r.
Qed.

(** Whole seconds go through [timedelta] unchanged, as long as it takes
    them. *)
Lemma total_seconds_whole h m s :
  0 <= 3600 * h + 60 * m + s ->
  (3600 * h + 60 * m + s < 86400 * 10 ^ 9 ->
   PyNum.total_seconds h m (Fin (inject_Z s))
   = inr (inject_Z (3600 * h + 60 * m + s)))
  /\ (86400 * 10 ^ 9 <= 3600 * h + 60 * m + s ->
      PyNum.total_seconds h m (Fin (inject_Z s)) = inl OverflowError).
Proof.
  intros H0. unfold PyNum.total_seconds.
  set (t := 3600 * h + 60 * m + s) in *.
  assert (Htr : PyNum.trunc (inject_Z s) = s).
  { unfold PyNum.trunc, inject_Z. cbn [Qnum Qden]. apply Z.quot_1_r. }
  rewrite Htr.
  rewrite (fl_whole ((inject_Z s - inject_Z s) * 1000000) 0);
    [|ring|split; [lia | vm_compute; reflexivity]].
  rewrite (round_half_even_whole _ (t * 1000000)).
  2:{ rewrite <- inject_Z_plus. subst t.
      unfold Qeq, inject_Z. cbn [Qnum Qden]. lia. }
  change (10 ^ 9) with 1000000000.
  replace (t * 1000000 / 86400000000) with (t / 86400).
  2:{ replace 86400000000 with (86400 * 1000000) by lia.
      rewrite Z.div_mul_cancel_r; lia. }
  split; intros Ht.
  - assert (Hd : 0 <= t / 86400 <= 999999999).
    { split; [apply Z.div_pos; lia|].
      apply Z.lt_succ_r. apply Z.div_lt_upper_bound; lia. }
    destruct (Z.ltb_spec (t / 86400) (-999999999)); [lia|].
    destruct (Z.ltb_spec 999999999 (t / 86400)); [lia|].
    cbn [orb]. f_equal. apply fl_whole.
    + unfold Qeq, inject_Z. cbn [Qnum Qden]. lia.
    + assert (86400 * 1000000000 < 2 ^ 53) by (vm_compute; reflexivity). lia.
  - assert (Hd : 1000000000 <= t / 86400) by (apply Z.div_le_lower_bound; lia).
    destruct (Z.ltb_spec (t / 86400) (-999999999)); [lia|].
    destruct (Z.ltb_spec 999999999 (t / 86400)); [|lia].
    reflexivity.
Qed.

(** C5, as the code has it.  For a time text [HH:MM:SS.ss] or [MM:SS.ss]
    whose fields are runs of decimal digits (fifteen at most before the
    point), [parse_time] returns the hours (0 for the short shape), the
    minutes and the whole seconds, writes nothing, and leaves the hundredths
    out; the seconds both callers make of such a triple are
    [3600 h + 60 m + s] when that is below 86400 * 10^9, and from there on
    [timedelta] raises [OverflowError]. *)
Theorem parse_time_whole_seconds (hh mm ss ff : string) :
  time_field hh = true -> time_field mm = true ->
  time_field ss = true -> all_digits ff = true ->
  let h := decimal hh in
  let m := decimal mm in
  let s := decimal ss in
  parse_time (long_time hh mm ss ff) = ((h, m, Fin (inject_Z s)), [])
  /\ parse_time (short_time mm ss ff) = ((0, m, Fin (inject_Z s)), [])
  /\ (forall h0, 0 <= h0 ->
        (3600 * h0 + 60 * m + s < 86400 * 10 ^ 9 ->
         exists q, seconds_of (h0, m, Fin (inject_Z s)) = inr q /\
                   (q == inject_Z (3600 * h0 + 60 * m + s))%Q)
        /\ (86400 * 10 ^ 9 <= 3600 * h0 + 60 * m + s ->
            seconds_of (h0, m, Fin (inject_Z s)) = inl OverflowError)).
Proof.
  intros (Hh & Lh & _)%time_field_inv (Hm & Lm & Vm)%time_field_inv
    (Hs & _ & Vs)%time_field_inv Hf h m s.
  split; [|split].
  - unfold parse_time, parse_time_try. rewrite re_split_long by done.
    cbn [length Nat.eqb Nat.leb nth].
    rewrite !py_int_digits, py_float_digits by (done || lia). reflexivity.
  - unfold parse_time, parse_time_try. rewrite re_split_short by done.
    cbn [length Nat.eqb Nat.leb nth].
    rewrite !py_int_digits, py_float_digits by (done || lia). reflexivity.
  - intros h0 Hh0. unfold seconds_of.
    destruct (total_seconds_whole h0 m s) as [Hin Hout]; [subst m s; lia|].
    split.
    + intros Hb. eexists. split; [by apply Hin|reflexivity].
    + exact Hout.
Qed.

Lemma parse_time_whole_seconds_witness :
  parse_time "00:01:30.50" = ((0, 1, Fin (inject_Z 30)), [])
  /\ parse_time "01:30.50" = ((0, 1, Fin (inject_Z 30)), [])
  /\ (forall h0, 0 <= h0 ->
        (3600 * h0 + 60 * 1 + 30 < 86400 * 10 ^ 9 ->
         exists q, seconds_of (h0, 1, Fin (inject_Z 30)) = inr q /\
                   (q == inject_Z (3600 * h0 + 60 * 1 + 30))%Q)
        /\ (86400 * 10 ^ 9 <= 3600 * h0 + 60 * 1 + 30 ->
            seconds_of (h0, 1, Fin (inject_Z 30)) = inl OverflowError)).
Proof.
  apply (parse_time_whole_seconds "00" "01" "30" "50"); reflexivity.
Defined.

(** C5 as written fails: the specification's 90.5 seconds for "00:01:30.50"
    come out as 90. *)
Lemma parse_time_drops_hundredths :
  well_formed_time "00:01:30.50" /\
  (expansion 0 1 30 "50" == 181 # 2)%Q /\
  exists q, seconds_of (parse_time "00:01:30.50").1 = inr q /\
            (q == 90)%Q /\ ~ (q == expansion 0 1 30 "50")%Q.
Proof.
  split; [|split].
  - exists "00", "01", "30", "50". repeat split; try reflexivity. by left.
  - reflexivity.
  - eexists. split; [vm_compute; reflexivity|]. split; [reflexivity|].
    intros H. vm_compute in H. discriminate H.
Qed.

(** C7, as the code has it.  [parse_time] is a total function: whatever the
    text, it returns a triple.  The triple is the zero time, and the seconds
    made of it are 0, whenever the text splits at [:] and [.] into fewer than
    three pieces or one of the leading pieces it converts is refused by
    [int] (hours, minutes) or [float] (seconds). *)
Theorem parse_time_fallback (time_str : string) :
  let parts := re_split_colon_dot time_str in
  ((length parts < 3)%nat
   \/ PyNum.py_int (nth 0 parts EmptyString) = None
   \/ (length parts = 3%nat /\ PyNum.py_float (nth 1 parts EmptyString) = None)
   \/ ((4 <= length parts)%nat /\
       (PyNum.py_int (nth 1 parts EmptyString) = None \/
        PyNum.py_float (nth 2 parts EmptyString) = None))) ->
  (parse_time time_str).1 = zero_time
  /\ exists q, seconds_of (parse_time time_str).1 = inr q /\ (q == 0)%Q.
Proof.
  intros parts Hbad.
  assert (H0 : (parse_time time_str).1 = zero_time).
  { unfold parse_time, parse_time_try. fold parts.
    destruct (Nat.eqb_spec (length parts) 3) as [E3|N3].
    - destruct Hbad as [?|[Hi|[[_ Hf]|[? _]]]]; try lia.
      + by rewrite Hi.
      + destruct (PyNum.py_int _); [|done]. by rewrite Hf.
    - destruct (Nat.leb_spec 4 (length parts)) as [L4|L4].
      + destruct Hbad as [?|[Hi|[[? _]|[_ [Hi|Hf]]]]]; try lia.
        * by rewrite Hi.
        * destruct (PyNum.py_int (nth 0 _ _)); [|done]. by rewrite Hi.
        * destruct (PyNum.py_int (nth 0 _ _)); [|done].
          destruct (PyNum.py_int (nth 1 _ _)); [|done]. by rewrite Hf.
      + reflexivity. }
  split; [exact H0|]. rewrite H0. eexists. split; [vm_compute; reflexivity|].
  reflexivity.
Qed.

Lemma parse_time_fallback_witness :
  (parse_time "abc").1 = zero_time
  /\ exists q, seconds_of (parse_time "abc").1 = inr q /\ (q == 0)%Q.
Proof.
  apply (parse_time_fallback "abc"). left. vm_compute. lia.
Defined.

(** C7 as written fails: "1.2.3" has neither shape, and is read as one
    minute and two seconds. *)
Lemma parse_time_reads_malformed :
  ~ well_formed_time "1.2.3" /\
  (parse_time "1.2.3").1 = (0, 1, Fin 2) /\
  (parse_time "1.2.3").1 <> zero_time /\
  exists q, seconds_of (parse_time "1.2.3").1 = inr q /\ (q == 62)%Q.
Proof.
  split; [|split; [|split]].
  - intros (hh & mm & ss & ff & _ & _ & _ & _ & [E|E]).
    + assert (H : PyStr.contains ":" "1.2.3" = true).
      { apply contains_iff. exists hh. eexists. rewrite E. reflexivity. }
      vm_compute in H. discriminate H.
    + assert (H : PyStr.contains ":" "1.2.3" = true).
      { apply contains_iff. exists mm. eexists. rewrite E. reflexivity. }
      vm_compute in H. discriminate H.
  - vm_compute. reflexivity.
  - vm_compute. discriminate.
  - eexists. split; [vm_compute; reflexivity|]. reflexivity.
Qed.

End ParseTime.

(* ====================================================================== *)
(** * [get_gpu_type] *)
(* ====================================================================== *)

Section Probe.

Lemma lists_encoder_iff id stdout :
  lists_encoder id stdout <-> PyStr.contains id (PyStr.lower stdout) = true.
Proof. unfold lists_encoder, occurs. symmetry. apply contains_iff. Qed.

Lemma not_lists_encoder id stdout :
  ~ lists_encoder id stdout -> PyStr.contains id (PyStr.lower stdout) = false.
Proof.
  rewrite lists_encoder_iff. by destruct (PyStr.contains _ _).
Qed.

(** C8.  When the listing ends with status 0, the answer is the first of
    nvidia, amd, intel whose identifier ([nvenc], [amf], [qsv]) the
    lower-cased output holds, and cpu when it holds none; when ffmpeg cannot
    be started or ends with another status the answer is cpu.  The answer is
    always a key of [GPU_CONFIG]. *)
Theorem get_gpu_type_priority (l : listing) :
  let g := (get_gpu_type l).1 in
  (forall stdout, l = Completed 0 stdout ->
     (lists_encoder "nvenc" stdout -> g = "nvidia") /\
     (~ lists_encoder "nvenc" stdout -> lists_encoder "amf" stdout ->
      g = "amd") /\
     (~ lists_encoder "nvenc" stdout -> ~ lists_encoder "amf" stdout ->
      lists_encoder "qsv" stdout -> g = "intel") /\
     (~ lists_encoder "nvenc" stdout -> ~ lists_encoder "amf" stdout ->
      ~ lists_encoder "qsv" stdout -> g = "cpu")) /\
  (forall e, l = NotStarted e ->
     get_gpu_type l = ("cpu", [MsgGpuError e])) /\
  (forall status stdout, l = Completed status stdout -> status <> 0 ->
     get_gpu_type l = ("cpu", [MsgGpuError CalledProcessError])) /\
  is_Some (GPU_CONFIG !! g).
Proof.
  intros g. repeat split.
  - intros Hn. subst g l. unfold get_gpu_type, get_gpu_type_try. cbn.
    apply lists_encoder_iff in Hn. by rewrite Hn.
  - intros Hn Ha. subst g l. unfold get_gpu_type, get_gpu_type_try. cbn.
    apply not_lists_encoder in Hn. apply lists_encoder_iff in Ha.
    by rewrite Hn, Ha.
  - intros Hn Ha Hq. subst g l. unfold get_gpu_type, get_gpu_type_try. cbn.
    apply not_lists_encoder in Hn, Ha. apply lists_encoder_iff in Hq.
    by rewrite Hn, Ha, Hq.
  - intros Hn Ha Hq. subst g l. unfold get_gpu_type, get_gpu_type_try. cbn.
    apply not_lists_encoder in Hn, Ha, Hq. by rewrite Hn, Ha, Hq.
  - intros e ->. reflexivity.
  - intros status stdout -> Hs. unfold get_gpu_type, get_gpu_type_try. cbn.
    by apply Z.eqb_neq in Hs as ->.
  - subst g. unfold get_gpu_type, get_gpu_type_try.
    destruct (run_encoders l) as [e|stdout]; [by eexists|].
    destruct (PyStr.contains "nvenc" _); [by eexists|].
    destruct (PyStr.contains "amf" _); [by eexists|].
    destruct (PyStr.contains "qsv" _); by eexists.
Qed.

Lemma get_gpu_type_priority_witness :
  (get_gpu_type (Completed 0 " V....D h264_amf  AMD AMF H.264 Encoder")).1
  = "amd".
Proof.
  destruct (get_gpu_type_priority
              (Completed 0 " V....D h264_amf  AMD AMF H.264 Encoder"))
    as (Hok & _).
  destruct (Hok _ eq_refl) as (_ & Hamd & _). apply Hamd.
  - intros H%lists_encoder_iff. vm_compute in H. discriminate H.
  - apply lists_encoder_iff. vm_compute. reflexivity.
Defined.

End Probe.

(* ====================================================================== *)
(** * Paths *)
(* ====================================================================== *)

Section PathFacts.

Implicit Types (p d n : string).

Lemma all_chars_app q a b :
  all_chars q (a +:+ b) = all_chars q a && all_chars q b.
Proof.
  induction a as [|c a IH]; [reflexivity|].
  rewrite str_app_cons. cbn. by rewrite IH, andb_assoc.
Qed.

Lemma pieces_snoc (r : string * list string) :
  exists init, pieces r = init ++ [default EmptyString (last (pieces r))].
Proof.
  destruct r as [h t]. unfold pieces. cbn [fst snd].
  destruct (exists_last (l := h :: t)) as (init & x & E); [done|].
  exists init. rewrite E at 1. by rewrite E, last_snoc.
Qed.

Lemma basename_plain p : plain (PyPath.basename p) = true.
Proof.
  unfold PyPath.basename. rewrite split_char_pieces.
  pose proof (split_on_pieces_plain (Ascii.eqb PyPath.sep) p) as H.
  destruct (pieces_snoc (PyStr.split_on (Ascii.eqb PyPath.sep) p)) as [init E].
  rewrite E in H. apply Forall_app in H as [_ H].
  by inversion H.
Qed.

Lemma split_char_basename p :
  exists init, PyStr.split_char PyPath.sep p = init ++ [PyPath.basename p].
Proof.
  unfold PyPath.basename. rewrite split_char_pieces. apply pieces_snoc.
Qed.

Lemma filter_snoc {A} (f : A -> bool) l x :
  f x = true -> List.filter f (l ++ [x]) = List.filter f l ++ [x].
Proof. intros H. rewrite List.filter_app. cbn. by rewrite H. Qed.

(** The last component of a path is its base name. *)
Lemma resolve_basename p :
  PyPath.proper (PyPath.basename p) = true ->
  exists dir, PyPath.resolve p = dir ++ [PyPath.basename p].
Proof.
  intros H. unfold PyPath.resolve.
  destruct (split_char_basename p) as [init ->].
  rewrite filter_snoc by done. eexists. by rewrite List.app_assoc.
Qed.

Lemma plain_not_absolute n : plain n = true -> PyStr.startswith "/" n = false.
Proof.
  destruct n as [|c n]; [done|]. unfold plain. cbn [all_chars].
  intros [Hc _]%andb_true_iff. apply negb_true_iff in Hc.
  unfold PyStr.startswith.
  change (String.prefix "/" (String c n))
    with (if ascii_dec "/" c then String.prefix EmptyString n else false).
  destruct (ascii_dec "/" c) as [E|]; [|done]. subst c.
  vm_compute in Hc. discriminate Hc.
Qed.

Lemma basename_app_sep d n :
  plain n = true -> PyPath.basename (d +:+ String PyPath.sep n) = n.
Proof.
  intros Hn. unfold PyPath.basename.
  rewrite split_char_pieces, split_on_sep_app by apply Ascii.eqb_refl.
  rewrite (split_on_plain _ n) by exact Hn.
  unfold pieces at 2. cbn [fst snd]. by rewrite last_snoc.
Qed.

Lemma basename_join d n : plain n = true -> PyPath.basename (PyPath.join d n) = n.
Proof.
  intros Hn. unfold PyPath.join. rewrite plain_not_absolute by done.
  destruct (String.eqb_spec d EmptyString) as [->|Hd]; cbn [orb].
  - rewrite str_app_nil_l. unfold PyPath.basename.
    rewrite split_char_pieces, split_on_plain by exact Hn. reflexivity.
  - destruct (PyStr.ends_with_char PyPath.sep d) eqn:He.
    + apply ends_with_char_app in He as [d' ->].
      rewrite str_app_assoc, str_app_cons, str_app_nil_l. by apply basename_app_sep.
    + rewrite str_app_cons, str_app_nil_l. by apply basename_app_sep.
Qed.

Lemma resolve_join d n :
  plain n = true -> PyPath.proper n = true ->
  exists dir, PyPath.resolve (PyPath.join d n) = dir ++ [n].
Proof.
  intros Hn Hp.
  destruct (resolve_basename (PyPath.join d n)) as [dir E];
    [by rewrite basename_join|].
  rewrite basename_join in E by done. by exists dir.
Qed.

Lemma str_length_app (a b : string) :
  String.length (a +:+ b) = (String.length a + String.length b)%nat.
Proof.
  induction a as [|c a IH]; [reflexivity|].
  rewrite str_app_cons. cbn. by rewrite IH.
Qed.

Lemma prefixed_neq (f : string) : "compressed_" +:+ f <> f.
Proof.
  intros E. apply (f_equal String.length) in E.
  rewrite str_length_app in E. cbn in E. lia.
Qed.

Lemma prefixed_plain f : plain f = true -> plain ("compressed_" +:+ f) = true.
Proof. intros H. unfold plain in *. by rewrite all_chars_app, H. Qed.

Lemma prefixed_proper f : PyPath.proper ("compressed_" +:+ f) = true.
Proof. by rewrite !str_app_cons. Qed.

(** The output of a job is another file than its input and than the place
    the input is moved to. *)
Lemma output_apart input_path output_folder :
  let filename := PyPath.basename input_path in
  let output_path := PyPath.join output_folder ("compressed_" +:+ filename) in
  PyPath.proper filename = true ->
  PyPath.resolve output_path <> PyPath.resolve input_path /\
  PyPath.resolve output_path <> PyPath.resolve (PyPath.join "skipped" filename).
Proof.
  intros filename output_path Hp.
  pose proof (basename_plain input_path) as Hpl. fold filename in Hpl.
  destruct (resolve_join output_folder _ (prefixed_plain _ Hpl)
              (prefixed_proper filename)) as [d1 E1].
  destruct (resolve_basename input_path Hp) as [d2 E2].
  destruct (resolve_join "skipped" filename Hpl Hp) as [d3 E3].
  subst output_path. fold filename in E2. rewrite E1, E2, E3.
  split; intros E; apply app_inj_tail in E as [_ E];
    by apply prefixed_neq in E.
Qed.

End PathFacts.

(* ====================================================================== *)
(** * The world and the monad *)
(* ====================================================================== *)

Section MonadFacts.

Lemma add_console_nil w : add_console [] w = w.
Proof. destruct w. unfold add_console. cbn. by rewrite app_nil_r. Qed.

Lemma add_console_app ms1 ms2 w :
  add_console ms2 (add_console ms1 w) = add_console (ms1 ++ ms2) w.
Proof. unfold add_console. cbn. by rewrite app_assoc. Qed.

Lemma console_only_ret {A} (a : A) : console_only (ret a).
Proof.
  exists (Some (inr a, [])). intros w. cbn. by rewrite add_console_nil.
Qed.

Lemma console_only_raise {A} e : console_only (@raise A e).
Proof.
  exists (Some (inl e, [])). intros w. cbn. by rewrite add_console_nil.
Qed.

Lemma console_only_lift {A} (r : exn + A) : console_only (lift r).
Proof.
  destruct r; [apply console_only_raise | apply console_only_ret].
Qed.

Lemma console_only_item {A} i (l : list A) : console_only (item i l).
Proof.
  unfold item. destruct (l !! i);
    [apply console_only_ret | apply console_only_raise].
Qed.

Lemma console_only_write ms : console_only (tqdm_write ms).
Proof. by exists (Some (inr tt, ms)). Qed.

Lemma console_only_bind {A B} (m : M A) (k : A -> M B) :
  console_only m -> (forall a, console_only (k a)) -> console_only (bind m k).
Proof.
  intros [o Ho] Hk. destruct o as [[[e|a] ms]|].
  - exists (Some (inl e, ms)). intros w. unfold bind. by rewrite Ho.
  - destruct (Hk a) as [[[[e|b] ms']|] Ho'].
    + exists (Some (inl e, ms ++ ms')). intros w. unfold bind.
      rewrite Ho. cbn. rewrite Ho'. cbn. by rewrite add_console_app.
    + exists (Some (inr b, ms ++ ms')). intros w. unfold bind.
      rewrite Ho. cbn. rewrite Ho'. cbn. by rewrite add_console_app.
    + exists None. intros w. unfold bind. rewrite Ho. cbn. by rewrite Ho'.
  - exists None. intros w. unfold bind. by rewrite Ho.
Qed.

Lemma console_only_time_seconds t : console_only (time_seconds t).
Proof.
  unfold time_seconds. destruct (parse_time t) as [hms msgs].
  apply console_only_bind.
  - destruct msgs; [apply console_only_ret | apply console_only_write].
  - intros _. apply console_only_lift.
Qed.

Lemma console_only_scan fuel lines : console_only (scan_duration fuel lines).
Proof.
  revert lines. induction fuel as [|fuel IH]; intros lines.
  - by exists None.
  - cbn [scan_duration].
    destruct (readline lines) as [e|[line rest]]; [apply console_only_raise|].
    destruct (PyStr.contains "Duration:" line); [|apply IH].
    apply console_only_bind; [apply console_only_item|]. intros after.
    apply console_only_bind; [apply console_only_item|]. intros before.
    apply console_only_bind; [apply console_only_time_seconds|]. intros d.
    apply console_only_ret.
Qed.

Lemma console_only_drain lines n : console_only (drain_progress lines n).
Proof.
  revert n. induction lines as [|l rest IH]; intros n.
  - apply console_only_ret.
  - cbn [drain_progress].
    destruct (PyStr.utf8_valid l); [|apply console_only_raise].
    destruct (PyStr.contains "time=" _); [|apply IH].
    apply console_only_bind; [apply console_only_item|]. intros after.
    apply console_only_bind; [apply console_only_item|]. intros t.
    apply console_only_bind; [apply console_only_time_seconds|]. intros d.
    apply IH.
Qed.

Lemma console_only_read_stream fuel lines :
  console_only (read_stream fuel lines).
Proof.
  unfold read_stream. apply console_only_bind; [apply console_only_scan|].
  intros [d rest]. apply console_only_drain.
Qed.

(** A stream that reads well reads well in every world. *)
Lemma stream_ok_run fuel lines :
  stream_ok fuel lines = true ->
  exists n ms, forall w, read_stream fuel lines w = Ret n (add_console ms w).
Proof.
  unfold stream_ok. destruct (console_only_read_stream fuel lines) as [o Ho].
  rewrite Ho. destruct o as [[[e|n] ms]|]; cbn; try done.
  intros _. exists n, ms. intros w. by rewrite Ho.
Qed.

(** ** File operations on known files *)

Lemma path_exists_Some p w n :
  files w !! PyPath.resolve p = Some n -> path_exists p w = Ret true w.
Proof. intros H. unfold path_exists. by rewrite H. Qed.

Lemma path_exists_None p w :
  files w !! PyPath.resolve p = None -> path_exists p w = Ret false w.
Proof. intros H. unfold path_exists. by rewrite H. Qed.

Lemma getsize_Some p w n :
  files w !! PyPath.resolve p = Some n -> getsize p w = Ret n w.
Proof. intros H. unfold getsize. by rewrite H. Qed.

Lemma getsize_None p w :
  files w !! PyPath.resolve p = None ->
  getsize p w = Raise FileNotFoundError w.
Proof. intros H. unfold getsize. by rewrite H. Qed.

Lemma os_remove_ok p w n :
  files w !! PyPath.resolve p = Some n ->
  PyPath.resolve p ∉ locked w ->
  os_remove p w = Ret tt (set_files (delete (PyPath.resolve p)) w).
Proof.
  intros H Hl. unfold os_remove. rewrite H. by rewrite bool_decide_eq_false_2.
Qed.

Lemma os_remove_locked p w n :
  files w !! PyPath.resolve p = Some n ->
  PyPath.resolve p ∈ locked w ->
  os_remove p w = Raise PermissionError w.
Proof.
  intros H Hl. unfold os_remove. rewrite H. by rewrite bool_decide_eq_true_2.
Qed.

Lemma os_rename_ok src dst w n :
  files w !! PyPath.resolve src = Some n ->
  PyPath.resolve src ∉ locked w -> PyPath.resolve dst ∉ locked w ->
  os_rename src dst w =
    Ret tt (set_files (fun m => <[PyPath.resolve dst := n]>
                                  (delete (PyPath.resolve src) m)) w).
Proof.
  intros H Hs Hd. unfold os_rename. rewrite H.
  by rewrite !bool_decide_eq_false_2.
Qed.

Lemma os_rename_locked src dst w n :
  files w !! PyPath.resolve src = Some n ->
  PyPath.resolve src ∈ locked w \/ PyPath.resolve dst ∈ locked w ->
  os_rename src dst w = Raise PermissionError w.
Proof.
  intros H Hl. unfold os_rename. rewrite H.
  destruct Hl as [Hl|Hl].
  - by rewrite (bool_decide_eq_true_2 _ Hl).
  - rewrite (bool_decide_eq_true_2 _ Hl). by rewrite orb_true_r.
Qed.

End MonadFacts.

(** ** The first loop without a marker *)

Section Starve.

Lemma scan_duration_starves lines :
  no_duration lines = true ->
  forall fuel w, scan_duration fuel lines w = OutOfFuel.
Proof.
  intros Hn fuel. revert lines Hn.
  induction fuel as [|fuel IH]; intros lines Hn w; [reflexivity|].
  cbn [scan_duration]. destruct lines as [|l rest].
  - cbn [readline].
    change (PyStr.contains "Duration:" EmptyString) with false.
    by apply IH.
  - cbn [readline]. cbn [no_duration forallb] in Hn.
    apply andb_true_iff in Hn as [[Hv Hl]%andb_true_iff Hr].
    apply negb_true_iff in Hl. rewrite Hv, Hl. by apply IH.
Qed.

End Starve.

(* ====================================================================== *)
(** * [compress_video] *)
(* ====================================================================== *)

Section CompressFacts.

Variable ffmpeg : ffmpeg_oracle.

Lemma megabytes_le (a b : N) :
  Qle_bool (megabytes a) (megabytes b) = (a <=? b)%N.
Proof.
  unfold Qle_bool, megabytes. cbn [Qnum Qden].
  destruct (N.leb_spec a b); [apply Z.leb_le | apply Z.leb_gt]; lia.
Qed.

(** [megabytes] divides by 1024 squared. *)
Lemma megabytes_quotient (n : N) :
  (megabytes n == inject_Z (Z.of_N n) / inject_Z (1024 ^ 2))%Q.
Proof. unfold megabytes. apply Qmake_Qdiv. Qed.

Lemma popen_ok cmd output_path w p :
  ffmpeg cmd (files w) = inr p ->
  popen ffmpeg cmd output_path w =
    Ret p (add_launched cmd
             (set_files (fun m =>
                match written p with
                | Some n => <[PyPath.resolve output_path := n]> m
                | None => m
                end) w)).
Proof. intros H. unfold popen. by rewrite H. Qed.

(** The body of the job once the stream was read well: the exit status
    and the sizes decide. *)
Lemma compress_encode_read fuel input_path filename output_path gpu_type crf
    original_size w cfg p :
  GPU_CONFIG !! gpu_type = Some cfg ->
  ffmpeg (build_cmd input_path output_path gpu_type cfg crf) (files w) = inr p ->
  stream_ok fuel (stderr p) = true ->
  exists ms,
    compress_encode ffmpeg fuel input_path filename output_path gpu_type crf
      original_size w =
    (if negb (returncode p =? 0)
     then raise (RuntimeError (returncode p))
     else
       size <~ getsize output_path ;;
       let compressed_size := megabytes size in
       if Qle_bool original_size compressed_size then
         os_remove output_path >>
         os_rename input_path (PyPath.join "skipped" filename) >>
         ret (original_size, original_size, true)
       else ret (original_size, compressed_size, false))
      (add_console ms
         (add_launched (build_cmd input_path output_path gpu_type cfg crf)
            (set_files (fun m =>
               match written p with
               | Some n => <[PyPath.resolve output_path := n]> m
               | None => m
               end) w))).
Proof.
  intros Hcfg Hp Hs.
  destruct (stream_ok_run _ _ Hs) as (n & ms & Hrun).
  exists ms. unfold compress_encode. rewrite Hcfg.
  unfold bind at 1. unfold ret at 1.
  unfold bind at 1. rewrite (popen_ok _ _ _ _ Hp).
  match goal with |- context [add_launched ?c ?w'] =>
    specialize (Hrun (add_launched c w')) end.
  unfold read_stream, bind in Hrun. unfold bind at 1.
  destruct (scan_duration fuel (stderr p) _) as [[d rest] w1|e w1|]; try done.
  unfold bind at 1. rewrite Hrun. reflexivity.
Qed.

Lemma compress_prologue_fresh input_path filename w orig :
  files w !! PyPath.resolve input_path = Some orig ->
  files w !! PyPath.resolve (PyPath.join "skipped" filename) = None ->
  compress_prologue input_path filename w = Ret (inr (megabytes orig)) w.
Proof.
  intros Hin Hsk. unfold compress_prologue, bind.
  rewrite (path_exists_Some _ _ _ Hin). cbn [negb].
  rewrite (path_exists_None _ _ Hsk).
  by rewrite (getsize_Some _ _ _ Hin).
Qed.

(** C1.  A job whose process was started, whose stream was read to its end,
    whose exit status is 0 and whose output is not smaller than its input:
    the output is removed, the input is moved to [skipped/] under its base
    name, and the answer is the original size twice, in bytes divided by
    1024 squared, with [skipped] set. *)
Theorem compress_video_ineffective
    fuel input_path output_folder gpu_type crf w cfg p orig out :
  let filename := PyPath.basename input_path in
  let output_path := PyPath.join output_folder ("compressed_" +:+ filename) in
  let k_in := PyPath.resolve input_path in
  let k_out := PyPath.resolve output_path in
  let k_skip := PyPath.resolve (PyPath.join "skipped" filename) in
  PyPath.proper filename = true ->
  files w !! k_in = Some orig ->
  files w !! k_skip = None ->
  GPU_CONFIG !! gpu_type = Some cfg ->
  ffmpeg (build_cmd input_path output_path gpu_type cfg crf) (files w) = inr p ->
  stream_ok fuel (stderr p) = true ->
  returncode p = 0 ->
  from_option Some (files w !! k_out) (written p) = Some out ->
  (orig <= out)%N ->
  k_out ∉ locked w -> k_in ∉ locked w -> k_skip ∉ locked w ->
  exists w' size,
    compress_video ffmpeg fuel input_path output_folder gpu_type crf w =
      Ret (size, size, true) w'
    /\ (size == inject_Z (Z.of_N orig) / inject_Z (1024 ^ 2))%Q
    /\ files w' !! k_out = None
    /\ files w' !! k_in = None
    /\ files w' !! k_skip = Some orig
    /\ (forall k, k <> k_out -> k <> k_in -> k <> k_skip ->
        files w' !! k = files w !! k).
Proof.
  intros filename output_path k_in k_out k_skip
    Hp Hin Hsk Hcfg Hrun Hs Hrc Hout Hle Lo Li Ls.
  destruct (output_apart input_path output_folder Hp) as [Hoi Hos].
  fold filename output_path k_in k_out k_skip in Hoi, Hos.
  assert (Hio : k_in <> k_skip) by congruence.
  destruct (compress_encode_read fuel input_path filename output_path gpu_type
              crf (megabytes orig) w cfg p Hcfg Hrun Hs) as [ms Henc].
  unfold compress_video. fold filename output_path.
  unfold bind at 1. unfold try_except at 1. unfold bind at 1.
  rewrite (compress_prologue_fresh _ _ _ _ Hin Hsk).
  unfold ret at 1. unfold try_except. rewrite Henc. clear Henc.
  rewrite Hrc. cbn [Z.eqb negb].
  set (w1 := add_console ms _).
  assert (H1out : files w1 !! k_out = Some out).
  { subst w1. world_simpl. destruct (written p) as [n|]; cbn in Hout.
    - rewrite lookup_insert_eq. congruence.
    - exact Hout. }
  assert (H1in : files w1 !! k_in = Some orig).
  { subst w1. world_simpl. destruct (written p) as [n|]; [|done].
    by rewrite lookup_insert_ne. }
  unfold bind at 1. rewrite (getsize_Some _ _ _ H1out).
  rewrite megabytes_le. apply N.leb_le in Hle. rewrite Hle.
  unfold bind at 1. rewrite (os_remove_ok _ _ _ H1out) by done.
  unfold bind at 1. erewrite os_rename_ok; [| |done|done].
  2:{ world_simpl. fold k_in k_out. rewrite lookup_delete_ne by done.
      exact H1in. }
  eexists _, _. split; [reflexivity|].
  split; [apply megabytes_quotient|]. world_simpl. fold k_in k_out k_skip.
  split; [|split; [|split]].
  - rewrite lookup_insert_ne, lookup_delete_ne by done.
    apply lookup_delete_eq.
  - rewrite lookup_insert_ne by done. apply lookup_delete_eq.
  - apply lookup_insert_eq.
  - intros k Ko Ki Ks.
    rewrite lookup_insert_ne, !lookup_delete_ne by done.
    subst w1. world_simpl. fold k_out.
    destruct (written p); [by rewrite lookup_insert_ne|done].
Qed.

(** ** What each part of the job can answer *)

Lemma compress_cleanup_skipped input_path filename output_path o w r w' :
  compress_cleanup input_path filename output_path o w = Ret r w' ->
  r = (default 0%Q o, 0%Q, true).
Proof.
  unfold compress_cleanup, bind, when, ret, path_exists. intros H.
  repeat case_match; simplify_eq; reflexivity.
Qed.

(** Only a refused removal or renaming leaves the [except] block. *)
Lemma compress_cleanup_raises input_path filename output_path o w e w' :
  compress_cleanup input_path filename output_path o w = Raise e w' ->
  e = PermissionError.
Proof.
  unfold compress_cleanup, bind, when, ret, path_exists, os_remove, os_rename.
  intros H.
  repeat (case_match; simplify_eq; try reflexivity);
    repeat match goal with
    | H : bool_decide _ = true |- _ => apply bool_decide_eq_true_1 in H
    | H : bool_decide _ = false |- _ => apply bool_decide_eq_false_1 in H
    | H : is_Some _ |- _ => destruct H; congruence
    | H : ~ is_Some _ |- _ => exfalso; apply H; eauto
    end.
Qed.

Lemma compress_prologue_ret input_path filename w r w' :
  compress_prologue input_path filename w = Ret r w' ->
  r = inl (0%Q, 0%Q, true) \/ exists n, r = inr (megabytes n).
Proof.
  unfold compress_prologue, bind, ret, raise, path_exists, getsize. intros H.
  repeat case_match; simplify_eq; eauto.
Qed.

Lemma compress_encode_kept fuel input_path filename output_path gpu_type crf
    original_size w o c w' :
  compress_encode ffmpeg fuel input_path filename output_path gpu_type crf
    original_size w = Ret (o, c, false) w' ->
  o = original_size /\ Qle_bool original_size c = false /\
  exists n, c = megabytes n.
Proof.
  unfold compress_encode, bind, ret, raise. intros H.
  repeat case_match; simplify_eq; eauto.
Qed.

Lemma megabytes_nonneg n : (0 <= megabytes n)%Q.
Proof. unfold Qle, megabytes. cbn. lia. Qed.

(** The only answer with [skipped] unset is the last line of the [try]
    block: two measured sizes, the second below the first. *)
Lemma compress_video_kept_inv
    fuel input_path output_folder gpu_type crf w orig_size compr_size w' :
  compress_video ffmpeg fuel input_path output_folder gpu_type crf w =
    Ret (orig_size, compr_size, false) w' ->
  exists n m,
    orig_size = megabytes n /\ compr_size = megabytes m /\
    Qle_bool (megabytes n) (megabytes m) = false.
Proof.
  unfold compress_video. unfold bind at 1. unfold try_except at 1.
  unfold bind at 1. intros H.
  destruct (compress_prologue _ _ w) as [r w1|e w1|] eqn:Hpro.
  - apply compress_prologue_ret in Hpro as [->|[n ->]]; [by simplify_eq/=|].
    cbn in H. unfold try_except in H.
    destruct (compress_encode _ _ _ _ _ _ _ _ w1) as [r w2|e w2|] eqn:Henc.
    + simplify_eq. apply compress_encode_kept in Henc as (-> & Hlt & m & ->).
      by exists n, m.
    + apply compress_cleanup_skipped in H. by simplify_eq.
    + done.
  - unfold bind in H.
    destruct (compress_cleanup _ _ _ None w1) as [r w2|e2 w2|] eqn:Hcl;
      try done.
    apply compress_cleanup_skipped in Hcl. cbn in H. by simplify_eq.
  - done.
Qed.

Lemma megabytes_above n m :
  Qle_bool (megabytes n) (megabytes m) = false ->
  (megabytes m < megabytes n)%Q /\ (0 < megabytes n)%Q.
Proof.
  intros Hlt.
  assert (Hc : (megabytes m < megabytes n)%Q).
  { apply Qnot_le_lt. intros Hle%Qle_bool_iff. congruence. }
  split; [exact Hc|].
  eapply Qle_lt_trans; [apply megabytes_nonneg | exact Hc].
Qed.

Lemma positive_not_zero (q : Q) : (0 < q)%Q -> Qeq_bool q 0 = false.
Proof.
  intros Hq. destruct (Qeq_bool q 0) eqn:E; [|done].
  apply Qeq_bool_iff in E. rewrite E in Hq. by apply Qlt_irrefl in Hq.
Qed.

(** C10.  When [compress_video] answers with [skipped] unset, the compressed
    size is at least 0 and below the original size, so the original size is
    above 0: the test [main] makes before it divides finds no zero, and the
    ratio of [log_to_csv] is the quotient, computed in doubles. *)
Theorem compress_video_kept_positive
    fuel input_path output_folder gpu_type crf w orig_size compr_size w' :
  compress_video ffmpeg fuel input_path output_folder gpu_type crf w =
    Ret (orig_size, compr_size, false) w' ->
  (0 <= compr_size)%Q /\ (compr_size < orig_size)%Q /\ (0 < orig_size)%Q
  /\ Qeq_bool orig_size 0 = false
  /\ compression_ratio orig_size compr_size
     = PyNum.fl (100 - PyNum.fl (PyNum.fl (compr_size / orig_size) * 100)).
Proof.
  intros (n & m & -> & -> & Hlt)%compress_video_kept_inv.
  destruct (megabytes_above n m Hlt) as [Hc Ho].
  split; [apply megabytes_nonneg|].
  split; [exact Hc|]. split; [exact Ho|].
  split; [by apply positive_not_zero|].
  unfold compression_ratio.
  destruct (Qlt_le_dec 0 (megabytes n)) as [|Hle]; [reflexivity|].
  exfalso. by apply (Qlt_not_le _ _ Ho).
Qed.

(** ** The job whose process never names a duration *)

Lemma compress_video_starves
    fuel input_path output_folder gpu_type crf w cfg p orig :
  let filename := PyPath.basename input_path in
  let output_path := PyPath.join output_folder ("compressed_" +:+ filename) in
  files w !! PyPath.resolve input_path = Some orig ->
  files w !! PyPath.resolve (PyPath.join "skipped" filename) = None ->
  GPU_CONFIG !! gpu_type = Some cfg ->
  ffmpeg (build_cmd input_path output_path gpu_type cfg crf) (files w) = inr p ->
  no_duration (stderr p) = true ->
  compress_video ffmpeg fuel input_path output_folder gpu_type crf w
  = OutOfFuel.
Proof.
  intros filename output_path Hin Hsk Hcfg Hrun Hn.
  unfold compress_video. fold filename output_path.
  unfold bind at 1. unfold try_except at 1. unfold bind at 1.
  rewrite (compress_prologue_fresh _ _ _ _ Hin Hsk).
  unfold ret at 1. unfold try_except, compress_encode. rewrite Hcfg.
  unfold bind at 1. unfold ret at 1.
  unfold bind at 1. rewrite (popen_ok _ _ _ _ Hrun).
  unfold bind at 1. by rewrite scan_duration_starves.
Qed.

(** C6, against the claim.  When no line of the stream holds ['Duration:']
    (and each can be decoded, so that no read raises), the first loop uses
    up whatever fuel it is given, and so does the job: at the end of the
    stream [readline] keeps answering the empty string and the loop has no
    other way out. *)
Theorem duration_scan_never_ends
    input_path output_folder gpu_type crf w cfg p orig :
  let filename := PyPath.basename input_path in
  let output_path := PyPath.join output_folder ("compressed_" +:+ filename) in
  files w !! PyPath.resolve input_path = Some orig ->
  files w !! PyPath.resolve (PyPath.join "skipped" filename) = None ->
  GPU_CONFIG !! gpu_type = Some cfg ->
  ffmpeg (build_cmd input_path output_path gpu_type cfg crf) (files w) = inr p ->
  no_duration (stderr p) = true ->
  forall fuel,
    (forall w1, scan_duration fuel (stderr p) w1 = OutOfFuel) /\
    compress_video ffmpeg fuel input_path output_folder gpu_type crf w
    = OutOfFuel.
Proof.
  intros filename output_path Hin Hsk Hcfg Hrun Hn fuel. split.
  - intros w1. by apply scan_duration_starves.
  - by eapply compress_video_starves.
Qed.

(** ** The job whose process ends with another status than 0 *)

(** Once the stream was read, a status other than 0 is answered with the
    clean-up: no output stays, the input is in [skipped/]. *)
Lemma compress_video_encode_failure
    fuel input_path output_folder gpu_type crf w cfg p orig :
  let filename := PyPath.basename input_path in
  let output_path := PyPath.join output_folder ("compressed_" +:+ filename) in
  let k_in := PyPath.resolve input_path in
  let k_out := PyPath.resolve output_path in
  let k_skip := PyPath.resolve (PyPath.join "skipped" filename) in
  PyPath.proper filename = true ->
  files w !! k_in = Some orig ->
  files w !! k_skip = None ->
  GPU_CONFIG !! gpu_type = Some cfg ->
  ffmpeg (build_cmd input_path output_path gpu_type cfg crf) (files w) = inr p ->
  stream_ok fuel (stderr p) = true ->
  returncode p <> 0 ->
  k_out ∉ locked w -> k_in ∉ locked w -> k_skip ∉ locked w ->
  exists w',
    compress_video ffmpeg fuel input_path output_folder gpu_type crf w =
      Ret (megabytes orig, 0%Q, true) w'
    /\ files w' !! k_out = None
    /\ files w' !! k_in = None
    /\ files w' !! k_skip = Some orig.
Proof.
  intros filename output_path k_in k_out k_skip
    Hp Hin Hsk Hcfg Hrun Hs Hrc Lo Li Ls.
  destruct (output_apart input_path output_folder Hp) as [Hoi Hos].
  fold filename output_path k_in k_out k_skip in Hoi, Hos.
  assert (Hio : k_in <> k_skip) by congruence.
  destruct (compress_encode_read fuel input_path filename output_path gpu_type
              crf (megabytes orig) w cfg p Hcfg Hrun Hs) as [ms Henc].
  unfold compress_video. fold filename output_path.
  unfold bind at 1. unfold try_except at 1. unfold bind at 1.
  rewrite (compress_prologue_fresh _ _ _ _ Hin Hsk).
  unfold ret at 1. unfold try_except. rewrite Henc. clear Henc.
  apply Z.eqb_neq in Hrc. rewrite Hrc. cbn [negb]. unfold raise at 1.
  set (w1 := add_console ms _).
  assert (H1in : files w1 !! k_in = Some orig).
  { subst w1. world_simpl. destruct (written p) as [n|]; [|done].
    by rewrite lookup_insert_ne. }
  unfold compress_cleanup. unfold bind at 1.
  destruct (files w1 !! k_out) as [n|] eqn:H1out.
  - rewrite (path_exists_Some _ _ _ H1out). unfold when.
    unfold bind at 1. rewrite (os_remove_ok _ _ _ H1out) by done.
    unfold bind at 1. erewrite path_exists_Some.
    2:{ world_simpl. fold k_in k_out. by rewrite lookup_delete_ne. }
    unfold bind at 1. erewrite os_rename_ok; [| |done|done].
    2:{ world_simpl. fold k_in k_out. by rewrite lookup_delete_ne. }
    eexists. split; [reflexivity|]. world_simpl. fold k_in k_out k_skip.
    split; [|split].
    + rewrite lookup_insert_ne, lookup_delete_ne by done.
      apply lookup_delete_eq.
    + rewrite lookup_insert_ne by done. apply lookup_delete_eq.
    + apply lookup_insert_eq.
  - rewrite (path_exists_None _ _ H1out). unfold when.
    unfold bind at 1. unfold ret at 1.
    unfold bind at 1. rewrite (path_exists_Some _ _ _ H1in).
    unfold bind at 1. rewrite (os_rename_ok _ _ _ _ H1in) by done.
    eexists. split; [reflexivity|]. world_simpl. fold k_in k_out k_skip.
    split; [|split].
    + rewrite lookup_insert_ne, lookup_delete_ne by done. exact H1out.
    + rewrite lookup_insert_ne by done. apply lookup_delete_eq.
    + apply lookup_insert_eq.
Qed.

End CompressFacts.

Lemma compress_video_ineffective_witness :
  exists w' size,
    compress_video Demo.ffmpeg 10 "./b.mp4" "compressed" "cpu" 23
      Demo.three_files = Ret (size, size, true) w'
    /\ (size == inject_Z (Z.of_N (50 * Demo.MiB)) / inject_Z (1024 ^ 2))%Q
    /\ files w' !! ["compressed"; "compressed_b.mp4"] = None
    /\ files w' !! ["b.mp4"] = None
    /\ files w' !! ["skipped"; "b.mp4"] = Some (50 * Demo.MiB)%N
    /\ (forall k, k <> ["compressed"; "compressed_b.mp4"] -> k <> ["b.mp4"] ->
        k <> ["skipped"; "b.mp4"] ->
        files w' !! k = files Demo.three_files !! k).
Proof.
  apply (compress_video_ineffective Demo.ffmpeg 10 "./b.mp4" "compressed"
           "cpu" 23 Demo.three_files
           {| encoder := "libx264"; preset := "fast"; crf_param := "-crf";
              extra_params := None |}
           (Demo.encoded (55 * Demo.MiB)) (50 * Demo.MiB) (55 * Demo.MiB));
    try (vm_compute; reflexivity).
  - vm_compute. discriminate.
  - apply not_elem_of_empty.
  - apply not_elem_of_empty.
  - apply not_elem_of_empty.
Defined.

Lemma compress_video_kept_positive_witness :
  (0 <= megabytes (40 * Demo.MiB))%Q
  /\ (megabytes (40 * Demo.MiB) < megabytes (100 * Demo.MiB))%Q
  /\ (0 < megabytes (100 * Demo.MiB))%Q
  /\ Qeq_bool (megabytes (100 * Demo.MiB)) 0 = false
  /\ compression_ratio (megabytes (100 * Demo.MiB)) (megabytes (40 * Demo.MiB))
     = PyNum.fl
         (100 - PyNum.fl
                  (PyNum.fl
                     (megabytes (40 * Demo.MiB) / megabytes (100 * Demo.MiB))
                   * 100)).
Proof.
  apply (compress_video_kept_positive Demo.ffmpeg 10 "./a.mp4" "compressed"
           "cpu" 23 Demo.three_files _ _
           (Demo.world_after
              (compress_video Demo.ffmpeg 10 "./a.mp4" "compressed" "cpu" 23
                 Demo.three_files) Demo.three_files)).
  vm_compute. reflexivity.
Defined.

Lemma duration_scan_never_ends_witness :
  (forall w1, scan_duration 1000 (stderr Demo.rejected) w1 = OutOfFuel) /\
  compress_video Demo.ffmpeg 1000 "./c.mp4" "compressed" "cpu" 23
    Demo.unreadable = OutOfFuel.
Proof.
  apply (duration_scan_never_ends Demo.ffmpeg "./c.mp4" "compressed" "cpu" 23
           Demo.unreadable
           {| encoder := "libx264"; preset := "fast"; crf_param := "-crf";
              extra_params := None |}
           Demo.rejected (10 * Demo.MiB));
    vm_compute; reflexivity.
Defined.

(* ====================================================================== *)
(** * What a piece of the script leaves as it was *)
(* ====================================================================== *)

Section Keeps.

Variable R : World -> World -> Prop.
Hypothesis R_refl : forall w, R w w.
Hypothesis R_trans : forall w1 w2 w3, R w1 w2 -> R w2 w3 -> R w1 w3.

Lemma keeps_ret {A} (a : A) : keeps R (ret a).
Proof. intros w. apply R_refl. Qed.

Lemma keeps_raise {A} e : keeps R (@raise A e).
Proof. intros w. apply R_refl. Qed.

Lemma keeps_bind {A B} (m : M A) (k : A -> M B) :
  keeps R m -> (forall a, keeps R (k a)) -> keeps R (bind m k).
Proof.
  intros Hm Hk w. unfold bind. specialize (Hm w).
  destruct (m w) as [a w1|e w1|]; [|done|done].
  specialize (Hk a w1). destruct (k a w1); eauto.
Qed.

Lemma keeps_try_except {A} (m : M A) (h : exn -> M A) :
  keeps R m -> (forall e, keeps R (h e)) -> keeps R (try_except m h).
Proof.
  intros Hm Hh w. unfold try_except. specialize (Hm w).
  destruct (m w) as [a w1|e w1|]; [done| |done].
  specialize (Hh e w1). destruct (h e w1); eauto.
Qed.

Lemma keeps_try_finally {A} (m : M A) (f : M unit) :
  keeps R m -> keeps R f -> keeps R (try_finally m f).
Proof.
  intros Hm Hf w. unfold try_finally, bind, ret, raise. specialize (Hm w).
  destruct (m w) as [a w1|e w1|]; [| |done];
    specialize (Hf w1); destruct (f w1); eauto.
Qed.

Lemma keeps_when b (m : M unit) : keeps R m -> keeps R (when b m).
Proof. intros Hm. destruct b; [exact Hm | apply keeps_ret]. Qed.

Lemma keeps_path_exists p : keeps R (path_exists p).
Proof. intros w. apply R_refl. Qed.

Lemma keeps_getsize p : keeps R (getsize p).
Proof. intros w. unfold getsize. destruct (_ !! _); apply R_refl. Qed.

Hypothesis R_console : forall ms w, R w (add_console ms w).

Lemma keeps_console_only {A} (m : M A) : console_only m -> keeps R m.
Proof.
  intros [o Ho] w. rewrite Ho. destruct o as [[[e|a] ms]|]; cbn; auto.
Qed.

Lemma keeps_write ms : keeps R (tqdm_write ms).
Proof. intros w. apply R_console. Qed.

(** The job, when its three file operations keep [R]. *)
Lemma keeps_compress_video (ffmpeg : ffmpeg_oracle) fuel input_path
    output_folder gpu_type crf :
  let filename := PyPath.basename input_path in
  let output_path := PyPath.join output_folder ("compressed_" +:+ filename) in
  keeps R (os_remove output_path) ->
  keeps R (os_rename input_path (PyPath.join "skipped" filename)) ->
  (forall cmd, keeps R (popen ffmpeg cmd output_path)) ->
  keeps R (compress_video ffmpeg fuel input_path output_folder gpu_type crf).
Proof.
  intros filename output_path Hrm Hmv Hpo.
  assert (Hcl : forall o,
            keeps R (compress_cleanup input_path filename output_path o)).
  { intros o. unfold compress_cleanup.
    apply keeps_bind; [apply keeps_path_exists|]. intros b1.
    apply keeps_bind; [by apply keeps_when|]. intros _.
    apply keeps_bind; [apply keeps_path_exists|]. intros b2.
    apply keeps_bind; [by apply keeps_when|]. intros _. apply keeps_ret. }
  unfold compress_video. fold filename output_path.
  apply keeps_bind.
  - apply keeps_try_except.
    + apply keeps_bind; [|intros; apply keeps_ret].
      unfold compress_prologue.
      apply keeps_bind; [apply keeps_path_exists|]. intros b1.
      destruct (negb b1); [apply keeps_raise|].
      apply keeps_bind; [apply keeps_path_exists|]. intros b2.
      destruct b2; [apply keeps_ret|].
      apply keeps_bind; [apply keeps_getsize|]. intros; apply keeps_ret.
    + intros _. apply keeps_bind; [apply Hcl|]. intros; apply keeps_ret.
  - intros [[r|o]|r]; [apply keeps_ret| |apply keeps_ret].
    apply keeps_try_except; [|intros; apply Hcl].
    unfold compress_encode.
    apply keeps_bind.
    { destruct (GPU_CONFIG !! gpu_type); [apply keeps_ret|apply keeps_raise]. }
    intros cfg. apply keeps_bind; [apply Hpo|]. intros p.
    apply keeps_bind; [apply keeps_console_only, console_only_scan|].
    intros [d rest].
    apply keeps_bind; [apply keeps_console_only, console_only_drain|].
    intros _. destruct (negb _); [apply keeps_raise|].
    apply keeps_bind; [apply keeps_getsize|]. intros n.
    destruct (Qle_bool _ _); [|apply keeps_ret].
    apply keeps_bind; [apply Hrm|]. intros _.
    apply keeps_bind; [apply Hmv|]. intros _. apply keeps_ret.
Qed.

End Keeps.

(* ====================================================================== *)
(** * One turn of the loop of [main] *)
(* ====================================================================== *)

Section Turn.

Variable ffmpeg : ffmpeg_oracle.

(** A file whose name is in [skipped/] is passed over: nothing is started,
    nothing is logged and nothing is written; the bar moves twice, once in
    the branch and once in the [finally] block. *)
Lemma process_file_skip fuel gpu_type crf file w n :
  files w !! PyPath.resolve (PyPath.join "skipped" file) = Some n ->
  process_file ffmpeg fuel gpu_type crf file w
  = Ret tt (add_pbar 1 (add_pbar 1 w)).
Proof.
  intros H. unfold process_file, try_finally, try_except, bind.
  by rewrite (path_exists_Some _ _ _ H).
Qed.

(** Any other file is given to [compress_video], and however that ends the
    turn ends well, with one more row in the log. *)
Lemma process_file_run fuel gpu_type crf file w :
  files w !! PyPath.resolve (PyPath.join "skipped" file) = None ->
  process_file ffmpeg fuel gpu_type crf file w
  = after_job file
      (compress_video ffmpeg fuel (PyPath.join input_folder file) "compressed"
         gpu_type crf w).
Proof.
  intros H. unfold process_file, try_finally, try_except, bind.
  rewrite (path_exists_None _ _ H).
  destruct (compress_video _ _ _ _ _ _ w) as [[[o c] sk] w1|e w1|] eqn:E;
    [|reflexivity|reflexivity].
  destruct sk; [reflexivity|].
  apply compress_video_kept_inv in E as (n & m & -> & -> & Hlt).
  destruct (megabytes_above n m Hlt) as [_ Ho].
  cbn. by rewrite (positive_not_zero _ Ho).
Qed.

Lemma process_file_never_raises fuel gpu_type crf file w e w' :
  process_file ffmpeg fuel gpu_type crf file w <> Raise e w'.
Proof.
  destruct (files w !! PyPath.resolve (PyPath.join "skipped" file)) eqn:H.
  - by rewrite (process_file_skip _ _ _ _ _ _ H).
  - rewrite (process_file_run _ _ _ _ _ H).
    destruct (compress_video _ _ _ _ _ _ w) as [[[o c] []] w1|e1 w1|]; done.
Qed.

Lemma main_loop_never_raises fuel gpu_type crf names w e w' :
  main_loop ffmpeg fuel gpu_type crf names w <> Raise e w'.
Proof.
  revert w. induction names as [|file rest IH]; intros w; [done|].
  cbn [main_loop]. unfold bind.
  pose proof (process_file_never_raises fuel gpu_type crf file w) as Hp.
  destruct (process_file _ _ _ _ _ w) as [[] w1|e1 w1|]; [apply IH| |done].
  by destruct (Hp e1 w1).
Qed.

Lemma compress_video_error fuel input_path output_folder gpu_type crf w
    e w1 o :
  job_error ffmpeg fuel input_path output_folder gpu_type crf w
  = Some (e, w1, o) ->
  compress_video ffmpeg fuel input_path output_folder gpu_type crf w
  = compress_cleanup input_path (PyPath.basename input_path)
      (PyPath.join output_folder
         ("compressed_" +:+ PyPath.basename input_path)) o w1.
Proof.
  unfold job_error, compress_video. intros H.
  unfold bind at 1. unfold try_except at 1. unfold bind at 1.
  destruct (compress_prologue _ _ w) as [[r|orig] w2|e2 w2|]; try done.
  - unfold ret at 1. unfold try_except.
    destruct (compress_encode _ _ _ _ _ _ _ _ w2) as [r w3|e3 w3|]; try done.
    by simplify_eq.
  - simplify_eq. unfold bind.
    by destruct (compress_cleanup _ _ _ None w1) as [r w3|e3 w3|].
Qed.

(** What the two handlers do catch.  An error raised in the [try] block of
    [compress_video] is caught by its [except] block, which answers with
    the failed outcome (the original size or 0, then 0, then [skipped])
    unless the clean-up itself is refused, and then only [PermissionError]
    leaves the function.  The loop of [main] catches that too: a turn never
    raises, and when it ends the loop goes on with the files that are
    left. *)
Lemma raised_errors_are_caught fuel gpu_type crf :
  (forall input_path output_folder w e w1 o,
     job_error ffmpeg fuel input_path output_folder gpu_type crf w
     = Some (e, w1, o) ->
     (exists w',
        compress_video ffmpeg fuel input_path output_folder gpu_type crf w
        = Ret (default 0%Q o, 0%Q, true) w')
     \/ (exists w',
        compress_video ffmpeg fuel input_path output_folder gpu_type crf w
        = Raise PermissionError w'))
  /\ (forall file w,
        files w !! PyPath.resolve (PyPath.join "skipped" file) = None ->
        process_file ffmpeg fuel gpu_type crf file w
        = after_job file
            (compress_video ffmpeg fuel (PyPath.join input_folder file)
               "compressed" gpu_type crf w))
  /\ (forall file w e w',
        process_file ffmpeg fuel gpu_type crf file w <> Raise e w')
  /\ (forall names w e w',
        main_loop ffmpeg fuel gpu_type crf names w <> Raise e w')
  /\ (forall file rest w,
        process_file ffmpeg fuel gpu_type crf file w = OutOfFuel
        \/ exists w1,
             process_file ffmpeg fuel gpu_type crf file w = Ret tt w1 /\
             main_loop ffmpeg fuel gpu_type crf (file :: rest) w
             = main_loop ffmpeg fuel gpu_type crf rest w1).
Proof.
  split; [|split; [|split; [|split]]].
  - intros input_path output_folder w e w1 o H.
    rewrite (compress_video_error _ _ _ _ _ _ _ _ _ H).
    destruct (compress_cleanup _ _ _ o w1) as [r w2|e2 w2|] eqn:Hcl.
    + left. apply compress_cleanup_skipped in Hcl as ->. by eexists.
    + right. apply compress_cleanup_raises in Hcl as ->. by eexists.
    + exfalso. revert Hcl.
      unfold compress_cleanup, bind, when, ret, path_exists, os_remove,
        os_rename.
      repeat case_match; done.
  - intros. by apply process_file_run.
  - intros. apply process_file_never_raises.
  - intros. apply main_loop_never_raises.
  - intros file rest w.
    pose proof (process_file_never_raises fuel gpu_type crf file w) as Hp.
    destruct (process_file _ _ _ _ _ w) as [[] w1|e1 w1|] eqn:E.
    + right. exists w1. split; [done|]. cbn [main_loop]. unfold bind.
      by rewrite E.
    + by destruct (Hp e1 w1).
    + by left.
Qed.

End Turn.

(* ====================================================================== *)
(** * The log *)
(* ====================================================================== *)

Section Log.

Lemma same_log_refl w : same_log w w.
Proof. reflexivity. Qed.

Lemma same_log_trans w1 w2 w3 :
  same_log w1 w2 -> same_log w2 w3 -> same_log w1 w3.
Proof. unfold same_log. congruence. Qed.

Lemma same_log_console ms w : same_log w (add_console ms w).
Proof. reflexivity. Qed.

Lemma keeps_log_remove p : keeps same_log (os_remove p).
Proof.
  intros w. unfold os_remove. destruct (_ !! _); [|done].
  by destruct (bool_decide _).
Qed.

Lemma keeps_log_rename src dst : keeps same_log (os_rename src dst).
Proof.
  intros w. unfold os_rename. destruct (_ !! _); [|done].
  by destruct (_ || _).
Qed.

Lemma keeps_log_popen ffmpeg cmd out : keeps same_log (popen ffmpeg cmd out).
Proof. intros w. unfold popen. by destruct (ffmpeg _ _). Qed.

Lemma compress_video_same_log ffmpeg fuel input_path output_folder
    gpu_type crf :
  keeps same_log
    (compress_video ffmpeg fuel input_path output_folder gpu_type crf).
Proof.
  apply keeps_compress_video.
  - apply same_log_refl.
  - apply same_log_trans.
  - apply same_log_console.
  - apply keeps_log_remove.
  - apply keeps_log_rename.
  - intros cmd. apply keeps_log_popen.
Qed.

Lemma data_row_log_row f o c s : data_row (log_row f o c s).
Proof. unfold data_row, log_row. by repeat eexists. Qed.

Lemma header_no_data_row : ~ data_row header.
Proof. intros (f & o & c & q & s & H). discriminate H. Qed.

Lemma log_grows_refl w l : log w = Some l -> log_grows l w.
Proof. intros H. exists []. by rewrite app_nil_r. Qed.

Lemma log_grows_trans l w1 w2 rows :
  log w1 = Some (l ++ rows) -> Forall data_row rows ->
  log_grows (l ++ rows) w2 -> log_grows l w2.
Proof.
  intros H1 Hd (rows' & H2 & Hd'). exists (rows ++ rows').
  split; [by rewrite app_assoc | by apply Forall_app].
Qed.

Lemma process_file_log ffmpeg fuel gpu_type crf file w l w' :
  log w = Some l ->
  process_file ffmpeg fuel gpu_type crf file w = Ret tt w' ->
  log_grows l w'.
Proof.
  intros Hl.
  destruct (files w !! PyPath.resolve (PyPath.join "skipped" file)) eqn:H.
  - rewrite (process_file_skip _ _ _ _ _ _ _ H). intros [= <-].
    by apply log_grows_refl.
  - rewrite (process_file_run _ _ _ _ _ _ H).
    pose proof (compress_video_same_log ffmpeg fuel
                  (PyPath.join input_folder file) "compressed" gpu_type crf w)
      as Hk.
    destruct (compress_video _ _ _ _ _ _ w) as [[[o c] sk] w1|e w1|];
      [| |done]; unfold same_log in Hk.
    + destruct sk; intros [= <-]; eexists [_]; world_simpl;
        rewrite Hk, Hl; (split; [reflexivity|]);
        repeat constructor; apply data_row_log_row.
    + intros [= <-]. eexists [_]. world_simpl. rewrite Hk, Hl.
      split; [reflexivity|]. repeat constructor. apply data_row_log_row.
Qed.

Lemma main_loop_log ffmpeg fuel gpu_type crf names w l w' :
  log w = Some l ->
  main_loop ffmpeg fuel gpu_type crf names w = Ret tt w' ->
  log_grows l w'.
Proof.
  revert w l. induction names as [|file rest IH]; intros w l Hl.
  - intros [= <-]. by apply log_grows_refl.
  - cbn [main_loop]. unfold bind.
    destruct (process_file _ _ _ _ _ w) as [[] w1|e1 w1|] eqn:E; [|done|done].
    intros Hrest.
    destruct (process_file_log _ _ _ _ _ _ _ _ Hl E) as (rows & H1 & Hd).
    eapply log_grows_trans; [exact H1 | exact Hd |].
    by eapply IH.
Qed.

Lemma init_log_file_log w :
  exists w1, init_log_file w = Ret tt w1 /\
             log w1 = Some (default [header] (log w)).
Proof.
  unfold init_log_file. destruct (log w) eqn:E; eexists; split; eauto.
Qed.

Lemma main_log ffmpeg fuel encoders w w' :
  main ffmpeg fuel encoders w = Ret tt w' ->
  log_grows (default [header] (log w)) w'.
Proof.
  unfold main, init_folders. unfold bind at 1. unfold ret at 1.
  unfold bind at 1.
  destruct (init_log_file_log w) as (w1 & -> & Hl).
  destruct (get_gpu_type encoders) as [gpu msgs].
  unfold bind at 1.
  set (pre := match msgs with [] => ret tt | _ => tqdm_write msgs end).
  assert (Hpre : exists w2, pre w1 = Ret tt w2 /\ log w2 = log w1).
  { subst pre. destruct msgs; eexists; split; reflexivity. }
  destruct Hpre as (w2 & -> & Hl2). rewrite <- Hl2 in Hl.
  destruct (List.filter candidate (listdir_cwd w2)) as [|f fs].
  - intros [= <-]. by apply log_grows_refl.
  - unfold bind, tqdm_write.
    destruct (main_loop _ _ _ _ _ _) as [[] w3|e3 w3|] eqn:E; [|done|done].
    intros [= <-].
    assert (Hl' : log (add_console [MsgStart (length (f :: fs)) gpu] w2)
                  = Some (default [header] (log w))) by exact Hl.
    destruct (main_loop_log _ _ _ _ _ _ _ _ Hl' E) as (rows & H3 & Hd).
    by exists rows.
Qed.

Lemma batch_runs_log n w w' l :
  batch_runs n w w' -> log w = Some l -> log_grows l w'.
Proof.
  intros Hruns. revert l.
  induction Hruns as [w|n ffmpeg fuel encoders w w1 w1' w2 Hmain Hsame _ IH];
    intros l Hl.
  - by apply log_grows_refl.
  - apply main_log in Hmain as (rows & H1 & Hd). rewrite Hl in H1. cbn in H1.
    rewrite <- Hsame in H1.
    eapply log_grows_trans; [exact H1 | exact Hd | by apply IH].
Qed.

(** C9.  [init_log_file] writes the header when the log is absent and
    leaves a log that is there alone.  After one batch run or more the log
    is what it was before the first of them (the header alone when it was
    absent), followed by rows of data, none of which is the header. *)
Theorem log_header_written_once :
  (forall w, log w = None ->
     init_log_file w = Ret tt (set_log (fun _ => Some [header]) w))
  /\ (forall w l, log w = Some l -> init_log_file w = Ret tt w)
  /\ (forall n w w',
        batch_runs (S n) w w' ->
        exists rows,
          log w' = Some (default [header] (log w) ++ rows) /\
          Forall data_row rows /\ header ∉ rows).
Proof.
  split; [|split].
  - intros w H. unfold init_log_file. by rewrite H.
  - intros w l H. unfold init_log_file. by rewrite H.
  - intros n w w' Hruns.
    inversion Hruns as [|? ffmpeg fuel encoders ? w1 w1' ? Hmain Hsame Hrest];
      subst.
    apply main_log in Hmain as (rows1 & H1 & Hd1). rewrite <- Hsame in H1.
    destruct (batch_runs_log _ _ _ _ Hrest H1) as (rows2 & H2 & Hd2).
    exists (rows1 ++ rows2). split; [by rewrite app_assoc|].
    assert (Hd : Forall data_row (rows1 ++ rows2)) by by apply Forall_app.
    split; [exact Hd|]. intros Hin.
    rewrite Forall_forall in Hd. by apply header_no_data_row, Hd.
Qed.

End Log.

Lemma log_header_written_once_witness :
  exists rows,
    log Demo.after_two_runs = Some ([header] ++ rows) /\
    Forall data_row rows /\ header ∉ rows.
Proof.
  destruct log_header_written_once as (_ & _ & H).
  apply (H 1%nat Demo.three_files).
  apply (runs_more 1 Demo.ffmpeg 10 Demo.listed Demo.three_files
           Demo.after_one_run Demo.after_one_run);
    [vm_compute; reflexivity | reflexivity |].
  apply (runs_more 0 Demo.ffmpeg 10 Demo.listed Demo.after_one_run
           Demo.after_two_runs Demo.after_two_runs);
    [vm_compute; reflexivity | reflexivity |].
  apply runs_none.
Defined.

(* ====================================================================== *)
(** * The batch on the examples *)
(* ====================================================================== *)

Example refused_cleanup_scene :
  compress_video Demo.ffmpeg 10 "./d.mp4" "compressed" "cpu" 23 Demo.refused
  = Raise PermissionError
      (Demo.world_after
         (compress_video Demo.ffmpeg 10 "./d.mp4" "compressed" "cpu" 23
            Demo.refused) Demo.refused)
  /\ process_file Demo.ffmpeg 10 "cpu" 23 "d.mp4" Demo.refused
     = after_job "d.mp4"
         (compress_video Demo.ffmpeg 10 "./d.mp4" "compressed" "cpu" 23
            Demo.refused)
  /\ exists w1,
       process_file Demo.ffmpeg 10 "cpu" 23 "d.mp4" Demo.refused = Ret tt w1
       /\ log w1 = Some [log_row "d.mp4" 0 0 true]
       /\ files w1 !! ["d.mp4"] = Some (10 * Demo.MiB)%N.
Proof.
  destruct (raised_errors_are_caught Demo.ffmpeg 10 "cpu" 23)
    as (Hjob & Hturn & _ & _ & Hnext).
  split; [|split].
  - vm_compute. reflexivity.
  - apply Hturn. vm_compute. reflexivity.
  - destruct (Hnext "d.mp4" [] Demo.refused) as [H|(w1 & H & _)].
    + vm_compute in H. discriminate H.
    + exists w1. split; [exact H|].
      vm_compute in H. injection H as <-. split; vm_compute; reflexivity.
Qed.

(** C2, against the claim.  ffmpeg gives up on [c.mp4] with status 1 before
    it has named a duration.  Whatever the fuel, the job never comes back,
    nor the turn of the loop, nor the batch: the status is never looked at,
    the input stays where it was, and nothing is written to the log. *)
Theorem encode_failure_never_seen (fuel : nat) :
  Demo.ffmpeg
    (build_cmd "./c.mp4" "compressed/compressed_c.mp4" "cpu"
       {| encoder := "libx264"; preset := "fast"; crf_param := "-crf";
          extra_params := None |} 23)
    (files Demo.unreadable) = inr Demo.rejected
  /\ returncode Demo.rejected <> 0
  /\ compress_video Demo.ffmpeg fuel "./c.mp4" "compressed" "cpu" 23
       Demo.unreadable = OutOfFuel
  /\ process_file Demo.ffmpeg fuel "cpu" 23 "c.mp4" Demo.unreadable = OutOfFuel
  /\ main Demo.ffmpeg fuel Demo.listed Demo.unreadable
     = OutOfFuel.
Proof.
  assert (Hjob : forall w,
            files w = files Demo.unreadable ->
            compress_video Demo.ffmpeg fuel "./c.mp4" "compressed" "cpu" 23 w
            = OutOfFuel).
  { intros w Hw.
    apply (compress_video_starves Demo.ffmpeg fuel "./c.mp4" "compressed"
             "cpu" 23 w
             {| encoder := "libx264"; preset := "fast"; crf_param := "-crf";
                extra_params := None |}
             Demo.rejected (10 * Demo.MiB));
      try rewrite Hw; vm_compute; reflexivity. }
  assert (Hturn : forall w,
            files w = files Demo.unreadable ->
            process_file Demo.ffmpeg fuel "cpu" 23 "c.mp4" w = OutOfFuel).
  { intros w Hw. rewrite process_file_run by (rewrite Hw; vm_compute; reflexivity).
    change (PyPath.join input_folder "c.mp4") with "./c.mp4".
    by rewrite Hjob. }
  split; [vm_compute; reflexivity|].
  split; [vm_compute; discriminate|].
  split; [by apply Hjob|].
  split; [by apply Hturn|].
  unfold main, init_folders. unfold bind at 1. unfold ret at 1.
  unfold bind at 1. cbn [init_log_file Demo.unreadable Demo.world_of log].
  change (get_gpu_type Demo.listed) with ("cpu", @nil message).
  cbv beta iota. unfold bind at 1. unfold ret at 1.
  match goal with |- context [List.filter candidate (listdir_cwd ?w)] =>
    change (List.filter candidate (listdir_cwd w)) with ["c.mp4"] end.
  unfold bind at 1. unfold tqdm_write at 1.
  cbn [main_loop]. unfold bind at 1. unfold bind at 1.
  by rewrite Hturn.
Qed.

(** The end-to-end scene of the specification: 100, 50 and 10 megabytes
    that ffmpeg brings to 40, 55 and 8.  The first and the third file are
    kept compressed, the second is moved to [skipped/], and the log has the
    header and three rows. *)
Example end_to_end_scene :
  main Demo.ffmpeg 10 Demo.listed Demo.three_files
  = Ret tt Demo.after_one_run
  /\ map_to_list (files Demo.after_one_run)
     = [(["e.mp4"], 10 * Demo.MiB);
        (["compressed"; "compressed_e.mp4"], 8 * Demo.MiB);
        (["skipped"; "b.mp4"], 50 * Demo.MiB);
        (["a.mp4"], 100 * Demo.MiB);
        (["compressed"; "compressed_a.mp4"], 40 * Demo.MiB)]%N
  /\ log Demo.after_one_run
     = Some [header;
             log_row "e.mp4" 10 8 false;
             log_row "b.mp4" 50 50 true;
             log_row "a.mp4" 100 40 false].
Proof. split; [|split]; vm_compute; reflexivity. Qed.

(* ====================================================================== *)
(** * The three files of a name *)
(* ====================================================================== *)

Section Keys.

Implicit Types (g h d n : string).

Lemma plain_no_trailing_sep d :
  plain d = true -> PyStr.ends_with_char PyPath.sep d = false.
Proof.
  intros Hd. destruct (PyStr.ends_with_char PyPath.sep d) eqn:E; [|done].
  apply ends_with_char_app in E as [d' ->].
  unfold plain in Hd. rewrite all_chars_app in Hd.
  apply andb_true_iff in Hd as [_ Hd]. vm_compute in Hd. discriminate Hd.
Qed.

Lemma plain_app_not_absolute d s :
  plain d = true -> d <> EmptyString ->
  PyStr.startswith "/" (d +:+ s) = false.
Proof.
  intros Hd Hne. destruct d as [|c d]; [done|]. rewrite str_app_cons.
  unfold plain in Hd. cbn [all_chars] in Hd.
  apply andb_true_iff in Hd as [Hc _]. apply negb_true_iff in Hc.
  unfold PyStr.startswith.
  change (String.prefix "/" (String c (d +:+ s)))
    with (if ascii_dec "/" c then String.prefix EmptyString (d +:+ s)
          else false).
  destruct (ascii_dec "/" c) as [E|]; [|done]. subst c.
  vm_compute in Hc. discriminate Hc.
Qed.

Lemma join_plain d n :
  plain d = true -> d <> EmptyString -> plain n = true ->
  PyPath.join d n = d +:+ String PyPath.sep n.
Proof.
  intros Hd Hne Hn. unfold PyPath.join.
  rewrite plain_not_absolute by done.
  destruct (String.eqb_spec d EmptyString) as [|_]; [done|].
  rewrite plain_no_trailing_sep by done. reflexivity.
Qed.

Lemma resolve_join_plain d n :
  plain d = true -> d <> EmptyString ->
  plain n = true -> PyPath.proper n = true ->
  PyPath.resolve (PyPath.join d n) = List.filter PyPath.proper [d] ++ [n].
Proof.
  intros Hd Hne Hn Hp. rewrite join_plain by done. unfold PyPath.resolve.
  rewrite plain_app_not_absolute by done.
  rewrite split_char_pieces, split_on_sep_app by apply Ascii.eqb_refl.
  rewrite !split_on_plain by done. unfold pieces.
  cbn [fst snd app List.filter]. rewrite Hp. by destruct (PyPath.proper d).
Qed.

Lemma entry_name_inv g :
  entry_name g = true -> plain g = true /\ PyPath.proper g = true.
Proof. unfold entry_name. by intros ?%andb_true_iff. Qed.

(** The paths [main] and [compress_video] build for an entry name. *)
Lemma paths_of_entry g :
  entry_name g = true ->
  PyPath.basename (PyPath.join input_folder g) = g /\
  PyPath.resolve (PyPath.join input_folder g) = key_in g /\
  PyPath.resolve (PyPath.join "skipped" g) = key_skip g /\
  PyPath.resolve (PyPath.join "compressed" ("compressed_" +:+ g)) = key_out g.
Proof.
  intros [Hpl Hpr]%entry_name_inv. repeat split.
  - by apply basename_join.
  - by rewrite resolve_join_plain.
  - by rewrite resolve_join_plain.
  - rewrite resolve_join_plain;
      auto using prefixed_plain, prefixed_proper.
Qed.

Lemma prefixed_inj g h : "compressed_" +:+ g = "compressed_" +:+ h -> g = h.
Proof. rewrite !str_app_cons, !str_app_nil_l. by intros [= ->]. Qed.

Lemma keys_apart g :
  key_in g <> key_out g /\ key_in g <> key_skip g /\ key_out g <> key_skip g.
Proof. repeat split; discriminate. Qed.

Lemma keys_of_others g h :
  g <> h ->
  key_in h <> key_in g /\ key_in h <> key_out g /\ key_in h <> key_skip g /\
  key_out h <> key_in g /\ key_out h <> key_out g /\ key_out h <> key_skip g /\
  key_skip h <> key_in g /\ key_skip h <> key_out g /\
  key_skip h <> key_skip g.
Proof.
  intros Hne. unfold key_in, key_out, key_skip.
  repeat split; try discriminate; intros E.
  - by injection E as ->.
  - apply Hne. apply prefixed_inj. congruence.
  - by injection E as ->.
Qed.

End Keys.

(** ** A turn done twice *)

Section Cells.

Lemma turn_cells_idem L v c c' :
  turn_cells L v c = Some c' -> turn_cells L v c' = Some c'.
Proof.
  destruct c as [[i|] [o|] [s|]], L as [[] [] []], v as [| |[wr|] []];
    cbn; intros H; simplify_eq; cbn; try reflexivity;
    repeat (case_match; simplify_eq; cbn in *; try reflexivity; try congruence).
Qed.

End Cells.

(* ====================================================================== *)
(** * A turn of the loop, on the three files of its name *)
(* ====================================================================== *)

Section TurnFiles.

Variable ffmpeg : ffmpeg_oracle.
Variables (fuel : nat) (gpu_type : string) (crf : Z).
Variable g : string.
Hypothesis g_entry : entry_name g = true.

Let input_path := PyPath.join input_folder g.
Let output_path := PyPath.join "compressed" ("compressed_" +:+ g).

Lemma frame_refl w : frame g w w.
Proof. by split. Qed.

Lemma frame_trans w1 w2 w3 : frame g w1 w2 -> frame g w2 w3 -> frame g w1 w3.
Proof.
  intros [L1 F1] [L2 F2]. split; [congruence|].
  intros k K1 K2 K3. rewrite F2, F1 by done. reflexivity.
Qed.

(** The [except] block. *)
Lemma cleanup_cells_spec (o : option Q) w :
  match compress_cleanup input_path g output_path o w with
  | Ret _ w' | Raise _ w' =>
      cells_of g (files w')
      = cleanup_cells (locks_of g (locked w)) (cells_of g (files w))
      /\ frame g w w'
  | OutOfFuel => False
  end.
Proof.
  destruct (paths_of_entry g g_entry) as (Hb & Rin & Rsk & Rout).
  destruct (keys_apart g) as (Kio & Kis & Kos).
  assert (Koi := not_eq_sym Kio). assert (Ksi := not_eq_sym Kis).
  assert (Kso := not_eq_sym Kos).
  unfold compress_cleanup, bind, when, ret, path_exists, os_remove, os_rename.
  subst input_path output_path.
  rewrite Rin, Rsk, Rout.
  unfold cells_of, locks_of, cleanup_cells, rename_cells, frame.
  destruct (files w !! key_out g) as [n|] eqn:Eo;
  destruct (files w !! key_in g) as [i|] eqn:Ei;
  destruct (files w !! key_skip g) as [s|] eqn:Es;
  destruct (bool_decide (key_out g ∈ locked w)) eqn:Lo;
  destruct (bool_decide (key_in g ∈ locked w)) eqn:Li;
  destruct (bool_decide (key_skip g ∈ locked w)) eqn:Ls;
  crunch; (split; [reflexivity|]); (split; [reflexivity|]);
  intros k K1 K2 K3; crunch; reflexivity.
Qed.

(** The job after the process was started. *)
Lemma compress_encode_launched original_size w cfg p :
  GPU_CONFIG !! gpu_type = Some cfg ->
  ffmpeg (build_cmd input_path output_path gpu_type cfg crf) (files w) = inr p ->
  compress_encode ffmpeg fuel input_path g output_path gpu_type crf
    original_size w
  = (read_stream fuel (stderr p) >>
     if negb (returncode p =? 0) then raise (RuntimeError (returncode p))
     else
       size <~ getsize output_path ;;
       let compressed_size := megabytes size in
       if Qle_bool original_size compressed_size then
         os_remove output_path >>
         os_rename input_path (PyPath.join "skipped" g) >>
         ret (original_size, original_size, true)
       else ret (original_size, compressed_size, false))
      (add_launched (build_cmd input_path output_path gpu_type cfg crf)
         (set_files (fun m =>
            match written p with
            | Some n => <[PyPath.resolve output_path := n]> m
            | None => m
            end) w)).
Proof.
  intros Hcfg Hp. unfold compress_encode. rewrite Hcfg.
  unfold bind at 1. unfold ret at 1.
  unfold bind at 1. rewrite (popen_ok _ _ _ _ _ Hp).
  unfold read_stream, bind.
  destruct (scan_duration fuel (stderr p) _) as [[d rest] w1|e w1|]; done.
Qed.

Lemma turn_cells_no_source L v c :
  c_skip c = None -> c_in c = None ->
  turn_cells L v c = Some (cleanup_cells L c).
Proof. unfold turn_cells. by intros -> ->. Qed.

Lemma turn_cells_not_launched L c i :
  c_skip c = None -> c_in c = Some i ->
  turn_cells L NotLaunched c = Some (cleanup_cells L c).
Proof. unfold turn_cells. by intros -> ->. Qed.

Lemma turn_cells_starved L c i :
  c_skip c = None -> c_in c = Some i -> turn_cells L Starved c = None.
Proof. unfold turn_cells. by intros -> ->. Qed.

Lemma turn_cells_ended L wr good c i :
  c_skip c = None -> c_in c = Some i ->
  turn_cells L (Ended wr good) c
  = let c1 := {| c_in := Some i; c_out := from_option Some (c_out c) wr;
                 c_skip := None |} in
    match c_out c1 with
    | Some n =>
        if good && negb (i <=? n)%N then Some c1
        else Some (cleanup_cells L c1)
    | None => Some (cleanup_cells L c1)
    end.
Proof. unfold turn_cells. by intros -> ->. Qed.

(** What [compress_video] does to the three files of an entry that is not
    in [skipped/] yet. *)
Lemma job_cells_spec w :
  files w !! key_skip g = None ->
  match compress_video ffmpeg fuel input_path "compressed" gpu_type crf w with
  | Ret _ w' | Raise _ w' =>
      turn_cells (locks_of g (locked w))
        (verdict_of ffmpeg fuel gpu_type crf g (files w))
        (cells_of g (files w))
      = Some (cells_of g (files w'))
      /\ frame g w w'
  | OutOfFuel =>
      turn_cells (locks_of g (locked w))
        (verdict_of ffmpeg fuel gpu_type crf g (files w))
        (cells_of g (files w))
      = None
  end.
Proof.
  intros Es.
  destruct (paths_of_entry g g_entry) as (Hb & Rin & Rsk & Rout).
  destruct (keys_apart g) as (Kio & Kis & Kos).
  assert (Koi := not_eq_sym Kio). assert (Ksi := not_eq_sym Kis).
  assert (Kso := not_eq_sym Kos).
  fold input_path in Hb, Rin. fold output_path in Rout.
  unfold compress_video. rewrite Hb. fold output_path.
  unfold bind at 1. unfold try_except at 1. unfold bind at 1.
  remember (verdict_of ffmpeg fuel gpu_type crf g (files w)) as v eqn:Hv.
  destruct (files w !! key_in g) as [i|] eqn:Ei.
  2:{ (* the source is missing *)
    assert (Hpro : compress_prologue input_path g w
                   = Raise FileNotFoundError w).
    { unfold compress_prologue, bind. rewrite path_exists_None; [done|].
      by rewrite Rin. }
    rewrite Hpro. unfold bind at 1.
    pose proof (cleanup_cells_spec None w) as Hcl.
    destruct (compress_cleanup _ _ _ None w) as [r w1|e w1|]; [| |done];
      (destruct Hcl as [Hc Hf]; split; [|exact Hf]);
      rewrite Hc; by apply turn_cells_no_source. }
  rewrite (compress_prologue_fresh input_path g w i)
    by (by rewrite ?Rin, ?Rsk).
  unfold ret at 1. unfold try_except.
  (* the [except] block, after an error in a world framed from [w] *)
  assert (Hexcept : forall o w1 c1,
    frame g w w1 -> cells_of g (files w1) = c1 ->
    turn_cells (locks_of g (locked w)) v (cells_of g (files w))
    = Some (cleanup_cells (locks_of g (locked w)) c1) ->
    match compress_cleanup input_path g output_path o w1 with
    | Ret _ w' | Raise _ w' =>
        turn_cells (locks_of g (locked w)) v (cells_of g (files w))
        = Some (cells_of g (files w')) /\ frame g w w'
    | OutOfFuel =>
        turn_cells (locks_of g (locked w)) v (cells_of g (files w)) = None
    end).
  { intros o w1 c1 Hf1 Hc1 Ht.
    pose proof (cleanup_cells_spec o w1) as Hcl.
    destruct (compress_cleanup _ _ _ o w1) as [r w2|e w2|]; [| |done];
      destruct Hcl as [Hc Hf]; (split; [|by eapply frame_trans]);
      rewrite Ht, Hc, Hc1; by destruct Hf1 as [-> _]. }
  destruct (GPU_CONFIG !! gpu_type) as [cfg|] eqn:Hcfg.
  2:{ unfold compress_encode. rewrite Hcfg. unfold bind at 1.
      unfold raise at 1.
      apply (Hexcept _ w _ (frame_refl w) eq_refl).
      unfold verdict_of in Hv. rewrite Hcfg in Hv. subst v.
      by apply (turn_cells_not_launched _ _ i). }
  destruct (ffmpeg (build_cmd input_path output_path gpu_type cfg crf)
              (files w)) as [e|p] eqn:Hp.
  { unfold compress_encode. rewrite Hcfg. unfold bind at 1. unfold ret at 1.
    unfold bind at 1. unfold popen. rewrite Hp.
    apply (Hexcept _ w _ (frame_refl w) eq_refl).
    unfold verdict_of in Hv. rewrite Hcfg in Hv.
    fold input_path output_path in Hv. rewrite Hp in Hv. subst v.
    by apply (turn_cells_not_launched _ _ i). }
  rewrite (compress_encode_launched _ _ _ _ Hcfg Hp).
  unfold verdict_of in Hv. rewrite Hcfg in Hv.
  fold input_path output_path in Hv. rewrite Hp in Hv.
  destruct (console_only_read_stream fuel (stderr p)) as [o1 Ho1].
  unfold bind at 1. rewrite Ho1 in Hv |- *. rewrite Rout.
  set (w1 := add_launched _ _).
  assert (Hf1 : forall ms, frame g w (add_console ms w1)).
  { intros ms. split; [reflexivity|]. intros k K1 K2 K3. subst w1.
    world_simpl. destruct (written p); [by rewrite lookup_insert_ne|done]. }
  assert (Hc1 : forall ms,
            cells_of g (files (add_console ms w1))
            = {| c_in := Some i;
                 c_out := from_option Some (files w !! key_out g) (written p);
                 c_skip := None |}).
  { intros ms. subst w1. unfold cells_of. world_simpl.
    destruct (written p); crunch; reflexivity. }
  destruct o1 as [[[e|q] ms]|].
  - (* a loop raised *)
    unfold play in Hv |- *. subst v.
    apply (Hexcept _ _ _ (Hf1 ms) (Hc1 ms)).
    rewrite (turn_cells_ended _ _ _ _ i) by done. cbn [c_in c_out c_skip cells_of].
    by destruct (from_option Some (files w !! key_out g) (written p)).
  - (* the stream was read *)
    unfold play in Hv |- *. subst v.
    destruct (returncode p =? 0) eqn:Hrc; cbn [negb].
    2:{ unfold raise at 1.
        apply (Hexcept _ _ _ (Hf1 ms) (Hc1 ms)).
        rewrite (turn_cells_ended _ _ _ _ i) by done.
        cbn [c_in c_out c_skip cells_of].
        by destruct (from_option Some (files w !! key_out g) (written p)). }
    unfold bind at 1. unfold getsize. rewrite Rout.
    specialize (Hf1 ms). specialize (Hc1 ms).
    set (w2 := add_console ms w1) in *.
    assert (Ho2 : files w2 !! key_out g
                  = from_option Some (files w !! key_out g) (written p)).
    { by apply (f_equal c_out) in Hc1. }
    assert (Hi2 : files w2 !! key_in g = Some i).
    { by apply (f_equal c_in) in Hc1. }
    assert (Hs2 : files w2 !! key_skip g = None).
    { by apply (f_equal c_skip) in Hc1. }
    assert (Hl2 : locked w2 = locked w) by apply Hf1.
    destruct (from_option Some (files w !! key_out g) (written p))
      as [n|] eqn:Hn.
    2:{ (* no output to measure *)
        rewrite Ho2.
        apply (Hexcept _ _ _ Hf1 Hc1).
        rewrite (turn_cells_ended _ _ _ _ i) by done.
        cbn [c_in c_out c_skip cells_of]. by rewrite Hn. }
    rewrite Ho2. rewrite megabytes_le.
    assert (Ht : turn_cells (locks_of g (locked w))
                   (Ended (written p) true) (cells_of g (files w))
                 = if (i <=? n)%N
                   then Some (cleanup_cells (locks_of g (locked w))
                                {| c_in := Some i; c_out := Some n;
                                   c_skip := None |})
                   else Some {| c_in := Some i; c_out := Some n;
                                c_skip := None |}).
    { rewrite (turn_cells_ended _ _ _ _ i) by done.
      cbn [c_in c_out c_skip cells_of]. rewrite Hn.
      by destruct (i <=? n)%N. }
    rewrite Ht. clear Ht.
    destruct (i <=? n)%N eqn:Hle.
    2:{ unfold ret. split; [by rewrite Hc1 | exact Hf1]. }
    (* not smaller: remove, rename, and the [except] block if refused *)
    unfold compress_cleanup.
    unfold bind, ret, raise, os_remove, os_rename, when, path_exists.
    rewrite Rin, Rsk, Rout. rewrite <- Hl2.
    unfold cleanup_cells, rename_cells, locks_of, cells_of, frame.
    destruct Hf1 as [_ Hf1]. clear Hc1. clearbody w2. clear w1.
    destruct (bool_decide (key_out g ∈ locked w2)) eqn:Lo;
    destruct (bool_decide (key_in g ∈ locked w2)) eqn:Li;
    destruct (bool_decide (key_skip g ∈ locked w2)) eqn:Ls;
    crunch; (split; [reflexivity|]); (split; [done|]);
    intros k K1 K2 K3; crunch; (try rewrite Hf1 by done); try reflexivity.
  - (* the first loop starved *)
    unfold play in Hv |- *. subst v.
    by apply (turn_cells_starved _ _ i).
Qed.

End TurnFiles.

(* ====================================================================== *)
(** * The batch run again *)
(* ====================================================================== *)

Section Listing.

Lemma elem_of_listdir n w : n ∈ listdir_cwd w <-> is_Some (files w !! [n]).
Proof.
  unfold listdir_cwd. rewrite list_elem_of_omap. split.
  - intros ([p sz] & Hin & Hn). apply elem_of_map_to_list in Hin.
    destruct p as [|x [|y p]]; simplify_eq. by exists sz.
  - intros [sz H]. exists ([n], sz). split; [|done].
    by apply elem_of_map_to_list.
Qed.

Lemma NoDup_listdir w : NoDup (listdir_cwd w).
Proof.
  unfold listdir_cwd.
  pose proof (NoDup_fst_map_to_list (files w)) as Hnd.
  induction (map_to_list (files w)) as [|[p sz] l IH]; [constructor|].
  cbn in Hnd. apply NoDup_cons in Hnd as [Hp Hnd]. cbn [omap list_omap].
  destruct p as [|x [|y p]]; cbn; try by apply IH.
  apply NoDup_cons. split; [|by apply IH].
  rewrite list_elem_of_omap. intros ([q sz'] & Hin & Hq).
  destruct q as [|x' [|y q]]; simplify_eq.
  apply Hp. apply list_elem_of_fmap. by exists ([x], sz').
Qed.

Lemma elem_of_candidates n w :
  n ∈ List.filter candidate (listdir_cwd w) <->
  candidate n = true /\ is_Some (files w !! [n]).
Proof.
  rewrite list_elem_of_In, List.filter_In, <- list_elem_of_In, elem_of_listdir.
  tauto.
Qed.

Lemma NoDup_candidates w : NoDup (List.filter candidate (listdir_cwd w)).
Proof.
  apply NoDup_ListNoDup, List.NoDup_filter, NoDup_ListNoDup, NoDup_listdir.
Qed.

End Listing.

Section Rerun.

Variable ffmpeg : ffmpeg_oracle.
Hypothesis ffmpeg_steady : steady ffmpeg.
Variables (fuel : nat) (gpu_type : string) (crf : Z).

Lemma verdict_steady g fs fs' :
  verdict_of ffmpeg fuel gpu_type crf g fs
  = verdict_of ffmpeg fuel gpu_type crf g fs'.
Proof.
  unfold verdict_of. destruct (GPU_CONFIG !! gpu_type); [|done].
  by rewrite (ffmpeg_steady _ fs fs').
Qed.

(** One turn, on the three files of its name. *)
Lemma turn_spec g w :
  entry_name g = true ->
  match process_file ffmpeg fuel gpu_type crf g w with
  | Ret _ w' =>
      turn_cells (locks_of g (locked w))
        (verdict_of ffmpeg fuel gpu_type crf g (files w))
        (cells_of g (files w))
      = Some (cells_of g (files w'))
      /\ frame g w w'
  | Raise _ _ => False
  | OutOfFuel =>
      turn_cells (locks_of g (locked w))
        (verdict_of ffmpeg fuel gpu_type crf g (files w))
        (cells_of g (files w))
      = None
  end.
Proof.
  intros Hg. destruct (paths_of_entry g Hg) as (_ & _ & Rsk & _).
  destruct (files w !! key_skip g) as [s|] eqn:Es.
  - rewrite (process_file_skip _ _ _ _ _ _ s) by by rewrite Rsk.
    split; [|by split]. unfold turn_cells, cells_of at 1.
    cbn [c_skip]. by rewrite Es.
  - rewrite process_file_run by by rewrite Rsk.
    pose proof (job_cells_spec ffmpeg fuel gpu_type crf g Hg w Es) as Hjob.
    destruct (compress_video _ _ _ _ _ _ w) as [[[o c] sk] w1|e w1|];
      [|exact Hjob|exact Hjob].
    destruct sk; exact Hjob.
Qed.

Lemma settled_same g w w' :
  files w' = files w -> locked w' = locked w ->
  settled ffmpeg fuel gpu_type crf g w ->
  settled ffmpeg fuel gpu_type crf g w'.
Proof. unfold settled. by intros -> ->. Qed.

(** A turn for another name leaves a settled name settled. *)
Lemma settled_frame g h w w' :
  g <> h -> frame h w w' ->
  settled ffmpeg fuel gpu_type crf g w ->
  settled ffmpeg fuel gpu_type crf g w'.
Proof.
  intros Hne [Hl Hf] Hs. unfold settled in *.
  destruct (keys_of_others h g (not_eq_sym Hne))
    as (K1 & K2 & K3 & K4 & K5 & K6 & K7 & K8 & K9).
  assert (Hc : cells_of g (files w') = cells_of g (files w)).
  { unfold cells_of. by rewrite !Hf. }
  by rewrite Hl, Hc, (verdict_steady g (files w') (files w)).
Qed.

(** After its turn a name is settled. *)
Lemma turn_settles g w w' :
  entry_name g = true ->
  process_file ffmpeg fuel gpu_type crf g w = Ret tt w' ->
  frame g w w' /\ settled ffmpeg fuel gpu_type crf g w'.
Proof.
  intros Hg Hrun. pose proof (turn_spec g w Hg) as Hspec.
  rewrite Hrun in Hspec. destruct Hspec as [Ht Hf]. split; [exact Hf|].
  unfold settled. destruct Hf as [-> _].
  rewrite (verdict_steady g (files w') (files w)).
  by eapply turn_cells_idem.
Qed.

(** The turn of a settled name changes no file. *)
Lemma turn_of_settled g w :
  entry_name g = true ->
  settled ffmpeg fuel gpu_type crf g w ->
  exists w', process_file ffmpeg fuel gpu_type crf g w = Ret tt w' /\
             files w' = files w /\ locked w' = locked w.
Proof.
  intros Hg Hs. pose proof (turn_spec g w Hg) as Hspec. unfold settled in Hs.
  destruct (process_file _ _ _ _ _ w) as [[] w'|e w'|]; [|done|congruence].
  exists w'. split; [done|]. destruct Hspec as [Ht [Hl Hf]].
  split; [|exact Hl]. rewrite Hs in Ht. injection Ht as Hi Ho Hk.
  apply map_eq. intros k.
  destruct (decide (k = key_in g)) as [->|K1]; [done|].
  destruct (decide (k = key_out g)) as [->|K2]; [done|].
  destruct (decide (k = key_skip g)) as [->|K3]; [done|].
  by apply Hf.
Qed.

(** The loop leaves every name of its list settled, and touches only the
    files of these names. *)
Lemma loop_settles names w w' :
  NoDup names -> Forall (fun g => entry_name g = true) names ->
  main_loop ffmpeg fuel gpu_type crf names w = Ret tt w' ->
  locked w' = locked w /\
  (forall k, (forall g, g ∈ names ->
                k <> key_in g /\ k <> key_out g /\ k <> key_skip g) ->
             files w' !! k = files w !! k) /\
  (forall g, g ∈ names -> settled ffmpeg fuel gpu_type crf g w').
Proof.
  intros Hnd Hall. revert w.
  induction names as [|g rest IH]; intros w Hrun.
  - injection Hrun as <-. repeat split. intros g Hg. by apply elem_of_nil in Hg.
  - apply NoDup_cons in Hnd as [Hg Hnd].
    apply Forall_cons in Hall as [Hentry Hall].
    cbn [main_loop] in Hrun. unfold bind in Hrun.
    destruct (process_file _ _ _ _ g w) as [[] w1|e w1|] eqn:Hturn;
      [|done|done].
    destruct (turn_settles g w w1 Hentry Hturn) as [[Hl1 Hf1] Hs1].
    destruct (IH Hnd Hall w1 Hrun) as (Hl & Hf & Hs).
    split; [congruence|]. split.
    + intros k Hk. rewrite Hf.
      * apply Hf1; apply (Hk g); by left.
      * intros h Hh. apply Hk. by right.
    + intros h [->|Hh]%elem_of_cons; [|by apply Hs].
      unfold settled in *.
      assert (Hc : cells_of g (files w') = cells_of g (files w1)).
      { unfold cells_of. rewrite !Hf; [done|..];
          intros x Hx; assert (x <> g) as Hne by (intros ->; done);
          destruct (keys_of_others x g Hne)
            as (K1 & K2 & K3 & K4 & K5 & K6 & K7 & K8 & K9);
          repeat split; congruence. }
      by rewrite Hl, Hc, (verdict_steady g (files w') (files w1)).
Qed.

(** The loop over settled names changes no file. *)
Lemma loop_of_settled names w :
  Forall (fun g => entry_name g = true /\
                   settled ffmpeg fuel gpu_type crf g w) names ->
  exists w', main_loop ffmpeg fuel gpu_type crf names w = Ret tt w' /\
             files w' = files w /\ locked w' = locked w.
Proof.
  revert w. induction names as [|g rest IH]; intros w Hall.
  - by exists w.
  - apply Forall_cons in Hall as [[Hentry Hs] Hall].
    destruct (turn_of_settled g w Hentry Hs) as (w1 & Hturn & Hf1 & Hl1).
    destruct (IH w1) as (w' & Hrun & Hf & Hl).
    { eapply Forall_impl; [exact Hall|]. intros h [? ?]. split; [done|].
      by apply (settled_same h w w1). }
    exists w'. cbn [main_loop]. unfold bind. rewrite Hturn.
    split; [exact Hrun|]. split; congruence.
Qed.

End Rerun.

Section Idempotence.

Variable ffmpeg : ffmpeg_oracle.

(** [main], from the loop on. *)
Lemma main_run fuel encoders w :
  let gpu_type := (get_gpu_type encoders).1 in
  let names := List.filter candidate (listdir_cwd w) in
  exists w0,
    files w0 = files w /\ locked w0 = locked w /\
    main ffmpeg fuel encoders w =
      match names with
      | [] => Ret tt (add_console [MsgNoFiles] w0)
      | _ =>
          match main_loop ffmpeg fuel gpu_type 23 names
                  (add_console [MsgStart (length names) gpu_type] w0) with
          | Ret _ w' => Ret tt (add_console [MsgDone] w')
          | Raise e w' => Raise e w'
          | OutOfFuel => OutOfFuel
          end
      end.
Proof.
  intros gpu_type names. subst gpu_type names. unfold main.
  destruct (get_gpu_type encoders) as [gpu msgs]. cbn [fst].
  unfold init_folders. unfold bind at 1. unfold ret at 1.
  unfold bind at 1. unfold init_log_file. destruct (log w) eqn:Hlog.
  - unfold bind at 1.
    destruct msgs as [|m ms].
    + exists w. split; [done|]. split; [done|]. unfold ret at 1.
      destruct (List.filter candidate (listdir_cwd w)); [done|].
      unfold bind, tqdm_write. by destruct (main_loop _ _ _ _ _ _) as [[]| |].
    + eexists (add_console (m :: ms) w). split; [done|]. split; [done|].
      unfold tqdm_write at 1.
      change (listdir_cwd (add_console (m :: ms) w)) with (listdir_cwd w).
      destruct (List.filter candidate (listdir_cwd w)); [done|].
      unfold bind, tqdm_write. by destruct (main_loop _ _ _ _ _ _) as [[]| |].
  - unfold bind at 1.
    destruct msgs as [|m ms].
    + eexists (set_log (fun _ => Some [header]) w). split; [done|]. split; [done|].
      unfold ret at 1.
      change (listdir_cwd (set_log (fun _ => Some [header]) w))
        with (listdir_cwd w).
      destruct (List.filter candidate (listdir_cwd w)); [done|].
      unfold bind, tqdm_write. by destruct (main_loop _ _ _ _ _ _) as [[]| |].
    + eexists (add_console (m :: ms) (set_log (fun _ => Some [header]) w)).
      split; [done|]. split; [done|]. unfold tqdm_write at 1.
      change (listdir_cwd
                (add_console (m :: ms) (set_log (fun _ => Some [header]) w)))
        with (listdir_cwd w).
      destruct (List.filter candidate (listdir_cwd w)); [done|].
      unfold bind, tqdm_write. by destruct (main_loop _ _ _ _ _ _) as [[]| |].
Qed.

Lemma listdir_same w w' : files w' = files w -> listdir_cwd w' = listdir_cwd w.
Proof. unfold listdir_cwd. by intros ->. Qed.

Lemma compress_video_already fuel input_path output_folder gpu_type crf w m n :
  files w !! PyPath.resolve input_path = Some m ->
  files w !! PyPath.resolve (PyPath.join "skipped" (PyPath.basename input_path))
  = Some n ->
  compress_video ffmpeg fuel input_path output_folder gpu_type crf w
  = Ret (0%Q, 0%Q, true) w.
Proof.
  intros Hin Hsk. unfold compress_video.
  unfold bind at 1. unfold try_except at 1. unfold bind at 1.
  unfold compress_prologue, bind.
  rewrite (path_exists_Some _ _ _ Hin). cbn [negb].
  by rewrite (path_exists_Some _ _ _ Hsk).
Qed.

(** A second run of the batch on what the first one left. *)
Lemma main_twice fuel encoders w w1 :
  steady ffmpeg -> tidy w ->
  main ffmpeg fuel encoders w = Ret tt w1 ->
  exists w2, main ffmpeg fuel encoders w1 = Ret tt w2 /\
             files w2 = files w1 /\ locked w2 = locked w1.
Proof.
  intros Hsteady Htidy Hrun.
  destruct (main_run fuel encoders w) as (w0 & Hf0 & Hl0 & Hmain).
  rewrite Hmain in Hrun. clear Hmain.
  set (gpu := (get_gpu_type encoders).1) in *.
  assert (Hentry : Forall (fun g => entry_name g = true)
                     (List.filter candidate (listdir_cwd w))).
  { apply Forall_forall. intros g [_ [sz Hg]]%elem_of_candidates.
    by apply (Htidy g sz). }
  assert (Hin : forall g, g ∈ List.filter candidate (listdir_cwd w) ->
                          is_Some (files w !! [g])).
  { by intros g [_ Hg]%elem_of_candidates. }
  pose proof (NoDup_candidates w) as Hnd.
  remember (List.filter candidate (listdir_cwd w)) as names eqn:Hnames.
  (* what the first run leaves *)
  assert (Hfirst :
    locked w1 = locked w /\
    (forall k, (forall g, g ∈ names ->
                  k <> key_in g /\ k <> key_out g /\ k <> key_skip g) ->
               files w1 !! k = files w !! k) /\
    (forall g, g ∈ names -> settled ffmpeg fuel gpu 23 g w1)).
  { destruct names as [|g0 rest].
    - injection Hrun as <-. repeat split; [done| |].
      + intros k _. world_simpl. by rewrite Hf0.
      + intros g Hg. by apply elem_of_nil in Hg.
    - destruct (main_loop _ _ _ _ _ _) as [[] wc|e wc|] eqn:Hloop;
        [|done|done].
      injection Hrun as <-.
      destruct (loop_settles ffmpeg Hsteady fuel gpu 23 (g0 :: rest) _ wc
                  Hnd Hentry Hloop) as (Hl & Hf & Hs).
      world_simpl. split; [congruence|]. split.
      + intros k Hk. rewrite Hf by done. by rewrite Hf0.
      + intros g Hg.
        apply (settled_same ffmpeg fuel gpu 23 g wc); [done|done|].
        by apply Hs. }
  destruct Hfirst as (Hl1 & Hf1 & Hs1).
  (* the names of the second run were names of the first *)
  assert (Hsub : forall g, g ∈ List.filter candidate (listdir_cwd w1) ->
                           g ∈ names).
  { intros g [Hc [sz Hg]]%elem_of_candidates.
    destruct (decide (g ∈ names)) as [|Hout]; [done|]. exfalso. apply Hout.
    rewrite Hnames. apply elem_of_candidates. split; [done|]. exists sz.
    rewrite <- Hg. symmetry. apply Hf1.
    intros h Hh. repeat split; try discriminate.
    intros [= ->]. done. }
  destruct (main_run fuel encoders w1) as (w0' & Hf0' & Hl0' & Hmain).
  rewrite Hmain. clear Hmain. fold gpu.
  set (names' := List.filter candidate (listdir_cwd w1)) in *.
  destruct names' as [|g0 rest] eqn:Hnames'.
  - eexists. split; [reflexivity|]. world_simpl. by split.
  - destruct (loop_of_settled ffmpeg fuel gpu 23 (g0 :: rest)
                (add_console [MsgStart (length (g0 :: rest)) gpu] w0'))
      as (w' & Hloop & Hf' & Hl').
    { apply Forall_forall. intros g Hg. apply Hsub in Hg. split.
      - rewrite Forall_forall in Hentry. by apply Hentry.
      - apply (settled_same ffmpeg fuel gpu 23 g w1); [done|done|].
        by apply Hs1. }
    rewrite Hloop. eexists. split; [reflexivity|]. world_simpl.
    split; congruence.
Qed.

End Idempotence.

(* ====================================================================== *)
(** * A failed encoding and the rest of the batch *)
(* ====================================================================== *)

Section Stopped.

Variable ffmpeg : ffmpeg_oracle.

(** C4, against the claim.  The first file of the listing is one that ffmpeg
    gives up on: the process ends with a status other than 0 and its stream,
    all of which can be decoded, never holds ['Duration:'].  Then the first loop of the job never ends.
    Whatever the fuel, the job gives no answer, so the failure is not turned
    into an outcome; the turn of [main] for the file does not end, so no row
    is written for it; and neither the loop nor the batch comes to the next
    file. *)
Theorem failed_encode_stops_batch encoders w g rest cfg p :
  let gpu_type := (get_gpu_type encoders).1 in
  List.filter candidate (listdir_cwd w) = g :: rest ->
  tidy w ->
  files w !! key_skip g = None ->
  GPU_CONFIG !! gpu_type = Some cfg ->
  ffmpeg (build_cmd ("./" +:+ g) ("compressed/compressed_" +:+ g)
            gpu_type cfg 23) (files w) = inr p ->
  returncode p <> 0 ->
  no_duration (stderr p) = true ->
  forall fuel,
    compress_video ffmpeg fuel ("./" +:+ g) "compressed" gpu_type 23 w
    = OutOfFuel
    /\ process_file ffmpeg fuel gpu_type 23 g w = OutOfFuel
    /\ main_loop ffmpeg fuel gpu_type 23 (g :: rest) w = OutOfFuel
    /\ main ffmpeg fuel encoders w = OutOfFuel.
Proof.
  intros gpu_type Hnames Htidy Hsk Hcfg Hrun Hrc Hn fuel.
  assert (Hg : g ∈ List.filter candidate (listdir_cwd w))
    by (rewrite Hnames; by left).
  apply elem_of_candidates in Hg as [_ [sz Hin]].
  assert (He : entry_name g = true) by by apply (Htidy g sz).
  destruct (paths_of_entry g He) as (Hb & Hki & Hks & Hko).
  assert (Hi : PyPath.join input_folder g = "./" +:+ g).
  { apply entry_name_inv in He as [Hpl _].
    unfold PyPath.join, input_folder, PyStr.startswith.
    destruct g as [|c g']; [reflexivity|].
    cbn [plain all_chars] in Hpl. apply andb_true_iff in Hpl as [Hc _].
    apply negb_true_iff in Hc. unfold PyPath.sep in Hc.
    cbn [String.prefix]. destruct (Ascii.ascii_dec "/" c) as [E|]; [|done].
    apply Ascii.eqb_neq in Hc. done. }
  rewrite Hi in Hb, Hki.
  assert (Hjob : forall w0, files w0 = files w ->
            compress_video ffmpeg fuel ("./" +:+ g) "compressed" gpu_type 23 w0
            = OutOfFuel).
  { intros w0 Hw0.
    apply (compress_video_starves ffmpeg fuel ("./" +:+ g) "compressed"
             gpu_type 23 w0 cfg p sz).
    - by rewrite Hki, Hw0.
    - by rewrite Hb, Hks, Hw0.
    - exact Hcfg.
    - rewrite Hb, Hw0. exact Hrun.
    - exact Hn. }
  assert (Hturn : forall w0, files w0 = files w ->
            process_file ffmpeg fuel gpu_type 23 g w0 = OutOfFuel).
  { intros w0 Hw0. rewrite process_file_run by by rewrite Hks, Hw0.
    rewrite Hi. by rewrite Hjob. }
  assert (Hloop : forall w0, files w0 = files w ->
            main_loop ffmpeg fuel gpu_type 23 (g :: rest) w0 = OutOfFuel).
  { intros w0 Hw0. cbn [main_loop]. unfold bind. by rewrite Hturn. }
  split; [by apply Hjob|]. split; [by apply Hturn|].
  split; [by apply Hloop|].
  destruct (main_run ffmpeg fuel encoders w) as (w0 & Hf0 & _ & ->).
  rewrite Hnames. fold gpu_type. by rewrite Hloop.
Qed.

End Stopped.

Lemma demo_steady : steady Demo.ffmpeg.
Proof. intros cmd fs fs'. reflexivity. Qed.

Lemma demo_tidy : tidy Demo.three_files.
Proof.
  intros n sz H.
  assert (Hin : n ∈ listdir_cwd Demo.three_files)
    by (apply elem_of_listdir; eauto).
  vm_compute in Hin.
  repeat (apply elem_of_cons in Hin as [->|Hin]; [vm_compute; reflexivity|]).
  by apply elem_of_nil in Hin.
Qed.


Lemma demo_stalled_tidy : tidy Demo.stalled.
Proof.
  intros n sz H.
  assert (Hin : n ∈ listdir_cwd Demo.stalled)
    by (apply elem_of_listdir; eauto).
  vm_compute in Hin.
  repeat (apply elem_of_cons in Hin as [->|Hin]; [vm_compute; reflexivity|]).
  by apply elem_of_nil in Hin.
Qed.

Lemma failed_encode_stops_batch_witness :
  compress_video Demo.ffmpeg 1000 ("./" +:+ "c.mp4") "compressed"
    (get_gpu_type Demo.listed).1 23 Demo.stalled = OutOfFuel
  /\ process_file Demo.ffmpeg 1000 (get_gpu_type Demo.listed).1 23 "c.mp4"
       Demo.stalled = OutOfFuel
  /\ main_loop Demo.ffmpeg 1000 (get_gpu_type Demo.listed).1 23
       ("c.mp4" :: ["a.mp4"]) Demo.stalled = OutOfFuel
  /\ main Demo.ffmpeg 1000 Demo.listed Demo.stalled = OutOfFuel.
Proof.
  refine (failed_encode_stops_batch Demo.ffmpeg Demo.listed Demo.stalled
            "c.mp4" ["a.mp4"]
            {| encoder := "libx264"; preset := "fast"; crf_param := "-crf";
               extra_params := None |}
            Demo.rejected _ _ _ _ _ _ _ 1000).
  - vm_compute. reflexivity.
  - exact demo_stalled_tidy.
  - vm_compute. reflexivity.
  - vm_compute. reflexivity.
  - vm_compute. reflexivity.
  - vm_compute. discriminate.
  - vm_compute. reflexivity.
Defined.

(* ====================================================================== *)
(** * Pieces of the script that end *)
(* ====================================================================== *)

Section Ends.

Lemma ends_ret {A} (a : A) : ends (ret a).
Proof. intros w. done. Qed.

Lemma ends_raise {A} e : ends (@raise A e).
Proof. intros w. done. Qed.

Lemma ends_bind {A B} (m : M A) (k : A -> M B) :
  ends m -> (forall a, ends (k a)) -> ends (bind m k).
Proof.
  intros Hm Hk w. unfold bind. specialize (Hm w).
  destruct (m w) as [a w1|e w1|]; [apply Hk|done|done].
Qed.

Lemma ends_try_except {A} (m : M A) (h : exn -> M A) :
  ends m -> (forall e, ends (h e)) -> ends (try_except m h).
Proof.
  intros Hm Hh w. unfold try_except. specialize (Hm w).
  destruct (m w) as [a w1|e w1|]; [done|apply Hh|done].
Qed.

Lemma ends_when b (m : M unit) : ends m -> ends (when b m).
Proof. intros Hm. destruct b; [exact Hm | apply ends_ret]. Qed.

Lemma ends_lift {A} (r : exn + A) : ends (lift r).
Proof. destruct r; [apply ends_raise | apply ends_ret]. Qed.

Lemma ends_item {A} i (l : list A) : ends (item i l).
Proof. unfold item. destruct (l !! i); [apply ends_ret | apply ends_raise]. Qed.

Lemma ends_write ms : ends (tqdm_write ms).
Proof. intros w. done. Qed.

Lemma ends_path_exists p : ends (path_exists p).
Proof. intros w. done. Qed.

Lemma ends_getsize p : ends (getsize p).
Proof. intros w. unfold getsize. by destruct (_ !! _). Qed.

Lemma ends_os_remove p : ends (os_remove p).
Proof.
  intros w. unfold os_remove. destruct (_ !! _); [|done].
  by destruct (bool_decide _).
Qed.

Lemma ends_os_rename src dst : ends (os_rename src dst).
Proof.
  intros w. unfold os_rename. destruct (_ !! _); [|done].
  by destruct (_ || _).
Qed.

Lemma ends_popen ffmpeg cmd out : ends (popen ffmpeg cmd out).
Proof. intros w. unfold popen. by destruct (ffmpeg _ _). Qed.

Lemma ends_time_seconds t : ends (time_seconds t).
Proof.
  unfold time_seconds. destruct (parse_time t) as [hms msgs].
  apply ends_bind.
  - destruct msgs; [apply ends_ret | apply ends_write].
  - intros _. apply ends_lift.
Qed.

(** The second loop stops at the end of the stream. *)
Lemma ends_drain lines n : ends (drain_progress lines n).
Proof.
  revert n. induction lines as [|l rest IH]; intros n.
  - apply ends_ret.
  - cbn [drain_progress]. destruct (PyStr.utf8_valid l); [|apply ends_raise].
    destruct (PyStr.contains "time=" _); [|apply IH].
    apply ends_bind; [apply ends_item|]. intros after.
    apply ends_bind; [apply ends_item|]. intros t.
    apply ends_bind; [apply ends_time_seconds|]. intros d.
    apply IH.
Qed.

Lemma ends_cleanup input_path filename output_path o :
  ends (compress_cleanup input_path filename output_path o).
Proof.
  unfold compress_cleanup.
  apply ends_bind; [apply ends_path_exists|]. intros b1.
  apply ends_bind; [apply ends_when, ends_os_remove|]. intros _.
  apply ends_bind; [apply ends_path_exists|]. intros b2.
  apply ends_bind; [apply ends_when, ends_os_rename|]. intros _.
  apply ends_ret.
Qed.

End Ends.

(* ====================================================================== *)
(** * The first loop *)
(* ====================================================================== *)

Section Scan.

(** The branch of the first loop that found the marker. *)
Lemma ends_marker_branch (line : string) (rest : list string) :
  ends (after <~ item 1 (PyStr.split_str "Duration: " line) ;;
        before <~ item 0 (PyStr.split_char "," after) ;;
        duration <~ time_seconds (PyStr.strip before) ;;
        ret (duration, rest)).
Proof.
  apply ends_bind; [apply ends_item|]. intros after.
  apply ends_bind; [apply ends_item|]. intros before.
  apply ends_bind; [apply ends_time_seconds|]. intros d. apply ends_ret.
Qed.

Lemma scan_duration_fuel_iff fuel lines w :
  scan_duration fuel lines w = OutOfFuel <->
  no_duration (take fuel lines) = true.
Proof.
  revert lines. induction fuel as [|fuel IH]; intros lines.
  - by destruct lines.
  - cbn [scan_duration]. destruct lines as [|l rest].
    + cbn [readline take].
      change (PyStr.contains "Duration:" EmptyString) with false.
      rewrite IH. by destruct fuel.
    + cbn [readline take no_duration forallb].
      destruct (PyStr.utf8_valid l); cbn [andb]; [|done].
      destruct (PyStr.contains "Duration:" (l +:+ newline)) eqn:E; cbn [negb andb].
      * split; [|done]. intros H. by apply ends_marker_branch in H.
      * apply IH.
Qed.

End Scan.

(* ====================================================================== *)
(** * The job, case by case *)
(* ====================================================================== *)

Section Job.

Variable ffmpeg : ffmpeg_oracle.
Variables (fuel : nat) (input_path output_folder gpu_type : string) (crf : Z).

Let filename := PyPath.basename input_path.
Let output_path := PyPath.join output_folder ("compressed_" +:+ filename).
Let k_in := PyPath.resolve input_path.
Let k_out := PyPath.resolve output_path.
Let k_skip := PyPath.resolve (PyPath.join "skipped" filename).

(** The world once the process was started. *)
Let started (cfg : config) (p : proc) (w : World) : World :=
  add_launched (build_cmd input_path output_path gpu_type cfg crf)
    (set_files (fun m =>
       match written p with
       | Some n => <[k_out := n]> m
       | None => m
       end) w).

(** The job from the test of the exit status on. *)
Let judge (p : proc) (original_size : Q) : M (Q * Q * bool) :=
  if negb (returncode p =? 0) then raise (RuntimeError (returncode p))
  else
    size <~ getsize output_path ;;
    let compressed_size := megabytes size in
    if Qle_bool original_size compressed_size then
      os_remove output_path >>
      os_rename input_path (PyPath.join "skipped" filename) >>
      ret (original_size, original_size, true)
    else ret (original_size, compressed_size, false).

Lemma compress_video_cases w :
  compress_video ffmpeg fuel input_path output_folder gpu_type crf w =
  match files w !! k_in with
  | None => compress_cleanup input_path filename output_path None w
  | Some n =>
      match files w !! k_skip with
      | Some _ => Ret (0%Q, 0%Q, true) w
      | None =>
          try_except
            (compress_encode ffmpeg fuel input_path filename output_path
               gpu_type crf (megabytes n))
            (fun _ => compress_cleanup input_path filename output_path
                        (Some (megabytes n))) w
      end
  end.
Proof.
  unfold compress_video. fold filename output_path.
  unfold bind at 1. unfold try_except at 1. unfold bind at 1.
  destruct (files w !! k_in) as [n|] eqn:Hin.
  - destruct (files w !! k_skip) as [s|] eqn:Hsk.
    + assert (Hpro : compress_prologue input_path filename w
                     = Ret (inl (0%Q, 0%Q, true)) w).
      { unfold compress_prologue, bind.
        rewrite (path_exists_Some _ _ _ Hin). cbn [negb].
        by rewrite (path_exists_Some _ _ _ Hsk). }
      by rewrite Hpro.
    + by rewrite (compress_prologue_fresh _ _ _ _ Hin Hsk).
  - assert (Hpro : compress_prologue input_path filename w
                   = Raise FileNotFoundError w).
    { unfold compress_prologue, bind. by rewrite (path_exists_None _ _ Hin). }
    rewrite Hpro. unfold bind.
    by destruct (compress_cleanup _ _ _ None w) as [r w1|e w1|].
Qed.

Lemma compress_encode_cases original_size w :
  compress_encode ffmpeg fuel input_path filename output_path gpu_type crf
    original_size w =
  match GPU_CONFIG !! gpu_type with
  | None => Raise KeyError w
  | Some cfg =>
      match ffmpeg (build_cmd input_path output_path gpu_type cfg crf)
              (files w) with
      | inl e => Raise e w
      | inr p =>
          (read_stream fuel (stderr p) >> judge p original_size)
            (started cfg p w)
      end
  end.
Proof.
  unfold compress_encode. destruct (GPU_CONFIG !! gpu_type) as [cfg|]; [|done].
  unfold bind at 1. unfold ret at 1. unfold bind at 1. unfold popen.
  destruct (ffmpeg _ _) as [e|p]; [done|].
  unfold read_stream, bind. fold (started cfg p w).
  destruct (scan_duration fuel (stderr p) _) as [[d rest] w1|e w1|]; done.
Qed.

Lemma ends_judge p original_size : ends (judge p original_size).
Proof.
  unfold judge. destruct (negb _); [apply ends_raise|].
  apply ends_bind; [apply ends_getsize|]. intros n.
  cbn zeta. destruct (Qle_bool _ _); [|apply ends_ret].
  apply ends_bind; [apply ends_os_remove|]. intros _.
  apply ends_bind; [apply ends_os_rename|]. intros _. apply ends_ret.
Qed.

(** The two loops use up the fuel when the first one does. *)
Lemma read_stream_fuel_iff lines w :
  read_stream fuel lines w = OutOfFuel <->
  no_duration (take fuel lines) = true.
Proof.
  rewrite <- (scan_duration_fuel_iff fuel lines w). unfold read_stream, bind.
  destruct (scan_duration fuel lines w) as [[d rest] w1|e w1|]; [|done|done].
  split; [|done]. intros H. by apply ends_drain in H.
Qed.

(** The job uses up the fuel in one case only. *)
Lemma compress_video_fuel_iff w :
  compress_video ffmpeg fuel input_path output_folder gpu_type crf w
  = OutOfFuel <->
  exists n cfg p,
    files w !! k_in = Some n /\ files w !! k_skip = None /\
    GPU_CONFIG !! gpu_type = Some cfg /\
    ffmpeg (build_cmd input_path output_path gpu_type cfg crf) (files w)
    = inr p /\
    no_duration (take fuel (stderr p)) = true.
Proof.
  rewrite compress_video_cases. split.
  - destruct (files w !! k_in) as [n|] eqn:Hin.
    2:{ intros H. by apply ends_cleanup in H. }
    destruct (files w !! k_skip) as [s|] eqn:Hsk; [done|].
    unfold try_except. rewrite compress_encode_cases.
    destruct (GPU_CONFIG !! gpu_type) as [cfg|] eqn:Hcfg.
    2:{ intros H. by apply ends_cleanup in H. }
    destruct (ffmpeg _ _) as [e|p] eqn:Hp.
    { intros H. by apply ends_cleanup in H. }
    unfold bind at 1.
    destruct (read_stream fuel (stderr p) _) as [q w1|e w1|] eqn:Hread.
    + intros H. destruct (judge p (megabytes n) w1) eqn:Hj; [done| |].
      * by apply ends_cleanup in H.
      * by apply ends_judge in Hj.
    + intros H. by apply ends_cleanup in H.
    + intros _. exists n, cfg, p. repeat split; try done.
      by apply read_stream_fuel_iff in Hread.
  - intros (n & cfg & p & Hin & Hsk & Hcfg & Hp & Hn).
    rewrite Hin, Hsk. unfold try_except. rewrite compress_encode_cases.
    rewrite Hcfg, Hp. unfold bind at 1.
    by rewrite (proj2 (read_stream_fuel_iff _ _) Hn).
Qed.


(* ---------------------------------------------------------------------- *)
(** ** The [except] block when nothing is refused *)

Lemma compress_cleanup_clean o w n :
  files w !! k_in = Some n -> k_out <> k_in ->
  k_out ∉ locked w -> k_in ∉ locked w -> k_skip ∉ locked w ->
  exists w',
    compress_cleanup input_path filename output_path o w
    = Ret (default 0%Q o, 0%Q, true) w' /\
    files w' = <[k_skip := n]> (delete k_in (delete k_out (files w))) /\
    locked w' = locked w /\ log w' = log w /\ console w' = console w /\
    launched w' = launched w /\ pbar_total w' = pbar_total w.
Proof.
  intros Hin Hoi Lo Li Ls. unfold compress_cleanup. unfold bind at 1.
  destruct (files w !! k_out) as [m|] eqn:Hout.
  - rewrite (path_exists_Some _ _ _ Hout). unfold when.
    unfold bind at 1. rewrite (os_remove_ok _ _ _ Hout) by done.
    unfold bind at 1. erewrite path_exists_Some.
    2:{ world_simpl. fold k_in k_out. by rewrite lookup_delete_ne. }
    unfold bind at 1. erewrite os_rename_ok; [| |done|done].
    2:{ world_simpl. fold k_in k_out. by rewrite lookup_delete_ne. }
    eexists. split; [reflexivity|]. world_simpl. done.
  - rewrite (path_exists_None _ _ Hout). unfold when.
    unfold bind at 1. unfold ret at 1.
    unfold bind at 1. rewrite (path_exists_Some _ _ _ Hin).
    unfold bind at 1. rewrite (os_rename_ok _ _ _ _ Hin) by done.
    eexists. split; [reflexivity|]. world_simpl.
    split; [|done]. fold k_in k_skip. by rewrite (delete_id _ k_out).
Qed.

Lemma started_in cfg p w n ms :
  k_out <> k_in -> files w !! k_in = Some n ->
  files (add_console ms (started cfg p w)) !! k_in = Some n.
Proof.
  intros Hoi Hin. unfold started. world_simpl.
  destruct (written p); [by rewrite lookup_insert_ne|done].
Qed.

(* ---------------------------------------------------------------------- *)
(** ** The source is missing *)

(** X5.  When the source is not there, the job answers (0, 0, True) without
    starting a process, and an output left over under the name is
    removed. *)
Theorem compress_video_missing_source w :
  files w !! k_in = None -> k_out ∉ locked w ->
  exists w',
    compress_video ffmpeg fuel input_path output_folder gpu_type crf w
    = Ret (0%Q, 0%Q, true) w' /\
    files w' = delete k_out (files w) /\
    launched w' = launched w /\ log w' = log w /\ console w' = console w.
Proof.
  intros Hin Lo. rewrite compress_video_cases, Hin.
  unfold compress_cleanup. unfold bind at 1.
  destruct (files w !! k_out) as [m|] eqn:Hout.
  - rewrite (path_exists_Some _ _ _ Hout). unfold when.
    unfold bind at 1. rewrite (os_remove_ok _ _ _ Hout) by done.
    unfold bind at 1. erewrite path_exists_None.
    2:{ world_simpl. fold k_in k_out.
        apply lookup_delete_None. by right. }
    eexists. split; [reflexivity|]. done.
  - rewrite (path_exists_None _ _ Hout). unfold when.
    unfold bind at 1. unfold ret at 1.
    unfold bind at 1. rewrite (path_exists_None _ _ Hin).
    eexists. split; [reflexivity|]. split; [|done].
    by rewrite delete_id.
Qed.

(* ---------------------------------------------------------------------- *)
(** ** The process cannot be started *)

(** X6.  When [gpu_type] has no entry in [GPU_CONFIG] or [Popen] raises, no
    command is launched, the job answers with the original size, 0 and
    [skipped], and the source is moved to [skipped/]. *)
Theorem compress_video_not_started w n :
  PyPath.proper filename = true ->
  files w !! k_in = Some n -> files w !! k_skip = None ->
  (GPU_CONFIG !! gpu_type = None \/
   exists cfg e,
     GPU_CONFIG !! gpu_type = Some cfg /\
     ffmpeg (build_cmd input_path output_path gpu_type cfg crf) (files w)
     = inl e) ->
  k_out ∉ locked w -> k_in ∉ locked w -> k_skip ∉ locked w ->
  exists w',
    compress_video ffmpeg fuel input_path output_folder gpu_type crf w
    = Ret (megabytes n, 0%Q, true) w' /\
    files w' = <[k_skip := n]> (delete k_in (delete k_out (files w))) /\
    launched w' = launched w.
Proof.
  intros Hp Hin Hsk Hno Lo Li Ls.
  destruct (output_apart input_path output_folder Hp) as [Hoi _].
  fold filename output_path k_in k_out in Hoi.
  rewrite compress_video_cases, Hin, Hsk. unfold try_except.
  rewrite compress_encode_cases.
  destruct (compress_cleanup_clean (Some (megabytes n)) w n Hin Hoi Lo Li Ls)
    as (w' & Hcl & Hf & _ & _ & _ & Hla & _).
  destruct Hno as [Hcfg|(cfg & e & Hcfg & He)].
  - rewrite Hcfg. exists w'. by rewrite Hcl.
  - rewrite Hcfg, He. exists w'. by rewrite Hcl.
Qed.

(* ---------------------------------------------------------------------- *)
(** ** Reading the stream raises *)

Lemma stream_error_run lines e :
  stream_error fuel lines = Some e ->
  exists ms, forall w, read_stream fuel lines w = Raise e (add_console ms w).
Proof.
  unfold stream_error.
  destruct (console_only_read_stream fuel lines) as [o Ho].
  rewrite Ho. destruct o as [[[e'|q] ms]|]; cbn; try done.
  intros [= ->]. exists ms. intros w. by rewrite Ho.
Qed.

(** X7.  When one of the two loops raises while it reads the stream, the
    job fails whatever the process does: the source is moved to [skipped/],
    and the answer is the original size, 0 and [skipped].  The one process
    that was started is not waited for, and nothing is said here of the
    output: what the process writes after the clean-up stays. *)
Theorem compress_video_stream_error w n cfg p e :
  PyPath.proper filename = true ->
  files w !! k_in = Some n -> files w !! k_skip = None ->
  GPU_CONFIG !! gpu_type = Some cfg ->
  ffmpeg (build_cmd input_path output_path gpu_type cfg crf) (files w)
  = inr p ->
  stream_error fuel (stderr p) = Some e ->
  k_out ∉ locked w -> k_in ∉ locked w -> k_skip ∉ locked w ->
  exists w',
    compress_video ffmpeg fuel input_path output_folder gpu_type crf w
    = Ret (megabytes n, 0%Q, true) w' /\
    files w' !! k_in = None /\
    files w' !! k_skip = Some n /\
    launched w' =
      launched w ++ [build_cmd input_path output_path gpu_type cfg crf].
Proof.
  intros Hp Hin Hsk Hcfg Hrun Herr Lo Li Ls.
  destruct (output_apart input_path output_folder Hp) as [Hoi Hos].
  fold filename output_path k_in k_out k_skip in Hoi, Hos.
  assert (Hio : k_in <> k_skip) by congruence.
  destruct (stream_error_run _ _ Herr) as [ms Hread].
  rewrite compress_video_cases, Hin, Hsk. unfold try_except.
  rewrite compress_encode_cases, Hcfg, Hrun.
  unfold bind at 1. rewrite Hread.
  destruct (compress_cleanup_clean (Some (megabytes n))
              (add_console ms (started cfg p w)) n)
    as (w' & Hcl & Hf & _ & _ & _ & Hla & _); try done.
  { by apply started_in. }
  exists w'. split; [exact Hcl|]. rewrite Hf.
  split; [|split].
  - rewrite lookup_insert_ne by done. apply lookup_delete_eq.
  - apply lookup_insert_eq.
  - exact Hla.
Qed.

(* ---------------------------------------------------------------------- *)
(** ** The answer with [skipped] unset *)

Lemma judge_kept p original_size w o c w' :
  judge p original_size w = Ret (o, c, false) w' ->
  w' = w /\ o = original_size /\ returncode p = 0 /\
  exists m, files w !! k_out = Some m /\ c = megabytes m /\
            Qle_bool original_size (megabytes m) = false.
Proof.
  unfold judge. destruct (returncode p =? 0) eqn:Hrc; cbn [negb]; [|done].
  apply Z.eqb_eq in Hrc. unfold bind at 1. unfold getsize. fold k_out.
  destruct (files w !! k_out) as [m|] eqn:Hout; [|done].
  cbn zeta. destruct (Qle_bool original_size (megabytes m)) eqn:Hle.
  - unfold bind, ret. intros H. repeat case_match; simplify_eq.
  - intros [= <- <- <-]. repeat split; try done. by exists m.
Qed.

(** X9.  When the job answers with [skipped] unset, the process was started
    once and ended with status 0, the output is in place with the size
    reported, smaller than the source, and the source is where it was; no
    other file has changed. *)
Theorem compress_video_kept_files w o c w' :
  PyPath.proper filename = true ->
  compress_video ffmpeg fuel input_path output_folder gpu_type crf w
  = Ret (o, c, false) w' ->
  exists n m cfg,
    files w !! k_in = Some n /\ files w !! k_skip = None /\
    o = megabytes n /\ c = megabytes m /\ (m < n)%N /\
    files w' !! k_out = Some m /\ files w' !! k_in = Some n /\
    files w' !! k_skip = None /\
    (forall k, k <> k_out -> files w' !! k = files w !! k) /\
    GPU_CONFIG !! gpu_type = Some cfg /\
    launched w' =
      launched w ++ [build_cmd input_path output_path gpu_type cfg crf].
Proof.
  intros Hp.
  destruct (output_apart input_path output_folder Hp) as [Hoi Hos].
  fold filename output_path k_in k_out k_skip in Hoi, Hos.
  rewrite compress_video_cases.
  destruct (files w !! k_in) as [n|] eqn:Hin.
  2:{ intros H%compress_cleanup_skipped. by simplify_eq. }
  destruct (files w !! k_skip) as [s|] eqn:Hsk; [done|].
  unfold try_except.
  destruct (compress_encode _ _ _ _ _ _ _ _ w) as [r w1|e w1|] eqn:Henc.
  2:{ intros H%compress_cleanup_skipped. by simplify_eq. }
  2:{ done. }
  intros [= -> ->]. rewrite compress_encode_cases in Henc.
  destruct (GPU_CONFIG !! gpu_type) as [cfg|] eqn:Hcfg; [|done].
  destruct (ffmpeg _ _) as [e|p] eqn:Hrun; [done|].
  unfold bind at 1 in Henc.
  destruct (console_only_read_stream fuel (stderr p)) as [o1 Ho1].
  rewrite Ho1 in Henc. destruct o1 as [[[e|q] ms]|]; try done.
  cbn [play] in Henc.
  apply judge_kept in Henc as (-> & -> & Hrc & m & Hout & -> & Hle).
  rewrite megabytes_le in Hle. apply N.leb_gt in Hle.
  exists n, m, cfg. repeat split; try done.
  - by apply started_in.
  - unfold started. world_simpl.
    destruct (written p); [by rewrite lookup_insert_ne|done].
  - intros k Hk. unfold started. world_simpl.
    destruct (written p); [by rewrite lookup_insert_ne|done].
Qed.

(* ---------------------------------------------------------------------- *)
(** ** What the job can touch *)

Let ks : list path := [k_in; k_out; k_skip].

Lemma touches_only_refl w : touches_only ks w w.
Proof.
  repeat split; try done; [exists [] | exists []]; by rewrite app_nil_r.
Qed.

Lemma touches_only_trans w1 w2 w3 :
  touches_only ks w1 w2 -> touches_only ks w2 w3 -> touches_only ks w1 w3.
Proof.
  intros (L1 & G1 & B1 & [ms1 C1] & [cs1 A1] & F1)
         (L2 & G2 & B2 & [ms2 C2] & [cs2 A2] & F2).
  split; [congruence|]. split; [congruence|]. split; [congruence|].
  split; [|split].
  - exists (ms1 ++ ms2). by rewrite C2, C1, app_assoc.
  - exists (cs1 ++ cs2). by rewrite A2, A1, app_assoc.
  - intros k Hk. by rewrite F2, F1.
Qed.

Lemma touches_only_console ms w : touches_only ks w (add_console ms w).
Proof.
  repeat split; try done; [by exists ms | exists []; by rewrite app_nil_r].
Qed.

Lemma ks_apart k : k ∉ ks -> k <> k_in /\ k <> k_out /\ k <> k_skip.
Proof.
  unfold ks. rewrite !not_elem_of_cons. tauto.
Qed.

Lemma touches_only_remove : keeps (touches_only ks) (os_remove output_path).
Proof.
  intros w. unfold os_remove. destruct (_ !! _); [|apply touches_only_refl].
  destruct (bool_decide _); [apply touches_only_refl|].
  repeat split; try done; [exists [] | exists [] |]; try by rewrite app_nil_r.
  intros k (_ & Hk & _)%ks_apart. world_simpl. by rewrite lookup_delete_ne.
Qed.

Lemma touches_only_rename :
  keeps (touches_only ks)
    (os_rename input_path (PyPath.join "skipped" filename)).
Proof.
  intros w. unfold os_rename. destruct (_ !! _); [|apply touches_only_refl].
  destruct (_ || _); [apply touches_only_refl|].
  repeat split; try done; [exists [] | exists [] |]; try by rewrite app_nil_r.
  intros k (Hi & _ & Hs)%ks_apart. world_simpl.
  by rewrite lookup_insert_ne, lookup_delete_ne.
Qed.

Lemma touches_only_popen cmd :
  keeps (touches_only ks) (popen ffmpeg cmd output_path).
Proof.
  intros w. unfold popen. destruct (ffmpeg _ _) as [e|p];
    [apply touches_only_refl|].
  repeat split; try done; [exists []; by rewrite app_nil_r | by exists [cmd] |].
  intros k (_ & Hk & _)%ks_apart. world_simpl.
  destruct (written p); [by rewrite lookup_insert_ne|done].
Qed.

Lemma compress_video_touches :
  keeps (touches_only ks)
    (compress_video ffmpeg fuel input_path output_folder gpu_type crf).
Proof.
  apply keeps_compress_video.
  - apply touches_only_refl.
  - apply touches_only_trans.
  - apply touches_only_console.
  - apply touches_only_remove.
  - apply touches_only_rename.
  - apply touches_only_popen.
Qed.

(** X10.  Whatever the input path and however the job ends, by an answer or
    by an error, it has changed no file but the source, the output and the
    place of the source in [skipped/]; the refusals, the log and the overall
    bar are as they were, and the console and the commands launched have
    only grown. *)
Theorem compress_video_footprint w w' :
  (exists r,
     compress_video ffmpeg fuel input_path output_folder gpu_type crf w
     = Ret r w')
  \/ (exists e,
     compress_video ffmpeg fuel input_path output_folder gpu_type crf w
     = Raise e w') ->
  touches_only [k_in; k_out; k_skip] w w'.
Proof.
  pose proof (compress_video_touches w) as H.
  intros [[r E]|[e E]]; by rewrite E in H.
Qed.

(* ---------------------------------------------------------------------- *)
(** ** One process at most *)

Lemma same_launched_cleanup o :
  keeps same_launched (compress_cleanup input_path filename output_path o).
Proof.
  intros w.
  unfold compress_cleanup, bind, when, ret, path_exists, os_remove, os_rename.
  repeat case_match; simplify_eq; reflexivity.
Qed.

Lemma same_launched_judge p original_size :
  keeps same_launched (judge p original_size).
Proof.
  intros w.
  unfold judge, bind, when, ret, raise, getsize, os_remove, os_rename.
  repeat case_match; simplify_eq; reflexivity.
Qed.

Lemma same_launched_read lines : keeps same_launched (read_stream fuel lines).
Proof.
  intros w. destruct (console_only_read_stream fuel lines) as [o Ho].
  rewrite Ho. by destruct o as [[[e|a] ms]|].
Qed.

Lemma compress_video_launches w :
    match compress_video ffmpeg fuel input_path output_folder gpu_type crf w
    with
    | Ret _ w1 | Raise _ w1 =>
        launched w1 = launched w
        \/ exists n cfg,
             files w !! k_in = Some n /\ files w !! k_skip = None /\
             GPU_CONFIG !! gpu_type = Some cfg /\
             launched w1 =
               launched w
               ++ [build_cmd input_path output_path gpu_type cfg crf]
    | OutOfFuel => True
    end.
Proof.
  { rewrite compress_video_cases.
    destruct (files w !! k_in) as [n|] eqn:Hin.
    2:{ pose proof (same_launched_cleanup None w) as H.
        destruct (compress_cleanup _ _ _ None w); auto. }
    destruct (files w !! k_skip) as [s|] eqn:Hsk; [by left|].
    unfold try_except. rewrite compress_encode_cases.
    destruct (GPU_CONFIG !! gpu_type) as [cfg|] eqn:Hcfg.
    2:{ pose proof (same_launched_cleanup (Some (megabytes n)) w) as H.
        destruct (compress_cleanup _ _ _ _ w); auto. }
    destruct (ffmpeg _ _) as [e|p] eqn:Hrun.
    { pose proof (same_launched_cleanup (Some (megabytes n)) w) as H.
      destruct (compress_cleanup _ _ _ _ w); auto. }
    assert (Hr : forall w1, same_launched (started cfg p w) w1 ->
              launched w1 = launched w
              \/ exists n0 cfg0,
                   Some n = Some n0 /\ None = @None N /\
                   Some cfg = Some cfg0 /\
                   launched w1 =
                     launched w
                     ++ [build_cmd input_path output_path gpu_type cfg0 crf]).
    { intros w1 H1. right. exists n, cfg. by rewrite H1. }
    unfold bind at 1.
    pose proof (same_launched_read (stderr p) (started cfg p w)) as H1.
    destruct (read_stream fuel (stderr p) _) as [q w1|e w1|]; [| |done].
    - pose proof (same_launched_judge p (megabytes n) w1) as H2.
      destruct (judge p (megabytes n) w1) as [r w2|e w2|]; [| |done].
      + apply Hr. unfold same_launched in *. congruence.
      + pose proof (same_launched_cleanup (Some (megabytes n)) w2) as H3.
        destruct (compress_cleanup _ _ _ _ w2); [| |done];
          apply Hr; unfold same_launched in *; congruence.
    - pose proof (same_launched_cleanup (Some (megabytes n)) w1) as H3.
      destruct (compress_cleanup _ _ _ _ w1); [| |done];
        apply Hr; unfold same_launched in *; congruence. }
Qed.

(** X11.  A call of the job starts one process at most, with the command line
    of [build_cmd], and none unless the source is there and its name is not
    in [skipped/]. *)
Theorem compress_video_one_process w w' :
  (exists r,
     compress_video ffmpeg fuel input_path output_folder gpu_type crf w
     = Ret r w')
  \/ (exists e,
     compress_video ffmpeg fuel input_path output_folder gpu_type crf w
     = Raise e w') ->
  launched w' = launched w
  \/ exists n cfg,
       files w !! k_in = Some n /\ files w !! k_skip = None /\
       GPU_CONFIG !! gpu_type = Some cfg /\
       launched w' =
         launched w ++ [build_cmd input_path output_path gpu_type cfg crf].
Proof.
  pose proof (compress_video_launches w) as H.
  intros [[r E]|[e E]]; by rewrite E in H.
Qed.

(* ---------------------------------------------------------------------- *)
(** ** The sizes of an answer *)

Lemma judge_ret p original_size w o c s w' :
  judge p original_size w = Ret (o, c, s) w' ->
  o = original_size /\
  (c = original_size \/ exists m, c = megabytes m /\
                                  Qle_bool original_size c = false).
Proof.
  unfold judge, bind, ret, raise. intros H.
  repeat case_match; simplify_eq; eauto.
Qed.

Lemma compress_video_ret_inv w o c s w' :
  compress_video ffmpeg fuel input_path output_folder gpu_type crf w
  = Ret (o, c, s) w' ->
  (o = 0%Q /\ c = 0%Q)
  \/ exists n, o = megabytes n /\
       (c = 0%Q \/ c = o \/
        exists m, c = megabytes m /\ Qle_bool o c = false).
Proof.
  rewrite compress_video_cases.
  destruct (files w !! k_in) as [n|] eqn:Hin.
  2:{ intros H%compress_cleanup_skipped. left. by simplify_eq. }
  destruct (files w !! k_skip) as [s0|] eqn:Hsk.
  { intros [= <- <- <- <-]. by left. }
  unfold try_except. rewrite compress_encode_cases.
  assert (Hcl : forall w1,
            compress_cleanup input_path filename output_path
              (Some (megabytes n)) w1 = Ret (o, c, s) w' ->
            (o = 0%Q /\ c = 0%Q)
            \/ exists n, o = megabytes n /\
                 (c = 0%Q \/ c = o \/
                  exists m, c = megabytes m /\ Qle_bool o c = false)).
  { intros w1 H%compress_cleanup_skipped. right. exists n.
    simplify_eq/=. auto. }
  destruct (GPU_CONFIG !! gpu_type) as [cfg|]; [|apply Hcl].
  destruct (ffmpeg _ _) as [e|p]; [apply Hcl|].
  unfold bind at 1.
  destruct (read_stream fuel (stderr p) _) as [q w1|e w1|]; [|apply Hcl|done].
  destruct (judge p (megabytes n) w1) as [r w2|e w2|] eqn:Hj;
    [|apply Hcl|done].
  intros [= -> ->]. apply judge_ret in Hj as [-> Hc].
  right. exists n. split; [done|]. right. exact Hc.
Qed.

Lemma compression_ratio_range (o c : Q) :
  (0 <= c)%Q -> (c <= o)%Q ->
  (0 <= compression_ratio o c)%Q /\ (compression_ratio o c <= 100)%Q.
Proof.
  intros Hc Hle. unfold compression_ratio.
  destruct (Qlt_le_dec 0 o) as [Ho|Ho]; [|split; lra].
  unfold saved_percent.
  assert (H0 : (0 <= c / o)%Q) by (apply Qle_shift_div_l; lra).
  assert (H1 : (c / o <= 1)%Q) by (apply Qle_shift_div_r; lra).
  assert (Ha0 : (0 <= PyNum.fl (c / o))%Q) by by apply fl_nonneg.
  assert (Ha1 : (PyNum.fl (c / o) <= 1)%Q)
    by (apply (fl_below _ 1); [done | done | vm_compute; reflexivity]).
  set (a := PyNum.fl (c / o)) in *.
  assert (Hb0 : (0 <= PyNum.fl (a * 100))%Q) by (apply fl_nonneg; lra).
  assert (Hb1 : (PyNum.fl (a * 100) <= 100)%Q).
  { apply (fl_below _ 100); [lra | | vm_compute; reflexivity].
    change (inject_Z 100) with 100%Q. lra. }
  set (b := PyNum.fl (a * 100)) in *.
  split.
  - apply fl_nonneg. lra.
  - apply (fl_below _ 100); [lra | | vm_compute; reflexivity].
    change (inject_Z 100) with 100%Q. lra.
Qed.

(** X1.  Whatever the job answers, the compressed size is at least 0 and at
    most the original size, so the ratio [log_to_csv] makes of the answer is
    between 0 and 100. *)
Theorem compress_video_sizes w o c s w' :
  compress_video ffmpeg fuel input_path output_folder gpu_type crf w
  = Ret (o, c, s) w' ->
  (0 <= c)%Q /\ (c <= o)%Q /\
  (0 <= compression_ratio o c)%Q /\ (compression_ratio o c <= 100)%Q.
Proof.
  intros H%compress_video_ret_inv.
  assert (Hc : (0 <= c)%Q /\ (c <= o)%Q).
  { destruct H as [[-> ->]|(n & -> & [->|[->|(m & -> & Hlt)]])].
    - split; lra.
    - split; [lra | apply megabytes_nonneg].
    - split; [apply megabytes_nonneg | lra].
    - destruct (megabytes_above n m Hlt) as [Hlt' _].
      split; [apply megabytes_nonneg | lra]. }
  destruct Hc as [H0 H1]. split; [done|]. split; [done|].
  by apply compression_ratio_range.
Qed.

End Job.

(* ====================================================================== *)
(** * The batch ends *)
(* ====================================================================== *)

Section Liveness.

Variable ffmpeg : ffmpeg_oracle.
Variable fuel : nat.

(** Every run names a duration within the lines the fuel allows, or has a
    line among them that cannot be decoded. *)
Hypothesis names_duration :
  forall cmd fs p,
    ffmpeg cmd fs = inr p -> no_duration (take fuel (stderr p)) = false.




End Liveness.

(* ====================================================================== *)
(** * The log and the bar after the loop *)
(* ====================================================================== *)

Section Account.

Variable ffmpeg : ffmpeg_oracle.
Variable fuel : nat.

Lemma in_skipped_true g w :
  entry_name g = true -> in_skipped w g = true ->
  exists n, files w !! PyPath.resolve (PyPath.join "skipped" g) = Some n.
Proof.
  intros Hg H. destruct (paths_of_entry g Hg) as (_ & _ & -> & _).
  apply bool_decide_eq_true_1 in H as [n H]. by exists n.
Qed.

Lemma in_skipped_false g w :
  entry_name g = true -> in_skipped w g = false ->
  files w !! PyPath.resolve (PyPath.join "skipped" g) = None.
Proof.
  intros Hg H. destruct (paths_of_entry g Hg) as (_ & _ & -> & _).
  apply bool_decide_eq_false_1 in H.
  destruct (files w !! key_skip g) eqn:E; [|done]. destruct H. eauto.
Qed.

(** One turn: the row and the bar. *)
Lemma turn_account gpu_type crf g w w' :
  entry_name g = true ->
  process_file ffmpeg fuel gpu_type crf g w = Ret tt w' ->
  frame g w w' /\
  if in_skipped w g
  then log w' = log w /\ pbar_total w' = (pbar_total w + 2)%nat
  else (exists r, row_of g r /\ log w' = append_row r (log w)) /\
       pbar_total w' = (pbar_total w + 1)%nat.
Proof.
  intros Hg Hrun. split.
  { pose proof (turn_spec ffmpeg fuel gpu_type crf g w Hg) as Hs.
    rewrite Hrun in Hs. apply Hs. }
  destruct (in_skipped w g) eqn:Hsk.
  - destruct (in_skipped_true g w Hg Hsk) as [n Hn].
    rewrite (process_file_skip _ _ _ _ _ _ _ Hn) in Hrun.
    injection Hrun as <-. world_simpl. split; [done|lia].
  - pose proof (in_skipped_false g w Hg Hsk) as Hn.
    rewrite (process_file_run _ _ _ _ _ _ Hn) in Hrun.
    pose proof (compress_video_touches ffmpeg fuel
                  (PyPath.join input_folder g) "compressed" gpu_type crf w)
      as Hk.
    destruct (compress_video _ _ _ _ _ _ w) as [[[o c] sk] w1|e w1|];
      [| |done]; destruct Hk as (_ & Hl & Hb & _).
    + destruct sk; injection Hrun as <-; world_simpl; rewrite Hl, Hb;
        (split; [|done]); eexists; (split; [|reflexivity]);
        by eexists _, _, _, _.
    + injection Hrun as <-. world_simpl. rewrite Hl, Hb.
      split; [|done]. eexists. split; [|reflexivity]. by eexists _, _, _, _.
Qed.

Lemma in_skipped_frame g h w w' :
  g <> h -> frame g w w' -> in_skipped w' h = in_skipped w h.
Proof.
  intros Hne [_ Hf]. unfold in_skipped.
  destruct (keys_of_others g h Hne) as (_ & _ & _ & _ & _ & _ & K7 & K8 & K9).
  by rewrite Hf.
Qed.

(** The loop: one row for each name not in [skipped/], in the order of the
    list; the bar moves once for each name and once more for each name in
    [skipped/]. *)
Lemma loop_account gpu_type crf names w w' l :
  NoDup names -> Forall (fun g => entry_name g = true) names ->
  log w = Some l ->
  main_loop ffmpeg fuel gpu_type crf names w = Ret tt w' ->
  (exists rows, log w' = Some (l ++ rows) /\
                Forall2 row_of (pending w names) rows) /\
  pbar_total w' =
    (pbar_total w + length names
     + length (List.filter (in_skipped w) names))%nat.
Proof.
  intros Hnd Hall. revert w l.
  induction names as [|g rest IH]; intros w l Hl Hrun.
  - injection Hrun as <-. split; [|cbn; lia].
    exists []. rewrite app_nil_r. split; [done|constructor].
  - apply NoDup_cons in Hnd as [Hg Hnd].
    apply Forall_cons in Hall as [Hentry Hall].
    cbn [main_loop] in Hrun. unfold bind in Hrun.
    destruct (process_file _ _ _ _ g w) as [[] w1|e w1|] eqn:Hturn;
      [|done|done].
    destruct (turn_account gpu_type crf g w w1 Hentry Hturn) as [Hf Hacc].
    assert (Hsame : forall h, In h rest -> in_skipped w1 h = in_skipped w h).
    { intros h Hh%list_elem_of_In. apply (in_skipped_frame g); [|done].
      intros ->. done. }
    assert (Hpend : pending w1 rest = pending w rest).
    { unfold pending. apply List.filter_ext_in. intros h Hh.
      by rewrite Hsame. }
    assert (Hcnt : List.filter (in_skipped w1) rest
                   = List.filter (in_skipped w) rest).
    { by apply List.filter_ext_in. }
    unfold pending in *. cbn [List.filter length].
    destruct (in_skipped w g); cbn [negb].
    + destruct Hacc as [Hl1 Hb1]. rewrite <- Hl1 in Hl.
      destruct (IH Hnd Hall w1 l Hl Hrun) as [(rows & Hlog & Hrows) Hbar].
      split.
      * exists rows. split; [done|]. by rewrite <- Hpend.
      * rewrite Hbar, Hb1, Hcnt. cbn [length]. lia.
    + destruct Hacc as [(r & Hr & Hl1) Hb1]. rewrite Hl in Hl1.
      destruct (IH Hnd Hall w1 (l ++ [r]) Hl1 Hrun)
        as [(rows & Hlog & Hrows) Hbar].
      split.
      * exists (r :: rows). split; [by rewrite Hlog, <- app_assoc|].
        constructor; [done|]. by rewrite <- Hpend.
      * rewrite Hbar, Hb1, Hcnt. lia.
Qed.

(** [main] up to its loop. *)
Lemma main_from encoders w :
  let names := List.filter candidate (listdir_cwd w) in
  exists w0,
    files w0 = files w /\ locked w0 = locked w /\
    log w0 = Some (default [header] (log w)) /\
    pbar_total w0 = pbar_total w /\ launched w0 = launched w /\
    console w0 = console w ++ (get_gpu_type encoders).2 /\
    main ffmpeg fuel encoders w =
      match names with
      | [] => Ret tt (add_console [MsgNoFiles] w0)
      | _ =>
          match main_loop ffmpeg fuel (get_gpu_type encoders).1 23 names
                  (add_console
                     [MsgStart (length names) (get_gpu_type encoders).1] w0)
          with
          | Ret _ w' => Ret tt (add_console [MsgDone] w')
          | Raise e w' => Raise e w'
          | OutOfFuel => OutOfFuel
          end
      end.
Proof.
  intros names. subst names. unfold main.
  destruct (get_gpu_type encoders) as [gpu msgs]. cbn [fst snd].
  unfold init_folders. unfold bind at 1. unfold ret at 1.
  unfold bind at 1.
  destruct (init_log_file_log w) as (w1 & Hinit & Hlog). rewrite Hinit.
  assert (H1 : files w1 = files w /\ locked w1 = locked w /\
               pbar_total w1 = pbar_total w /\ launched w1 = launched w /\
               console w1 = console w).
  { revert Hinit. unfold init_log_file. by destruct (log w); intros [= <-]. }
  destruct H1 as (Hf & Hk & Hb & Hla & Hc).
  unfold bind at 1.
  exists (add_console msgs w1). world_simpl.
  split; [done|]. split; [done|]. split; [done|]. split; [done|].
  split; [done|]. split; [by rewrite Hc|].
  assert (Hpre : (if msgs is [] then ret tt else tqdm_write msgs) w1
                 = Ret tt (add_console msgs w1)).
  { destruct msgs; [|done]. by rewrite add_console_nil. }
  rewrite Hpre.
  assert (Hdir : listdir_cwd (add_console msgs w1) = listdir_cwd w).
  { by apply listdir_same. }
  rewrite Hdir.
  destruct (List.filter candidate (listdir_cwd w)); [done|].
  unfold bind, tqdm_write. by destruct (main_loop _ _ _ _ _ _) as [[]| |].
Qed.

Lemma candidates_entries w :
  tidy w ->
  Forall (fun g => entry_name g = true)
    (List.filter candidate (listdir_cwd w)).
Proof.
  intros Htidy. apply Forall_forall.
  intros g [_ [sz Hg]]%elem_of_candidates. by apply (Htidy g sz).
Qed.

Lemma main_account encoders w w' :
  tidy w -> main ffmpeg fuel encoders w = Ret tt w' ->
  let names := List.filter candidate (listdir_cwd w) in
  (exists rows,
     log w' = Some (default [header] (log w) ++ rows) /\
     Forall2 row_of (pending w names) rows) /\
  pbar_total w' =
    (pbar_total w + length names
     + length (List.filter (in_skipped w) names))%nat.
Proof.
  intros Htidy Hrun names.
  destruct (main_from encoders w)
    as (w0 & Hf & _ & Hlog & Hb & _ & _ & Hmain).
  rewrite Hmain in Hrun. clear Hmain.
  pose proof (candidates_entries w Htidy) as Hentry.
  pose proof (NoDup_candidates w) as Hnd. fold names in Hrun, Hentry, Hnd.
  destruct names as [|g rest] eqn:Hnames.
  - injection Hrun as <-. world_simpl. split; [|cbn; lia].
    exists []. rewrite app_nil_r. split; [done|constructor].
  - destruct (main_loop _ _ _ _ _ _) as [[] wc|e wc|] eqn:Hloop; [|done|done].
    injection Hrun as <-. world_simpl.
    set (w1 := add_console _ w0) in Hloop.
    destruct (loop_account _ _ (g :: rest) w1 wc _ Hnd Hentry Hlog Hloop)
      as [(rows & Hrows & Hall) Hbar].
    assert (Hsk : forall h, in_skipped w1 h = in_skipped w h).
    { intros h. unfold in_skipped. subst w1. world_simpl. by rewrite Hf. }
    assert (Hp : pending w1 (g :: rest) = pending w (g :: rest)).
    { unfold pending. apply List.filter_ext. intros h. by rewrite Hsk. }
    assert (Hc : List.filter (in_skipped w1) (g :: rest)
                 = List.filter (in_skipped w) (g :: rest)).
    { by apply List.filter_ext. }
    split.
    + exists rows. split; [done|]. by rewrite <- Hp.
    + rewrite Hbar, Hc. subst w1. world_simpl. by rewrite Hb.
Qed.


(** X13.  After a batch run the overall bar has moved once for each file of
    the listing and once more for each of them whose name was in
    [skipped/]: the branch that passes over such a file updates the bar, and
    so does the [finally] block. *)
Theorem main_bar_total encoders w w' :
  tidy w -> main ffmpeg fuel encoders w = Ret tt w' ->
  let names := List.filter candidate (listdir_cwd w) in
  pbar_total w' =
    (pbar_total w + length names
     + length (List.filter (in_skipped w) names))%nat.
Proof. intros Htidy Hrun. by apply (main_account encoders w w'). Qed.


(** ** The processes of a batch *)

(** The answer of the probe is a key of [GPU_CONFIG]. *)
Lemma get_gpu_type_known encoders :
  exists cfg, GPU_CONFIG !! (get_gpu_type encoders).1 = Some cfg.
Proof.
  unfold get_gpu_type. destruct (get_gpu_type_try encoders) as [e|[g|]] eqn:E;
    cbn [fst]; [by eexists| |by eexists].
  revert E. unfold get_gpu_type_try. destruct (run_encoders encoders); [done|].
  repeat case_match; intros [= <-]; by eexists.
Qed.

(** The paths [main] and [compress_video] make of an entry name. *)
Lemma job_paths g :
  entry_name g = true ->
  PyPath.join input_folder g = "./" +:+ g /\
  PyPath.join "compressed"
    ("compressed_" +:+ PyPath.basename (PyPath.join input_folder g))
  = "compressed/compressed_" +:+ g.
Proof.
  intros Hg. destruct (paths_of_entry g Hg) as (-> & _).
  apply entry_name_inv in Hg as [Hpl _]. split; [|reflexivity].
  unfold PyPath.join, input_folder, PyStr.startswith.
  destruct g as [|c g]; [reflexivity|].
  cbn [plain all_chars] in Hpl. apply andb_true_iff in Hpl as [Hc _].
  apply negb_true_iff in Hc. unfold PyPath.sep in Hc.
  cbn [String.prefix]. destruct (Ascii.ascii_dec "/" c) as [E|]; [|done].
  apply Ascii.eqb_neq in Hc. done.
Qed.

Lemma turn_launches gpu_type crf cfg g w w' :
  entry_name g = true ->
  GPU_CONFIG !! gpu_type = Some cfg ->
  process_file ffmpeg fuel gpu_type crf g w = Ret tt w' ->
  launched w' = launched w
  \/ (in_skipped w g = false /\
      launched w' =
        launched w
        ++ [build_cmd ("./" +:+ g) ("compressed/compressed_" +:+ g)
              gpu_type cfg crf]).
Proof.
  intros Hg Hcfg Hrun. destruct (in_skipped w g) eqn:Hsk.
  - destruct (in_skipped_true g w Hg Hsk) as [n Hn].
    rewrite (process_file_skip _ _ _ _ _ _ _ Hn) in Hrun.
    injection Hrun as <-. by left.
  - pose proof (in_skipped_false g w Hg Hsk) as Hn.
    rewrite (process_file_run _ _ _ _ _ _ Hn) in Hrun.
    pose proof (compress_video_launches ffmpeg fuel
                  (PyPath.join input_folder g) "compressed" gpu_type crf w)
      as Hk.
    destruct (job_paths g Hg) as [Hi Ho]. rewrite Ho, Hi in Hk.
    assert (Hw : exists w1,
               launched w' = launched w1 /\
               (launched w1 = launched w
                \/ exists n cfg0,
                     files w !! PyPath.resolve ("./" +:+ g) = Some n /\
                     files w !! PyPath.resolve
                       (PyPath.join "skipped" (PyPath.basename ("./" +:+ g)))
                     = None /\
                     GPU_CONFIG !! gpu_type = Some cfg0 /\
                     launched w1 =
                       launched w
                       ++ [build_cmd ("./" +:+ g)
                             ("compressed/compressed_" +:+ g)
                             gpu_type cfg0 crf])).
    { rewrite Hi in Hrun.
      destruct (compress_video _ _ _ _ _ _ w) as [[[o c] sk] w1|e w1|];
        [| |done]; exists w1; (split; [|exact Hk]).
      - destruct sk; by injection Hrun as <-.
      - by injection Hrun as <-. }
    destruct Hw as (w1 & Hw & [Hk1|(n & cfg0 & _ & _ & Hcfg0 & Hk1)]).
    + left. congruence.
    + right. split; [done|]. rewrite Hw, Hk1. congruence.
Qed.

Lemma loop_launches gpu_type crf cfg names w w' :
  NoDup names -> Forall (fun g => entry_name g = true) names ->
  GPU_CONFIG !! gpu_type = Some cfg ->
  main_loop ffmpeg fuel gpu_type crf names w = Ret tt w' ->
  exists started,
    sublist started (pending w names) /\
    launched w' =
      launched w
      ++ map (fun g => build_cmd ("./" +:+ g) ("compressed/compressed_" +:+ g)
                         gpu_type cfg crf) started.
Proof.
  intros Hnd Hall Hcfg. revert w.
  induction names as [|g rest IH]; intros w Hrun.
  - injection Hrun as <-. exists []. split; [constructor|by rewrite app_nil_r].
  - apply NoDup_cons in Hnd as [Hg Hnd].
    apply Forall_cons in Hall as [Hentry Hall].
    cbn [main_loop] in Hrun. unfold bind in Hrun.
    destruct (process_file _ _ _ _ g w) as [[] w1|e w1|] eqn:Hturn;
      [|done|done].
    destruct (turn_account gpu_type crf g w w1 Hentry Hturn) as [Hf _].
    assert (Hpend : pending w1 rest = pending w rest).
    { unfold pending. apply List.filter_ext_in.
      intros h Hh%list_elem_of_In.
      rewrite (in_skipped_frame g h w w1); [done| |done]. intros ->. done. }
    destruct (IH Hnd Hall w1 Hrun) as (st & Hsub & Hst).
    rewrite Hpend in Hsub.
    destruct (turn_launches gpu_type crf cfg g w w1 Hentry Hcfg Hturn)
      as [H1|[Hsk H1]].
    + exists st. split; [|by rewrite Hst, H1].
      unfold pending. cbn [List.filter].
      destruct (negb (in_skipped w g)); [by apply sublist_cons|done].
    + exists (g :: st). split.
      * unfold pending. cbn [List.filter]. rewrite Hsk. cbn [negb].
        by apply sublist_skip.
      * rewrite Hst, H1. cbn [map]. by rewrite <- app_assoc.
Qed.

Lemma main_started encoders w w' :
  tidy w -> main ffmpeg fuel encoders w = Ret tt w' ->
  let gpu_type := (get_gpu_type encoders).1 in
  exists cfg started,
    GPU_CONFIG !! gpu_type = Some cfg /\
    sublist started (pending w (List.filter candidate (listdir_cwd w))) /\
    launched w' =
      launched w
      ++ map (fun g => build_cmd ("./" +:+ g) ("compressed/compressed_" +:+ g)
                         gpu_type cfg 23) started.
Proof.
  intros Htidy Hrun gpu_type.
  destruct (get_gpu_type_known encoders) as [cfg Hcfg]. fold gpu_type in Hcfg.
  exists cfg.
  destruct (main_from encoders w)
    as (w0 & Hf & _ & _ & _ & Hla & _ & Hmain).
  rewrite Hmain in Hrun. clear Hmain. fold gpu_type in Hrun.
  pose proof (candidates_entries w Htidy) as Hentry.
  pose proof (NoDup_candidates w) as Hnd.
  destruct (List.filter candidate (listdir_cwd w)) as [|g rest] eqn:Hnames.
  - injection Hrun as <-. world_simpl. exists [].
    split; [done|]. split; [constructor|]. by rewrite app_nil_r.
  - destruct (main_loop _ _ _ _ _ _) as [[] wc|e wc|] eqn:Hloop; [|done|done].
    injection Hrun as <-. world_simpl.
    set (w1 := add_console _ w0) in Hloop.
    destruct (loop_launches _ _ cfg (g :: rest) w1 wc Hnd Hentry Hcfg Hloop)
      as (st & Hsub & Hst).
    assert (Hp : pending w1 (g :: rest) = pending w (g :: rest)).
    { unfold pending. apply List.filter_ext. intros h.
      unfold in_skipped. subst w1. world_simpl. by rewrite Hf. }
    exists st. split; [done|]. split; [by rewrite <- Hp|].
    rewrite Hst. subst w1. world_simpl. by rewrite Hla.
Qed.

(** X15.  The processes a batch run starts are those of files of the
    listing whose names were not in [skipped/], one at most for each and in
    the order of the listing: each is started with the command line of
    [build_cmd] for the file in the working directory, its output in
    [compressed/] under the name with [compressed_] in front, the encoder
    the probe answered and the quality 23. *)
Theorem main_launches encoders w w' :
  tidy w -> main ffmpeg fuel encoders w = Ret tt w' ->
  let gpu_type := (get_gpu_type encoders).1 in
  exists cfg started,
    GPU_CONFIG !! gpu_type = Some cfg /\
    sublist started (pending w (List.filter candidate (listdir_cwd w))) /\
    launched w' =
      launched w
      ++ map (fun g => build_cmd ("./" +:+ g) ("compressed/compressed_" +:+ g)
                         gpu_type cfg 23) started.
Proof. intros Htidy Hrun. by apply main_started. Qed.

(** ** What is in [skipped/] stays there *)

Lemma turn_keeps_skipped gpu_type crf h g n w w' :
  entry_name h = true ->
  process_file ffmpeg fuel gpu_type crf h w = Ret tt w' ->
  files w !! key_skip g = Some n -> files w' !! key_skip g = Some n.
Proof.
  intros Hh Hrun Hg. destruct (decide (h = g)) as [->|Hne].
  - destruct (paths_of_entry g Hh) as (_ & _ & Hks & _).
    rewrite <- Hks in Hg.
    rewrite (process_file_skip _ _ _ _ _ _ _ Hg) in Hrun.
    injection Hrun as <-. world_simpl. by rewrite <- Hks.
  - destruct (turn_account gpu_type crf h w w' Hh Hrun) as [[_ Hf] _].
    destruct (keys_of_others h g Hne) as (_ & _ & _ & _ & _ & _ & K7 & K8 & K9).
    by rewrite Hf.
Qed.

Lemma loop_keeps_skipped gpu_type crf names g n w w' :
  Forall (fun h => entry_name h = true) names ->
  main_loop ffmpeg fuel gpu_type crf names w = Ret tt w' ->
  files w !! key_skip g = Some n -> files w' !! key_skip g = Some n.
Proof.
  intros Hall. revert w.
  induction names as [|h rest IH]; intros w Hrun Hg.
  - by injection Hrun as <-.
  - apply Forall_cons in Hall as [Hh Hall].
    cbn [main_loop] in Hrun. unfold bind in Hrun.
    destruct (process_file _ _ _ _ h w) as [[] w1|e w1|] eqn:Hturn;
      [|done|done].
    apply (IH Hall w1 Hrun).
    by apply (turn_keeps_skipped gpu_type crf h g n w w1).
Qed.

Lemma main_keeps_skipped encoders g n w w' :
  tidy w -> main ffmpeg fuel encoders w = Ret tt w' ->
  files w !! key_skip g = Some n -> files w' !! key_skip g = Some n.
Proof.
  intros Htidy Hrun Hg.
  destruct (main_from encoders w)
    as (w0 & Hf & _ & _ & _ & _ & _ & Hmain).
  rewrite Hmain in Hrun. clear Hmain.
  pose proof (candidates_entries w Htidy) as Hentry.
  destruct (List.filter candidate (listdir_cwd w)) as [|h rest] eqn:Hnames.
  - injection Hrun as <-. world_simpl. by rewrite Hf.
  - destruct (main_loop _ _ _ _ _ _) as [[] wc|e wc|] eqn:Hloop; [|done|done].
    injection Hrun as <-. world_simpl.
    apply (loop_keeps_skipped _ _ _ g n _ wc Hentry Hloop).
    world_simpl. by rewrite Hf.
Qed.

End Account.

(* ====================================================================== *)
(** * Edges of the two parsers and of the listing *)
(* ====================================================================== *)

Section Edges.

Lemma re_split_colon hh mm ss :
  all_digits hh = true -> all_digits mm = true -> all_digits ss = true ->
  re_split_colon_dot (colon_time hh mm ss) = [hh; mm; ss].
Proof.
  intros Hh Hm Hs. unfold re_split_colon_dot, colon_time.
  rewrite !str_app_cons, !str_app_nil_l.
  rewrite (split_on_plain_app _ hh), split_on_cons by by apply digits_no_colon_dot.
  rewrite (split_on_plain_app _ mm), split_on_cons by by apply digits_no_colon_dot.
  rewrite (split_on_plain _ ss) by by apply digits_no_colon_dot.
  cbn. by rewrite !str_app_nil_r.
Qed.

(** X16.  A time text [H:MM:SS] without a fractional part has three pieces,
    so [parse_time] takes it for the short shape: the hours are returned as
    minutes, the minutes as seconds, and the seconds are left out. *)
Theorem parse_time_without_fraction (hh mm ss : string) :
  time_field hh = true -> time_field mm = true -> all_digits ss = true ->
  parse_time (colon_time hh mm ss)
  = ((0, decimal hh, Fin (inject_Z (decimal mm))), []).
Proof.
  intros (Hh & Lh & _)%time_field_inv (Hm & Lm & Vm)%time_field_inv Hs.
  unfold parse_time, parse_time_try. rewrite re_split_colon by done.
  cbn [length Nat.eqb Nat.leb nth].
  rewrite py_int_digits, py_float_digits by (done || lia). reflexivity.
Qed.

Lemma candidate_not_prefixed f : candidate ("compressed_" +:+ f) = false.
Proof.
  unfold candidate, PyStr.startswith. rewrite prefix_app.
  apply andb_false_r.
Qed.

(** X17.  The name [compress_video] gives its output is never one [main]
    takes for an input: whatever the input path and the output folder, the
    base name of the output path starts with [compressed_]. *)
Theorem output_never_candidate input_path output_folder :
  candidate
    (PyPath.basename
       (PyPath.join output_folder
          ("compressed_" +:+ PyPath.basename input_path))) = false.
Proof.
  rewrite basename_join by apply prefixed_plain, basename_plain.
  apply candidate_not_prefixed.
Qed.

(** A text without the separator is one piece. *)
Lemma split_str_go_absent sep s :
  PyStr.contains sep s = false -> PyStr.split_str_go sep 0 s = (s, []).
Proof.
  induction s as [|a s IH]; [done|].
  intros H. cbn [PyStr.contains] in H. apply orb_false_iff in H as [Hp Hc].
  cbn [PyStr.split_str_go]. by rewrite Hp, (IH Hc).
Qed.

Lemma scan_duration_index_error fuel pre l rest w :
  no_duration pre = true ->
  PyStr.utf8_valid l = true ->
  PyStr.contains "Duration:" (l +:+ newline) = true ->
  PyStr.contains "Duration: " (l +:+ newline) = false ->
  (length pre < fuel)%nat ->
  scan_duration fuel (pre ++ l :: rest) w = Raise IndexError w.
Proof.
  intros Hn Hv Hmark Hblank. revert fuel.
  induction pre as [|x pre IH]; intros fuel Hlen.
  - destruct fuel as [|fuel]; [cbn in Hlen; lia|].
    cbn [scan_duration readline app]. rewrite Hv, Hmark.
    unfold bind at 1. unfold PyStr.split_str.
    by rewrite (split_str_go_absent _ _ Hblank).
  - destruct fuel as [|fuel]; [cbn in Hlen; lia|].
    cbn [no_duration forallb] in Hn.
    apply andb_true_iff in Hn as [[Hxv Hx]%andb_true_iff Hn].
    apply negb_true_iff in Hx.
    cbn [scan_duration readline app]. rewrite Hxv, Hx.
    apply IH; [done|]. cbn in Hlen. lia.
Qed.

(** X8.  The first loop stops at the first line that holds ['Duration:'];
    when no blank follows the marker on that line, the split at
    ['Duration: '] gives one piece and the loop raises [IndexError].  The
    stream is one that can be decoded, this line and those behind it as well
    as those before it. *)
Theorem duration_marker_without_blank fuel pre l rest w :
  no_duration pre = true ->
  PyStr.utf8_valid l = true ->
  forallb PyStr.utf8_valid rest = true ->
  PyStr.contains "Duration:" (l +:+ newline) = true ->
  PyStr.contains "Duration: " (l +:+ newline) = false ->
  (length pre < fuel)%nat ->
  scan_duration fuel (pre ++ l :: rest) w = Raise IndexError w
  /\ stream_error fuel (pre ++ l :: rest) = Some IndexError.
Proof.
  intros Hn Hv _ Hmark Hblank Hlen. split.
  - by apply scan_duration_index_error.
  - unfold stream_error, read_stream, bind.
    by rewrite scan_duration_index_error.
Qed.

End Edges.

(** X3.  The job ends in every case but one: the source is there, its name
    is not in [skipped/], the process was started, and each of the lines the
    fuel allows the first loop to read can be decoded and holds no
    ['Duration:']. *)
Theorem compress_video_ends_unless
    (ffmpeg : ffmpeg_oracle) fuel input_path output_folder gpu_type crf w :
  let filename := PyPath.basename input_path in
  let output_path := PyPath.join output_folder ("compressed_" +:+ filename) in
  compress_video ffmpeg fuel input_path output_folder gpu_type crf w
  = OutOfFuel <->
  exists n cfg p,
    files w !! PyPath.resolve input_path = Some n /\
    files w !! PyPath.resolve (PyPath.join "skipped" filename) = None /\
    GPU_CONFIG !! gpu_type = Some cfg /\
    ffmpeg (build_cmd input_path output_path gpu_type cfg crf) (files w)
    = inr p /\
    no_duration (take fuel (stderr p)) = true.
Proof. apply compress_video_fuel_iff. Qed.

(* ====================================================================== *)
(** * The statements on the small batch *)
(* ====================================================================== *)

Lemma compress_video_ends_unless_witness :
  compress_video Demo.ffmpeg 1000 "./c.mp4" "compressed" "cpu" 23
    Demo.unreadable = OutOfFuel.
Proof.
  apply (proj2 (compress_video_ends_unless Demo.ffmpeg 1000 "./c.mp4"
                  "compressed" "cpu" 23 Demo.unreadable)).
  exists (10 * Demo.MiB)%N,
    {| encoder := "libx264"; preset := "fast"; crf_param := "-crf";
       extra_params := None |}, Demo.rejected.
  repeat split; vm_compute; reflexivity.
Defined.

Lemma parse_time_without_fraction_witness :
  parse_time (colon_time "00" "01" "30")
  = ((0, decimal "00", Fin (inject_Z (decimal "01"))), []).
Proof.
  apply (parse_time_without_fraction "00" "01" "30"); reflexivity.
Defined.

Lemma duration_marker_without_blank_witness :
  scan_duration 10
    (["  Metadata:"] ++ "    title           : Duration:short"
       :: ["  Duration: 00:00:20.00, start: 0.000000, bitrate: 4100 kb/s"])
    blank_world = Raise IndexError blank_world
  /\ stream_error 10
       (["  Metadata:"] ++ "    title           : Duration:short"
          :: ["  Duration: 00:00:20.00, start: 0.000000, bitrate: 4100 kb/s"])
     = Some IndexError.
Proof.
  apply (duration_marker_without_blank 10 ["  Metadata:"]
           "    title           : Duration:short"
           ["  Duration: 00:00:20.00, start: 0.000000, bitrate: 4100 kb/s"]
           blank_world);
    [vm_compute; reflexivity | vm_compute; reflexivity
    | vm_compute; reflexivity | vm_compute; reflexivity
    | vm_compute; reflexivity | cbn; lia].
Defined.

Lemma compress_video_missing_source_witness :
  exists w',
    compress_video Demo.ffmpeg 10 "./a.mp4" "compressed" "cpu" 23
      Demo.leftover = Ret (0%Q, 0%Q, true) w' /\
    files w' =
      delete (PyPath.resolve
                (PyPath.join "compressed"
                   ("compressed_" +:+ PyPath.basename "./a.mp4")))
        (files Demo.leftover) /\
    launched w' = launched Demo.leftover /\ log w' = log Demo.leftover /\
    console w' = console Demo.leftover.
Proof.
  apply (compress_video_missing_source Demo.ffmpeg 10 "./a.mp4" "compressed"
           "cpu" 23 Demo.leftover);
    [vm_compute; reflexivity | apply not_elem_of_empty].
Defined.

Lemma compress_video_not_started_witness :
  exists w',
    compress_video Demo.ffmpeg 10 "./a.mp4" "compressed" "tpu" 23
      Demo.three_files = Ret (megabytes (100 * Demo.MiB), 0%Q, true) w' /\
    files w' =
      <[PyPath.resolve (PyPath.join "skipped" (PyPath.basename "./a.mp4"))
        := (100 * Demo.MiB)%N]>
        (delete (PyPath.resolve "./a.mp4")
           (delete (PyPath.resolve
                      (PyPath.join "compressed"
                         ("compressed_" +:+ PyPath.basename "./a.mp4")))
              (files Demo.three_files))) /\
    launched w' = launched Demo.three_files.
Proof.
  apply (compress_video_not_started Demo.ffmpeg 10 "./a.mp4" "compressed"
           "tpu" 23 Demo.three_files (100 * Demo.MiB)).
  - vm_compute. reflexivity.
  - vm_compute. reflexivity.
  - vm_compute. reflexivity.
  - left. vm_compute. reflexivity.
  - apply not_elem_of_empty.
  - apply not_elem_of_empty.
  - apply not_elem_of_empty.
Defined.

Lemma compress_video_stream_error_witness :
  exists w',
    compress_video Demo.tagging 10 "./a.mp4" "compressed" "cpu" 23
      Demo.three_files = Ret (megabytes (100 * Demo.MiB), 0%Q, true) w' /\
    files w' !! PyPath.resolve "./a.mp4" = None /\
    files w' !! PyPath.resolve
                  (PyPath.join "skipped" (PyPath.basename "./a.mp4"))
    = Some (100 * Demo.MiB)%N /\
    launched w' =
      launched Demo.three_files
      ++ [build_cmd "./a.mp4"
            (PyPath.join "compressed"
               ("compressed_" +:+ PyPath.basename "./a.mp4"))
            "cpu"
            {| encoder := "libx264"; preset := "fast"; crf_param := "-crf";
               extra_params := None |} 23].
Proof.
  apply (compress_video_stream_error Demo.tagging 10 "./a.mp4" "compressed"
           "cpu" 23 Demo.three_files (100 * Demo.MiB)
           {| encoder := "libx264"; preset := "fast"; crf_param := "-crf";
              extra_params := None |}
           Demo.tagged IndexError).
  - vm_compute. reflexivity.
  - vm_compute. reflexivity.
  - vm_compute. reflexivity.
  - vm_compute. reflexivity.
  - reflexivity.
  - vm_compute. reflexivity.
  - apply not_elem_of_empty.
  - apply not_elem_of_empty.
  - apply not_elem_of_empty.
Defined.

(** ** The command line *)

Lemma gpu_config_inv gpu_type cfg :
  GPU_CONFIG !! gpu_type = Some cfg ->
  (gpu_type = "nvidia" /\ extra_params cfg = Some ["-rc:v"; "constqp"])
  \/ (gpu_type <> "nvidia" /\ extra_params cfg = None).
Proof.
  unfold GPU_CONFIG. cbn [list_to_map foldr uncurry].
  destruct (decide (gpu_type = "nvidia")) as [->|N1].
  { rewrite lookup_insert_eq. intros [= <-]. by left. }
  rewrite lookup_insert_ne by done.
  destruct (decide (gpu_type = "amd")) as [->|N2].
  { rewrite lookup_insert_eq. intros [= <-]. by right. }
  rewrite lookup_insert_ne by done.
  destruct (decide (gpu_type = "intel")) as [->|N3].
  { rewrite lookup_insert_eq. intros [= <-]. by right. }
  rewrite lookup_insert_ne by done.
  destruct (decide (gpu_type = "cpu")) as [->|N4].
  { rewrite lookup_insert_eq. intros [= <-]. by right. }
  rewrite lookup_insert_ne by done. by rewrite lookup_empty.
Qed.

(** X18.  In the command line of a job the input path follows [-i] and the
    output path is the eighteenth word; hardware decoding is asked for unless
    the encoder is the one of the processor.  The output path is the last
    word for every entry of [GPU_CONFIG] but [nvidia], whose extra parameters
    are put behind it. *)
Theorem build_cmd_shape input_path output_path gpu_type cfg crf :
  GPU_CONFIG !! gpu_type = Some cfg ->
  let cmd := build_cmd input_path output_path gpu_type cfg crf in
  cmd !! 0%nat = Some "ffmpeg" /\
  cmd !! 4%nat = Some (if String.eqb gpu_type "cpu" then "none" else "auto") /\
  cmd !! 5%nat = Some "-i" /\ cmd !! 6%nat = Some input_path /\
  cmd !! 17%nat = Some output_path /\
  (gpu_type <> "nvidia" -> last cmd = Some output_path) /\
  (gpu_type = "nvidia" -> drop 17 cmd = [output_path; "-rc:v"; "constqp"]).
Proof.
  intros Hcfg cmd. subst cmd. unfold build_cmd.
  destruct (gpu_config_inv _ _ Hcfg) as [[-> He]|[Hn He]]; rewrite He;
    repeat split; try done.
Qed.

(* ====================================================================== *)
(** * The statements on the small batch, continued *)
(* ====================================================================== *)

Lemma build_cmd_shape_witness :
  let cmd :=
    build_cmd "./a.mp4" "compressed/compressed_a.mp4" "nvidia"
      {| encoder := "h264_nvenc"; preset := "p6"; crf_param := "-cq:v";
         extra_params := Some ["-rc:v"; "constqp"] |} 23 in
  cmd !! 0%nat = Some "ffmpeg" /\
  cmd !! 4%nat = Some (if String.eqb "nvidia" "cpu" then "none" else "auto") /\
  cmd !! 5%nat = Some "-i" /\ cmd !! 6%nat = Some "./a.mp4" /\
  cmd !! 17%nat = Some "compressed/compressed_a.mp4" /\
  ("nvidia" <> "nvidia" -> last cmd = Some "compressed/compressed_a.mp4") /\
  ("nvidia" = "nvidia" ->
   drop 17 cmd = ["compressed/compressed_a.mp4"; "-rc:v"; "constqp"]).
Proof.
  apply (build_cmd_shape "./a.mp4" "compressed/compressed_a.mp4" "nvidia"
           {| encoder := "h264_nvenc"; preset := "p6"; crf_param := "-cq:v";
              extra_params := Some ["-rc:v"; "constqp"] |} 23).
  vm_compute. reflexivity.
Defined.

Lemma compress_video_kept_files_witness :
  exists n m cfg,
    files Demo.three_files !! PyPath.resolve "./a.mp4" = Some n /\
    files Demo.three_files
      !! PyPath.resolve (PyPath.join "skipped" (PyPath.basename "./a.mp4"))
    = None /\
    megabytes (100 * Demo.MiB) = megabytes n /\
    megabytes (40 * Demo.MiB) = megabytes m /\ (m < n)%N /\
    files (Demo.world_after
             (compress_video Demo.ffmpeg 10 "./a.mp4" "compressed" "cpu" 23
                Demo.three_files) Demo.three_files)
      !! PyPath.resolve
           (PyPath.join "compressed"
              ("compressed_" +:+ PyPath.basename "./a.mp4")) = Some m /\
    files (Demo.world_after
             (compress_video Demo.ffmpeg 10 "./a.mp4" "compressed" "cpu" 23
                Demo.three_files) Demo.three_files)
      !! PyPath.resolve "./a.mp4" = Some n /\
    files (Demo.world_after
             (compress_video Demo.ffmpeg 10 "./a.mp4" "compressed" "cpu" 23
                Demo.three_files) Demo.three_files)
      !! PyPath.resolve (PyPath.join "skipped" (PyPath.basename "./a.mp4"))
    = None /\
    (forall k,
       k <> PyPath.resolve
              (PyPath.join "compressed"
                 ("compressed_" +:+ PyPath.basename "./a.mp4")) ->
       files (Demo.world_after
                (compress_video Demo.ffmpeg 10 "./a.mp4" "compressed" "cpu"
                   23 Demo.three_files) Demo.three_files) !! k
       = files Demo.three_files !! k) /\
    GPU_CONFIG !! "cpu" = Some cfg /\
    launched (Demo.world_after
                (compress_video Demo.ffmpeg 10 "./a.mp4" "compressed" "cpu"
                   23 Demo.three_files) Demo.three_files)
    = launched Demo.three_files
      ++ [build_cmd "./a.mp4"
            (PyPath.join "compressed"
               ("compressed_" +:+ PyPath.basename "./a.mp4")) "cpu" cfg 23].
Proof.
  apply (compress_video_kept_files Demo.ffmpeg 10 "./a.mp4" "compressed"
           "cpu" 23 Demo.three_files);
    vm_compute; reflexivity.
Defined.

Lemma compress_video_footprint_witness :
  touches_only
    [PyPath.resolve "./d.mp4";
     PyPath.resolve
       (PyPath.join "compressed"
          ("compressed_" +:+ PyPath.basename "./d.mp4"));
     PyPath.resolve (PyPath.join "skipped" (PyPath.basename "./d.mp4"))]
    Demo.refused
    (Demo.world_after
       (compress_video Demo.ffmpeg 10 "./d.mp4" "compressed" "cpu" 23
          Demo.refused) Demo.refused).
Proof.
  apply (compress_video_footprint Demo.ffmpeg 10 "./d.mp4" "compressed"
           "cpu" 23 Demo.refused).
  right. exists PermissionError. vm_compute. reflexivity.
Defined.

Lemma compress_video_one_process_witness :
  launched (Demo.world_after
              (compress_video Demo.ffmpeg 10 "./d.mp4" "compressed" "cpu" 23
                 Demo.breaking) Demo.breaking)
  = launched Demo.breaking
  \/ exists n cfg,
       files Demo.breaking !! PyPath.resolve "./d.mp4" = Some n /\
       files Demo.breaking
         !! PyPath.resolve (PyPath.join "skipped" (PyPath.basename "./d.mp4"))
       = None /\
       GPU_CONFIG !! "cpu" = Some cfg /\
       launched (Demo.world_after
                   (compress_video Demo.ffmpeg 10 "./d.mp4" "compressed"
                      "cpu" 23 Demo.breaking) Demo.breaking)
       = launched Demo.breaking
         ++ [build_cmd "./d.mp4"
               (PyPath.join "compressed"
                  ("compressed_" +:+ PyPath.basename "./d.mp4"))
               "cpu" cfg 23].
Proof.
  apply (compress_video_one_process Demo.ffmpeg 10 "./d.mp4" "compressed"
           "cpu" 23 Demo.breaking).
  left. exists (megabytes (10 * Demo.MiB), 0%Q, true).
  vm_compute. reflexivity.
Defined.

Lemma compress_video_sizes_witness :
  (0 <= megabytes (40 * Demo.MiB))%Q /\
  (megabytes (40 * Demo.MiB) <= megabytes (100 * Demo.MiB))%Q /\
  (0 <= compression_ratio (megabytes (100 * Demo.MiB))
          (megabytes (40 * Demo.MiB)))%Q /\
  (compression_ratio (megabytes (100 * Demo.MiB)) (megabytes (40 * Demo.MiB))
   <= 100)%Q.
Proof.
  apply (compress_video_sizes Demo.ffmpeg 10 "./a.mp4" "compressed" "cpu" 23
           Demo.three_files _ _ false
           (Demo.world_after
              (compress_video Demo.ffmpeg 10 "./a.mp4" "compressed" "cpu" 23
                 Demo.three_files) Demo.three_files)).
  vm_compute. reflexivity.
Defined.


Lemma demo_half_tidy : tidy Demo.half_done.
Proof.
  intros n sz H.
  assert (Hin : n ∈ listdir_cwd Demo.half_done)
    by (apply elem_of_listdir; eauto).
  vm_compute in Hin.
  repeat (apply elem_of_cons in Hin as [->|Hin]; [vm_compute; reflexivity|]).
  by apply elem_of_nil in Hin.
Qed.


Lemma main_bar_total_witness :
  let names := List.filter candidate (listdir_cwd Demo.half_done) in
  pbar_total (Demo.world_after (main Demo.ffmpeg 10 Demo.listed Demo.half_done)
                Demo.half_done)
  = (pbar_total Demo.half_done + length names
     + length (List.filter (in_skipped Demo.half_done) names))%nat.
Proof.
  apply (main_bar_total Demo.ffmpeg 10 Demo.listed Demo.half_done).
  - exact demo_half_tidy.
  - vm_compute. reflexivity.
Defined.

Lemma main_launches_witness :
  let gpu_type := (get_gpu_type Demo.listed).1 in
  exists cfg started,
    GPU_CONFIG !! gpu_type = Some cfg /\
    sublist started
      (pending Demo.half_done
         (List.filter candidate (listdir_cwd Demo.half_done))) /\
    launched (Demo.world_after
                (main Demo.ffmpeg 10 Demo.listed Demo.half_done)
                Demo.half_done)
    = launched Demo.half_done
      ++ map (fun g => build_cmd ("./" +:+ g) ("compressed/compressed_" +:+ g)
                         gpu_type cfg 23) started.
Proof.
  apply (main_launches Demo.ffmpeg 10 Demo.listed Demo.half_done).
  - exact demo_half_tidy.
  - vm_compute. reflexivity.
Defined.


(** The small batch with one name in [skipped/]: one file is encoded and
    logged, and the bar of two files ends at three. *)
Example half_done_scene :
  let w' := Demo.world_after (main Demo.ffmpeg 10 Demo.listed Demo.half_done)
              Demo.half_done in
  pending Demo.half_done (List.filter candidate (listdir_cwd Demo.half_done))
  = ["a.mp4"] /\
  length (default [] (log w')) = 2%nat /\
  length (launched w') = 1%nat /\
  pbar_total w' = 3%nat.
Proof. vm_compute. done. Qed.

(* ====================================================================== *)
(** * Files in [skipped/] and a second run *)
(* ====================================================================== *)

Section Skipped.

Variable ffmpeg : ffmpeg_oracle.

(** The command lines of a run name no file that was in [skipped/]. *)
Lemma main_started_apart fuel encoders w w' g n :
  tidy w -> main ffmpeg fuel encoders w = Ret tt w' ->
  files w !! key_skip g = Some n ->
  exists cmds,
    launched w' = launched w ++ cmds /\
    forall cmd, cmd ∈ cmds -> cmd !! 6%nat <> Some ("./" +:+ g).
Proof.
  intros Htidy Hrun Hg.
  destruct (main_started ffmpeg fuel encoders w w' Htidy Hrun)
    as (cfg & started & _ & Hsub & Hla).
  eexists. split; [exact Hla|].
  intros cmd (h & -> & Hh)%list_elem_of_fmap.
  cbn [build_cmd app lookup list_lookup]. intros [= E].
  rewrite !str_app_nil_l in E. subst h.
  apply (elem_of_sublist _ _ _ Hh) in Hsub.
  apply list_elem_of_In, List.filter_In in Hsub as [_ Hp].
  apply negb_true_iff, bool_decide_eq_false_1 in Hp. apply Hp. by exists n.
Qed.

(** C3.  A file whose name is in [skipped/] is passed over by the loop of
    [main]: no process is started, nothing is logged or written, the bar
    moves.  [compress_video] itself, given such a file with its source in
    place (as [main] gives it), answers (0, 0, True) and changes nothing.
    A second run of the batch on what the first one left, the encoder
    answering each command line as before, ends and leaves every file where
    it is.  And whatever the encoder does, a run of the batch leaves what is
    in [skipped/] there and starts no process for it. *)
Theorem skipped_files_stay_skipped fuel :
  (forall gpu_type crf file w n,
     files w !! PyPath.resolve (PyPath.join "skipped" file) = Some n ->
     process_file ffmpeg fuel gpu_type crf file w
     = Ret tt (add_pbar 1 (add_pbar 1 w)))
  /\ (forall input_path output_folder gpu_type crf w m n,
        files w !! PyPath.resolve input_path = Some m ->
        files w !! PyPath.resolve
          (PyPath.join "skipped" (PyPath.basename input_path)) = Some n ->
        compress_video ffmpeg fuel input_path output_folder gpu_type crf w
        = Ret (0%Q, 0%Q, true) w)
  /\ (forall encoders w w1,
        steady ffmpeg -> tidy w ->
        main ffmpeg fuel encoders w = Ret tt w1 ->
        exists w2, main ffmpeg fuel encoders w1 = Ret tt w2 /\
                   files w2 = files w1)
  /\ (forall encoders w w' g n,
        tidy w -> main ffmpeg fuel encoders w = Ret tt w' ->
        files w !! key_skip g = Some n ->
        files w' !! key_skip g = Some n
        /\ exists cmds,
             launched w' = launched w ++ cmds /\
             forall cmd, cmd ∈ cmds -> cmd !! 6%nat <> Some ("./" +:+ g)).
Proof.
  split; [|split; [|split]].
  - intros. by eapply process_file_skip.
  - intros. by eapply compress_video_already.
  - intros encoders w w1 Hs Ht Hrun.
    destruct (main_twice ffmpeg fuel encoders w w1 Hs Ht Hrun)
      as (w2 & H2 & Hf & _).
    by exists w2.
  - intros encoders w w' g n Ht Hrun Hg. split.
    + by apply (main_keeps_skipped ffmpeg fuel encoders g n w w').
    + by apply (main_started_apart fuel encoders w w' g n).
Qed.

End Skipped.

Lemma skipped_files_stay_skipped_witness :
  exists w2,
    main Demo.ffmpeg 10 Demo.listed Demo.after_one_run
    = Ret tt w2 /\
    files w2 = files Demo.after_one_run.
Proof.
  destruct (skipped_files_stay_skipped Demo.ffmpeg 10) as (_ & _ & H & _).
  apply (H Demo.listed Demo.three_files Demo.after_one_run).
  - exact demo_steady.
  - exact demo_tidy.
  - vm_compute. reflexivity.
Defined.

(* ====================================================================== *)
(** * The conversions and the stream on examples *)
(* ====================================================================== *)

(** [int] and [float] read the decimal digits of every script, and strip the
    white space of C only: the separator U+001C, which [str.strip] takes
    for white space, is refused. *)
Example int_and_float_scene :
  PyNum.py_int "١٢" = Some 12
  /\ PyNum.py_float "٣.٥" = Some (Fin (7 # 2))
  /\ PyNum.py_int (String "1" (String (ascii_of_nat 28) EmptyString)) = None
  /\ PyStr.strip (String "1" (String (ascii_of_nat 28) EmptyString)) = "1"
  /\ PyNum.py_int (" 12" +:+ newline) = Some 12
  /\ PyNum.py_float "0.1"
     = Some (Fin (3602879701896397 # 36028797018963968))
  /\ PyNum.py_float "1e400" = Some (Inf false)
  /\ PyNum.py_float "-inf" = Some (Inf true).
Proof. repeat split; vm_compute; reflexivity. Qed.

(** [parse_time] on the same: digits of another script are read, the
    separator is not. *)
Example parse_time_scene :
  parse_time "١:٢.٠" = ((0, 1, Fin 2), [])
  /\ parse_time (String "1" (String (ascii_of_nat 28) ":2.0"))
     = (zero_time, [MsgParseError ValueError])
  /\ seconds_of (24000000000, 0, Fin 0) = inl OverflowError
  /\ seconds_of (0, 0, Fin (3602879701896397 # 36028797018963968))
     = inr (3602879701896397 # 36028797018963968).
Proof. repeat split; vm_compute; reflexivity. Qed.

(** The row of a file of 100 megabytes brought to 59.125: the quotient, its
    hundredfold and the difference are doubles, and the ratio comes out
    below 40.875. *)
Example log_row_scene :
  log_row "a.mp4" 100 (473 # 8) false
  = [FStr "a.mp4"; FNum (10000 # 100); FNum (5912 # 100); FNum (4087 # 100);
     FInt 0].
Proof. vm_compute. reflexivity. Qed.

(** A stream with a byte that is no UTF-8: the read raises, and the job is
    answered by the clean-up although the process ended well. *)
Example undecodable_stream_scene :
  let p :=
    {| stderr :=
         ["  Duration: 00:00:20.00, start: 0.000000, bitrate: 4100 kb/s";
          String (ascii_of_nat 255) EmptyString];
       returncode := 0;
       written := Some (2 * Demo.MiB)%N |} in
  stream_error 10 (stderr p) = Some UnicodeDecodeError
  /\ exists w',
       compress_video (fun _ _ => inr p) 10 "./a.mp4" "compressed" "cpu" 23
         Demo.three_files
       = Ret (megabytes (100 * Demo.MiB), 0%Q, true) w'
       /\ files w' !! ["a.mp4"] = None
       /\ files w' !! ["skipped"; "a.mp4"] = Some (100 * Demo.MiB)%N.
Proof.
  split; [vm_compute; reflexivity|].
  eexists. split; [vm_compute; reflexivity|].
  split; vm_compute; reflexivity.
Qed.
